(** * Bank statement converter: validation and confidence engine

    A shallow embedding of the analyzers of [bank_statement_converter]
    (hard rules validator, risk signal detector, error pattern matcher,
    confidence scorer, validation report and the part of the pipeline that
    merges them), followed by the properties proved about them.

    Conventions of the embedding.
    - [decimal.Decimal] is a finite decimal number: an integer coefficient
      and a power-of-ten exponent, the exponent being what
      [as_tuple().exponent] returns.  Sums and differences are exact, as
      Python's are while the result has at most 28 significant digits (the
      default context); NaN and the infinities are not represented.
    - [float] values (confidences, rates, weights) are exact rationals [Q]:
      rounding to binary64 is not modelled, a float literal is the decimal
      fraction it spells, and a quotient of two decimals is taken exactly.
      For counts below 2^53 the test [failed_checks > total_checks * 0.1]
      has the same outcome either way.
    - [datetime.date] is its proleptic ordinal, a [Z]; [date.today()] is an
      argument of the rules that read it.
    - [str] is [string]; the case conversions are those of ASCII letters.
    - Logging and the human-readable [message] of a finding are left out:
      no analyzer reads them. *)

From Stdlib Require Import ZArith QArith Qabs Qpower Bool String Ascii List Lia Lqa.
From Stdlib Require Import DecimalString Permutation Sorted.
Import ListNotations.

Local Open Scope Z_scope.

(** ** decimal.Decimal *)

Record Decimal := mkDecimal {
  coefficient : Z;
  exponent : Z
}.

(** The two coefficients written over the smaller of the two exponents. *)
Definition dec_align (a b : Decimal) : Z * Z * Z :=
  let e := Z.min (exponent a) (exponent b) in
  (coefficient a * 10 ^ (exponent a - e),
   coefficient b * 10 ^ (exponent b - e), e).

Definition dec_add (a b : Decimal) : Decimal :=
  let '(ca, cb, e) := dec_align a b in mkDecimal (ca + cb) e.

Definition dec_sub (a b : Decimal) : Decimal :=
  let '(ca, cb, e) := dec_align a b in mkDecimal (ca - cb) e.

Definition dec_abs (a : Decimal) : Decimal :=
  mkDecimal (Z.abs (coefficient a)) (exponent a).

Definition dec_ltb (a b : Decimal) : bool :=
  let '(ca, cb, _) := dec_align a b in ca <? cb.

Definition dec_eqb (a b : Decimal) : bool :=
  let '(ca, cb, _) := dec_align a b in ca =? cb.

(** [Decimal('0')], the start value of the sums, and an [int] operand. *)
Definition dec_of_Z (n : Z) : Decimal := mkDecimal n 0.

Definition dec_sum (l : list Decimal) : Decimal :=
  fold_left dec_add l (dec_of_Z 0).

(** The number a decimal denotes. *)
Definition dec_value (a : Decimal) : Q :=
  (inject_Z (coefficient a) * (10 # 1) ^ exponent a)%Q.

(** ** float: comparisons and the built-ins [min], [max] *)

Definition Qltb (x y : Q) : bool := negb (Qle_bool y x).

(** [min(a, b)] returns [b] when [b < a] and [a] otherwise. *)
Definition py_min (a b : Q) : Q := if Qltb b a then b else a.

(** [max(a, b)] returns [b] when [b > a] and [a] otherwise. *)
Definition py_max (a b : Q) : Q := if Qltb a b then b else a.

Definition Qsum (l : list Q) : Q := fold_left Qplus l 0%Q.

Definition Zlen {A : Type} (l : list A) : Z := Z.of_nat (length l).

(** ** dict: lookup with a default, as [d.get(key, default)] *)

Definition dict (V : Type) := list (string * V).

Fixpoint dict_get {V : Type} (d : dict V) (key : string) (default : V) : V :=
  match d with
  | [] => default
  | (k, v) :: rest => if String.eqb k key then v else dict_get rest key default
  end.

(** ** models/ocr_result.py *)

Definition date := Z.

Module BoundingBox.
Record t := mk {
  x : Q;
  y : Q;
  width : Q;
  height : Q
}.
End BoundingBox.

Module TransactionRow.
Record t := mk {
  transaction_date : option date;
  description : string;
  deposit : option Decimal;
  withdrawal : option Decimal;
  balance : option Decimal;
  posting_date : option date;
  reference_number : option string;
  date_confidence : Q;
  description_confidence : Q;
  amount_confidence : Q;
  balance_confidence : Q;
  bbox : option BoundingBox.t;
  page_number : Z;
  row_index : Z;
  amount_raw : string;
  date_raw : string
}.

(** The dataclass constructor with every defaulted field left out. *)
Definition default (transaction_date : option date) (description : string) : t :=
  mk transaction_date description None None None None None
     0%Q 0%Q 0%Q 0%Q None 1 0 EmptyString EmptyString.
End TransactionRow.

Module OCRResult.
Record t := mk {
  document_id : string;
  engine : string;
  processed_at : string;
  rows : list TransactionRow.t;
  header : list string;
  header_detected : bool;
  header_confidence : Q;
  opening_balance : option Decimal;
  closing_balance : option Decimal;
  page_count : Z;
  total_rows : Z;
  overall_confidence : Q
}.

Definition default (document_id engine processed_at : string) : t :=
  mk document_id engine processed_at [] [] false 0%Q None None 1 0 0%Q.
End OCRResult.

(** ** models/validation_report.py: RuleViolation *)

Module RuleViolation.
Record t := mk {
  rule : string;
  severity : string;
  row : option nat;
  field : option string;
  expected : option Decimal;
  actual : option Decimal;
  difference : option Q
}.
End RuleViolation.

(** ** Python sequences: [enumerate], [range(1, len(xs))], [xs[i]] *)

Definition enumerate {A : Type} (l : list A) : list (nat * A) :=
  combine (seq 0 (List.length l)) l.

(** [range(1, len(l))] *)
Definition range1 {A : Type} (l : list A) : list nat :=
  seq 1 (List.length l - 1).

Definition is_some {A : Type} (o : option A) : bool :=
  match o with Some _ => true | None => false end.

Definition is_none {A : Type} (o : option A) : bool := negb (is_some o).

Definition is_empty {A : Type} (l : list A) : bool :=
  match l with [] => true | _ :: _ => false end.

(** A [bool] counted as an [int], as [sum] does. *)
Definition Z_of_bool (b : bool) : Z := if b then 1 else 0.

(** The values [f r] of the rows where the optional field [f] is present,
    as the generator [(r.f for r in rows if r.f is not None)]. *)
Definition present {A B : Type} (f : A -> option B) (l : list A) : list B :=
  flat_map (fun r => match f r with Some v => [v] | None => [] end) l.

(** ** validators/hard_rules_validator.py *)

Module HardRulesValidator.

(** [self.tolerance = Decimal('0.02')] *)
Definition tolerance : Decimal := mkDecimal 2 (-2).

Definition is_valid_currency (amount : Decimal) : bool :=
  let decimal_places := Z.abs (exponent amount) in
  if 2 <? decimal_places then false
  else if dec_ltb (dec_of_Z 1000000) (dec_abs amount) then false
  else true.

(** Body of the loop of [validate_date_range] for the row [row] at [idx]. *)
Definition date_range_row (today : date) (rows : list TransactionRow.t)
    (idx : nat) (row : TransactionRow.t) : list RuleViolation.t :=
  match TransactionRow.transaction_date row with
  | None =>
      [RuleViolation.mk "DATE_MISSING" "CRITICAL" (Some idx) None None None None]
  | Some d =>
      (if today <? d
       then [RuleViolation.mk "DATE_IN_FUTURE" "CRITICAL" (Some idx)
               None None None None]
       else [])
      ++
      (if (0 <? idx)%nat then
         match nth_error rows (idx - 1) with
         | Some prev =>
             match TransactionRow.transaction_date prev with
             | Some prev_date =>
                 if d <? prev_date
                 then [RuleViolation.mk "DATE_NOT_MONOTONIC" "HIGH" (Some idx)
                         None None None None]
                 else []
             | None => []
             end
         | None => []
         end
       else [])
  end.

Definition validate_date_range (today : date) (result : OCRResult.t)
    : list RuleViolation.t :=
  flat_map (fun ir => date_range_row today (OCRResult.rows result) (fst ir) (snd ir))
           (enumerate (OCRResult.rows result)).

(** One of the three format blocks of [validate_amount_format]. *)
Definition amount_format_field (idx : nat) (name : string)
    (amount : option Decimal) : list RuleViolation.t :=
  match amount with
  | Some a =>
      if negb (is_valid_currency a)
      then [RuleViolation.mk "INVALID_AMOUNT_FORMAT" "CRITICAL" (Some idx)
              (Some name) None None None]
      else []
  | None => []
  end.

Definition amount_format_row (idx : nat) (row : TransactionRow.t)
    : list RuleViolation.t :=
  (match TransactionRow.deposit row, TransactionRow.withdrawal row with
   | None, None =>
       [RuleViolation.mk "NO_AMOUNT" "HIGH" (Some idx) None None None None]
   | Some d, Some w =>
       if negb (dec_eqb d (dec_of_Z 0)) && negb (dec_eqb w (dec_of_Z 0))
       then [RuleViolation.mk "BOTH_DEPOSIT_WITHDRAWAL" "MEDIUM" (Some idx)
               None None None None]
       else []
   | _, _ => []
   end)
  ++ amount_format_field idx "deposit" (TransactionRow.deposit row)
  ++ amount_format_field idx "withdrawal" (TransactionRow.withdrawal row)
  ++ amount_format_field idx "balance" (TransactionRow.balance row).

Definition validate_amount_format (result : OCRResult.t) : list RuleViolation.t :=
  flat_map (fun ir => amount_format_row (fst ir) (snd ir))
           (enumerate (OCRResult.rows result)).

(** [expected_balance] as the loop of [validate_running_balance] builds it. *)
Definition expected_balance (prev_balance : Decimal) (curr_row : TransactionRow.t)
    : Decimal :=
  let e := prev_balance in
  let e := match TransactionRow.deposit curr_row with
           | Some d => dec_add e d
           | None => e
           end in
  match TransactionRow.withdrawal curr_row with
  | Some w => dec_sub e w
  | None => e
  end.

(** Body of the loop of [validate_running_balance] at index [i]; the
    indices of [range(1, len(rows))] are always in range. *)
Definition running_balance_at (rows : list TransactionRow.t) (i : nat)
    : list RuleViolation.t :=
  match nth_error rows (i - 1), nth_error rows i with
  | Some prev_row, Some curr_row =>
      match TransactionRow.balance prev_row, TransactionRow.balance curr_row with
      | Some prev_balance, Some curr_balance =>
          let e := expected_balance prev_balance curr_row in
          let diff := dec_abs (dec_sub e curr_balance) in
          if dec_ltb tolerance diff
          then [RuleViolation.mk "RUNNING_BALANCE_MISMATCH" "CRITICAL" (Some i)
                  None (Some e) (Some curr_balance) (Some (dec_value diff))]
          else []
      | _, _ => []
      end
  | _, _ => []
  end.

Definition validate_running_balance (result : OCRResult.t) : list RuleViolation.t :=
  flat_map (running_balance_at (OCRResult.rows result))
           (range1 (OCRResult.rows result)).

Definition validate_overall_balance (result : OCRResult.t) : list RuleViolation.t :=
  match OCRResult.opening_balance result, OCRResult.closing_balance result with
  | Some opening, Some actual_closing =>
      let total_deposits :=
        dec_sum (present TransactionRow.deposit (OCRResult.rows result)) in
      let total_withdrawals :=
        dec_sum (present TransactionRow.withdrawal (OCRResult.rows result)) in
      let expected_closing :=
        dec_sub (dec_add opening total_deposits) total_withdrawals in
      let diff := dec_abs (dec_sub expected_closing actual_closing) in
      if dec_ltb tolerance diff
      then [RuleViolation.mk "OVERALL_BALANCE_MISMATCH" "CRITICAL" None None
              (Some expected_closing) (Some actual_closing)
              (Some (dec_value diff))]
      else []
  | _, _ => []
  end.

Definition validate (today : date) (result : OCRResult.t) : list RuleViolation.t :=
  if is_empty (OCRResult.rows result)
  then [RuleViolation.mk "NO_ROWS" "CRITICAL" None None None None None]
  else validate_date_range today result
       ++ validate_amount_format result
       ++ validate_running_balance result
       ++ validate_overall_balance result.

Definition count_checks (result : OCRResult.t) : Z :=
  let rows := OCRResult.rows result in
  if is_empty rows then 1
  else
    let count := 0 in
    let count := count + Zlen rows in
    let count := if 1 <? Zlen rows then count + (Zlen rows - 1) else count in
    let count := count + Zlen rows in
    let count :=
      fold_left
        (fun count row =>
           let count := if is_some (TransactionRow.deposit row)
                        then count + 1 else count in
           let count := if is_some (TransactionRow.withdrawal row)
                        then count + 1 else count in
           if is_some (TransactionRow.balance row) then count + 1 else count)
        rows count in
    let count :=
      fold_left
        (fun count i =>
           match nth_error rows (i - 1), nth_error rows i with
           | Some prev_row, Some curr_row =>
               if is_some (TransactionRow.balance prev_row)
                  && is_some (TransactionRow.balance curr_row)
               then count + 1 else count
           | _, _ => count
           end)
        (range1 rows) count in
    if is_some (OCRResult.opening_balance result)
       && is_some (OCRResult.closing_balance result)
    then count + 1 else count.

End HardRulesValidator.

(** ** models/ocr_result.py: risk signals *)

(** One entry of the [fields] list built by [check_low_confidence]. *)
Module LowConfidenceField.
Record t := mk {
  row : nat;
  field : string;
  confidence : Q;
  priority : string
}.
End LowConfidenceField.

(** The entries of the [issues] list of [check_structural_anomaly]. *)
Inductive StructuralIssue :=
| INCONSISTENT_ROWS (incomplete : nat) (rows : list nat)
| HEADER_DETECTION_FAILURE (header_confidence : Q)
| MULTI_PAGE_DOCUMENT (page_count : Z) (page_transitions : list nat).

(** The entries of the [errors] list of [quick_logic_check]. *)
Inductive LogicError :=
| BALANCE_MISMATCH (expected actual diff_rate : Q)
| DATE_RANGE_ANOMALY (span_days : Z) (min_date max_date : date)
| NEGATIVE_DEPOSIT (row : nat) (value : Q)
| NEGATIVE_WITHDRAWAL (row : nat) (value : Q).

(** What a [details] dictionary carries besides severity, action and
    message. *)
Inductive Payload :=
| NoPayload
| Fields (fields : list LowConfidenceField.t)
| Coverage (coverage : dict Q) (missing_examples : dict (list nat))
| Issues (issues : list StructuralIssue)
| Errors (errors : list LogicError)
| TemplateConfidence (confidence : Q).

(** The [details] dictionary handed to [RiskSignals.add]. *)
Module Details.
Record t := mk {
  severity : option string;
  action : option string;
  payload : Payload
}.
End Details.

Module RiskSignal.
Record t := mk {
  signal_type : string;
  severity : string;
  details : Details.t;
  action : string
}.
End RiskSignal.

(** The counts of [RiskSignals.to_dict]. *)
Module RiskSummary.
Record t := mk {
  total_signals : Z;
  critical_count : Z;
  high_count : Z;
  medium_count : Z;
  low_count : Z;
  signals : list RiskSignal.t
}.
End RiskSummary.

Module RiskSignals.

Definition t := list RiskSignal.t.

(** [self.signals.append(signal)]: the collection after [add]. *)
Definition add (self : t) (signal_type : string) (details : Details.t) : t :=
  self ++ [RiskSignal.mk signal_type
             (match Details.severity details with Some s => s | None => "MEDIUM" end)
             details
             (match Details.action details with Some a => a | None => "LOG_ONLY" end)].

Definition count_severity (sev : string) (self : t) : Z :=
  Zlen (filter (fun s => String.eqb (RiskSignal.severity s) sev) self).

Definition has_critical (self : t) : bool :=
  existsb (fun s => String.eqb (RiskSignal.severity s) "CRITICAL") self.

Definition count_high_or_medium (self : t) : Z :=
  Zlen (filter (fun s => String.eqb (RiskSignal.severity s) "HIGH"
                         || String.eqb (RiskSignal.severity s) "MEDIUM") self).

Definition to_dict (self : t) : RiskSummary.t :=
  RiskSummary.mk (Zlen self)
    (count_severity "CRITICAL" self)
    (count_severity "HIGH" self)
    (count_severity "MEDIUM" self)
    (count_severity "LOW" self)
    self.

End RiskSignals.

(** ** validators/risk_signal_detector.py *)

Module ValidationConfig.
Record t := mk {
  confidence_threshold : Q;
  field_coverage_thresholds : dict Q;
  confidence_weights : dict Q;
  trigger_rules : dict bool
}.

Definition default : t :=
  mk (85 # 100)
     [("transaction_date"%string, 95 # 100); ("amount"%string, 90 # 100);
      ("balance"%string, 85 # 100)]
     [("engine_quality"%string, 30 # 100); ("field_completeness"%string, 25 # 100);
      ("rule_consistency"%string, 30 # 100); ("risk_signals"%string, 15 # 100)]
     [("low_confidence"%string, true); ("low_coverage"%string, true);
      ("structural_anomaly"%string, true); ("logic_failure"%string, true);
      ("unknown_template"%string, true)].
End ValidationConfig.

(** ** str: [c in s], [sub in s], [lower], [upper] *)

Fixpoint char_in (c : ascii) (s : string) : bool :=
  match s with
  | EmptyString => false
  | String c' rest => Ascii.eqb c c' || char_in c rest
  end.

Fixpoint str_in (sub s : string) : bool :=
  String.prefix sub s
  || match s with
     | EmptyString => false
     | String _ rest => str_in sub rest
     end.

Definition ascii_lower (c : ascii) : ascii :=
  let n := nat_of_ascii c in
  if ((65 <=? n) && (n <=? 90))%nat then ascii_of_nat (n + 32) else c.

Definition ascii_upper (c : ascii) : ascii :=
  let n := nat_of_ascii c in
  if ((97 <=? n) && (n <=? 122))%nat then ascii_of_nat (n - 32) else c.

Fixpoint str_map (f : ascii -> ascii) (s : string) : string :=
  match s with
  | EmptyString => EmptyString
  | String c rest => String (f c) (str_map f rest)
  end.

Definition lower : string -> string := str_map ascii_lower.
Definition upper : string -> string := str_map ascii_upper.

Definition str_nonempty (s : string) : bool :=
  match s with EmptyString => false | String _ _ => true end.

Module RiskSignalDetector.

(** [self.known_banks], in insertion order. *)
Definition known_banks : list (string * list string) :=
  [("RBC", ["Royal Bank"; "RBC"; "Royal"]);
   ("TD", ["TD Bank"; "Toronto-Dominion"; "TD Canada"]);
   ("BMO", ["Bank of Montreal"; "BMO"; "BMO Bank"]);
   ("Scotiabank", ["Scotiabank"; "Scotia"; "Bank of Nova Scotia"]);
   ("CIBC", ["CIBC"; "Canadian Imperial"; "Imperial Bank"])]%string.

(** The entries one row adds to [low_conf_fields]. *)
Definition low_confidence_row (confidence_threshold : Q) (row_idx : nat)
    (row : TransactionRow.t) : list LowConfidenceField.t :=
  (if Qltb (TransactionRow.amount_confidence row) confidence_threshold
   then [LowConfidenceField.mk row_idx "amount"
           (TransactionRow.amount_confidence row) "P0"]
   else [])
  ++
  (if Qltb (TransactionRow.balance_confidence row) confidence_threshold
   then [LowConfidenceField.mk row_idx "balance"
           (TransactionRow.balance_confidence row) "P0"]
   else [])
  ++
  (if Qltb (TransactionRow.date_confidence row) confidence_threshold
   then [LowConfidenceField.mk row_idx "transaction_date"
           (TransactionRow.date_confidence row) "P1"]
   else []).

Definition count_priority (p : string) (l : list LowConfidenceField.t) : Z :=
  Zlen (filter (fun f => String.eqb (LowConfidenceField.priority f) p) l).

Definition check_low_confidence (config : ValidationConfig.t)
    (result : OCRResult.t) : list LowConfidenceField.t :=
  let rows := OCRResult.rows result in
  let low_conf_fields :=
    flat_map (fun ir => low_confidence_row
                          (ValidationConfig.confidence_threshold config)
                          (fst ir) (snd ir))
             (enumerate rows) in
  let p0_count := count_priority "P0" low_conf_fields in
  let p1_count := count_priority "P1" low_conf_fields in
  let p1_rate :=
    if is_empty rows then 0%Q
    else (inject_Z p1_count / inject_Z (Zlen rows))%Q in
  if (0 <? p0_count) || Qltb (2 # 10) p1_rate then low_conf_fields else [].

(** The indices of the rows that satisfy [p]. *)
Definition indices_where (p : TransactionRow.t -> bool)
    (rows : list TransactionRow.t) : list nat :=
  map fst (filter (fun ir => p (snd ir)) (enumerate rows)).

Definition missing_amount (row : TransactionRow.t) : bool :=
  is_none (TransactionRow.deposit row) && is_none (TransactionRow.withdrawal row).

(** [check_field_coverage]; [None] stands for the empty dictionary. *)
Definition check_field_coverage (config : ValidationConfig.t)
    (result : OCRResult.t) : option Details.t :=
  let rows := OCRResult.rows result in
  if is_empty rows then None
  else
    let total_rows := inject_Z (Zlen rows) in
    let missing_date :=
      indices_where (fun r => is_none (TransactionRow.transaction_date r)) rows in
    let missing_amt := indices_where missing_amount rows in
    let missing_balance :=
      indices_where (fun r => is_none (TransactionRow.balance r)) rows in
    let coverage : dict Q :=
      [("transaction_date"%string, 1 - inject_Z (Zlen missing_date) / total_rows);
       ("amount"%string, 1 - inject_Z (Zlen missing_amt) / total_rows);
       ("balance"%string, 1 - inject_Z (Zlen missing_balance) / total_rows)]%Q in
    let thresholds := ValidationConfig.field_coverage_thresholds config in
    let below :=
      filter (fun kv => Qltb (snd kv) (dict_get thresholds (fst kv) 0%Q)) coverage in
    if is_empty below then None
    else
      let severity :=
        if existsb (fun kv => Qltb (snd kv) (7 # 10)) below
        then "HIGH"%string else "MEDIUM"%string in
      Some (Details.mk (Some severity) (Some "REVIEW_RECOMMENDED"%string)
              (Coverage coverage
                 [("transaction_date"%string, firstn 10 missing_date);
                  ("amount"%string, firstn 10 missing_amt);
                  ("balance"%string, firstn 10 missing_balance)])).

Definition check_structural_anomaly (result : OCRResult.t) : list StructuralIssue :=
  let rows := OCRResult.rows result in
  if Zlen rows <? 3 then []
  else
    let incomplete_rows :=
      indices_where
        (fun row =>
           let missing_count :=
             Z_of_bool (is_none (TransactionRow.transaction_date row))
             + Z_of_bool (is_none (TransactionRow.balance row))
             + Z_of_bool (missing_amount row) in
           2 <=? missing_count)
        rows in
    (if Qltb (inject_Z (Zlen rows) * (1 # 10)) (inject_Z (Zlen incomplete_rows))
     then [INCONSISTENT_ROWS (List.length incomplete_rows) (firstn 10 incomplete_rows)]
     else [])
    ++
    (if negb (OCRResult.header_detected result)
        || Qltb (OCRResult.header_confidence result) (7 # 10)
     then [HEADER_DETECTION_FAILURE (OCRResult.header_confidence result)]
     else [])
    ++
    (if 1 <? OCRResult.page_count result then
       let page_transitions :=
         filter
           (fun i =>
              match nth_error rows i, nth_error rows (i - 1) with
              | Some r, Some p =>
                  negb (TransactionRow.page_number r =? TransactionRow.page_number p)
              | _, _ => false
              end)
           (range1 rows) in
       if (0 <? Zlen page_transitions)
       then [MULTI_PAGE_DOCUMENT (OCRResult.page_count result) page_transitions]
       else []
     else []).

(** [max(dates)] and [min(dates)] of a list with first element [d]. *)
Definition date_max (d : date) (rest : list date) : date := fold_left Z.max rest d.
Definition date_min (d : date) (rest : list date) : date := fold_left Z.min rest d.

Definition negative_amounts_row (idx : nat) (row : TransactionRow.t)
    : list LogicError :=
  (match TransactionRow.deposit row with
   | Some d =>
       if dec_ltb d (dec_of_Z 0) then [NEGATIVE_DEPOSIT idx (dec_value d)] else []
   | None => []
   end)
  ++
  (match TransactionRow.withdrawal row with
   | Some w =>
       if dec_ltb w (dec_of_Z 0) then [NEGATIVE_WITHDRAWAL idx (dec_value w)] else []
   | None => []
   end).

Definition quick_logic_check (result : OCRResult.t) : list LogicError :=
  let rows := OCRResult.rows result in
  (match OCRResult.opening_balance result, OCRResult.closing_balance result with
   | Some opening, Some actual_closing =>
       if is_empty rows then []
       else
         let total_deposits := dec_sum (present TransactionRow.deposit rows) in
         let total_withdrawals := dec_sum (present TransactionRow.withdrawal rows) in
         let expected_closing :=
           dec_sub (dec_add opening total_deposits) total_withdrawals in
         if negb (dec_eqb actual_closing (dec_of_Z 0)) then
           let diff_rate :=
             (dec_value (dec_abs (dec_sub expected_closing actual_closing))
              / dec_value (dec_abs actual_closing))%Q in
           if Qltb (1 # 10) diff_rate
           then [BALANCE_MISMATCH (dec_value expected_closing)
                   (dec_value actual_closing) diff_rate]
           else []
         else []
   | _, _ => []
   end)
  ++
  (match present TransactionRow.transaction_date rows with
   | [] => []
   | d :: rest =>
       let date_span := date_max d rest - date_min d rest in
       if 400 <? date_span
       then [DATE_RANGE_ANOMALY date_span (date_min d rest) (date_max d rest)]
       else []
   end)
  ++
  flat_map (fun ir => negative_amounts_row (fst ir) (snd ir)) (enumerate rows).

(** [any(kw.lower() in text for kw in keywords)] for some bank of the table. *)
Definition mentions_known_bank (text : string) : bool :=
  existsb (fun bank => existsb (fun kw => str_in (lower kw) text) (snd bank))
          known_banks.

Definition detect_bank_template (result : OCRResult.t) : Q :=
  let rows := OCRResult.rows result in
  if is_empty rows then 0%Q
  else
    let text_sample :=
      String.concat " "
        (filter str_nonempty (map TransactionRow.description (firstn 5 rows))) in
    let text_sample_lower := lower text_sample in
    if mentions_known_bank text_sample_lower then (9 # 10)%Q
    else if negb (is_empty (OCRResult.header result))
            && mentions_known_bank (lower (String.concat " " (OCRResult.header result)))
    then (85 # 100)%Q
    else (3 # 10)%Q.

Definition detect_signals (config : ValidationConfig.t) (docai_result : OCRResult.t)
    : RiskSignals.t :=
  let signals : RiskSignals.t := [] in
  let trigger := ValidationConfig.trigger_rules config in
  if is_empty (OCRResult.rows docai_result) then
    RiskSignals.add signals "NO_ROWS"
      (Details.mk (Some "CRITICAL"%string) (Some "MANUAL_REVIEW"%string) NoPayload)
  else
    let signals :=
      if dict_get trigger "low_confidence" true then
        let low_conf_fields := check_low_confidence config docai_result in
        if negb (is_empty low_conf_fields) then
          RiskSignals.add signals "LOW_CONFIDENCE"
            (Details.mk (Some "HIGH"%string) (Some "REVIEW_RECOMMENDED"%string)
               (Fields low_conf_fields))
        else signals
      else signals in
    let signals :=
      if dict_get trigger "low_coverage" true then
        match check_field_coverage config docai_result with
        | Some coverage_issue =>
            RiskSignals.add signals "LOW_FIELD_COVERAGE" coverage_issue
        | None => signals
        end
      else signals in
    let signals :=
      if dict_get trigger "structural_anomaly" true then
        let structural_issues := check_structural_anomaly docai_result in
        if negb (is_empty structural_issues) then
          RiskSignals.add signals "STRUCTURAL_ANOMALY"
            (Details.mk (Some "MEDIUM"%string) (Some "REVIEW_RECOMMENDED"%string)
               (Issues structural_issues))
        else signals
      else signals in
    let signals :=
      if dict_get trigger "logic_failure" true then
        let logic_errors := quick_logic_check docai_result in
        if negb (is_empty logic_errors) then
          RiskSignals.add signals "LOGIC_FAILURE"
            (Details.mk (Some "CRITICAL"%string) (Some "MANUAL_REVIEW"%string)
               (Errors logic_errors))
        else signals
      else signals in
    if dict_get trigger "unknown_template" true then
      let template_confidence := detect_bank_template docai_result in
      if Qltb template_confidence (7 # 10) then
        RiskSignals.add signals "UNKNOWN_TEMPLATE"
          (Details.mk (Some "MEDIUM"%string) (Some "REVIEW_RECOMMENDED"%string)
             (TemplateConfidence template_confidence))
      else signals
    else signals.

End RiskSignalDetector.

(** ** validators/error_pattern_db.py *)

Module ErrorPattern.
Record t := mk {
  name : string;
  description : string;
  severity : string;
  field : string;
  pattern_type : string;
  pattern_value : string;
  fix_suggestion : string
}.
End ErrorPattern.

Module PatternMatch.
Record t := mk {
  pattern_name : string;
  row : nat;
  field : string;
  value : string;
  severity : string;
  fix_suggestion : string
}.
End PatternMatch.

(** What [_get_field_value] can return: an amount, a text or a date. *)
Inductive FieldValue :=
| VDecimal (d : Decimal)
| VStr (s : string)
| VDate (d : date).

Definition is_digit (c : ascii) : bool :=
  let n := nat_of_ascii c in ((48 <=? n) && (n <=? 57))%nat.

(** [\d{1,2}/] at the head of [s]: what follows the slash. *)
Definition one_or_two_digits_slash (s : string) : option string :=
  match s with
  | String a (String b rest) =>
      if is_digit a then
        if Ascii.eqb b "/" then Some rest
        else if is_digit b then
          match rest with
          | String c rest' => if Ascii.eqb c "/" then Some rest' else None
          | EmptyString => None
          end
        else None
      else None
  | _ => None
  end.

(** [\d{4}$]: four digits up to the end of the text, or up to a newline
    that ends it. *)
Definition four_digits_end (s : string) : bool :=
  match s with
  | String a (String b (String c (String d rest))) =>
      is_digit a && is_digit b && is_digit c && is_digit d
      && match rest with
         | EmptyString => true
         | String nl EmptyString => Ascii.eqb nl "010"
         | _ => false
         end
  | _ => false
  end.

(** [re.match(r'^\d{1,2}/\d{1,2}/\d{4}$', v)] *)
Definition ambiguous_date (v : string) : bool :=
  match one_or_two_digits_slash v with
  | Some rest =>
      match one_or_two_digits_slash rest with
      | Some year => four_digits_end year
      | None => false
      end
  | None => false
  end.

Module ErrorPatternDatabase.

Section Library.

(** [re.search(pattern, text)] and [str] on amounts and dates, from the
    Python library. *)
Variable re_search : string -> string -> bool.
Variable str_decimal : Decimal -> string.
Variable str_date : date -> string.

Definition str (v : FieldValue) : string :=
  match v with
  | VDecimal d => str_decimal d
  | VStr s => s
  | VDate d => str_date d
  end.

Definition _get_field_value (row : TransactionRow.t) (field : string)
    : option FieldValue :=
  if String.eqb field "amount" then
    option_map VDecimal
      (match TransactionRow.deposit row with
       | Some d => Some d
       | None => TransactionRow.withdrawal row
       end)
  else if String.eqb field "amount_raw" then
    Some (VStr (TransactionRow.amount_raw row))
  else if String.eqb field "date" then
    option_map VDate (TransactionRow.transaction_date row)
  else if String.eqb field "date_raw" then
    Some (VStr (TransactionRow.date_raw row))
  else if String.eqb field "description" then
    Some (VStr (TransactionRow.description row))
  else if String.eqb field "balance" then
    option_map VDecimal (TransactionRow.balance row)
  else None.

Definition _check_format (value format_type : string) : bool :=
  if String.eqb format_type "has_parentheses" then
    char_in "(" value && char_in ")" value
  else if String.eqb format_type "missing_dollar_sign" then
    negb (char_in "$" value)
  else if String.eqb format_type "has_comma_as_decimal" then
    char_in "," value && negb (char_in "." value)
  else if String.eqb format_type "ambiguous_date" then
    ambiguous_date value
  else if String.eqb format_type "has_letter_o" then
    char_in "O" (upper value)
  else if String.eqb format_type "has_letter_l" then
    char_in "l" (lower value)
  else false.

Definition _check_value (value : FieldValue) (check_type : string) : bool :=
  if String.eqb check_type "negative" then
    match value with
    | VDecimal d => dec_ltb d (dec_of_Z 0)
    | _ => false
    end
  else false.

Definition _match_pattern (pattern : ErrorPattern.t) (row : TransactionRow.t)
    (row_idx : nat) : list PatternMatch.t :=
  match _get_field_value row (ErrorPattern.field pattern) with
  | None => []
  | Some field_value =>
      let is_match :=
        if String.eqb (ErrorPattern.pattern_type pattern) "regex" then
          re_search (ErrorPattern.pattern_value pattern) (str field_value)
        else if String.eqb (ErrorPattern.pattern_type pattern) "format_check" then
          _check_format (str field_value) (ErrorPattern.pattern_value pattern)
        else if String.eqb (ErrorPattern.pattern_type pattern) "value_check" then
          _check_value field_value (ErrorPattern.pattern_value pattern)
        else false in
      if is_match
      then [PatternMatch.mk (ErrorPattern.name pattern) row_idx
              (ErrorPattern.field pattern) (str field_value)
              (ErrorPattern.severity pattern)
              (ErrorPattern.fix_suggestion pattern)]
      else []
  end.

(** [match], over the catalog [patterns] the database holds. *)
Definition match_ (patterns : list ErrorPattern.t) (result : OCRResult.t)
    : list PatternMatch.t :=
  flat_map (fun ir => flat_map (fun pattern => _match_pattern pattern (snd ir) (fst ir))
                               patterns)
           (enumerate (OCRResult.rows result)).

End Library.

Definition bracket_negative_misread : ErrorPattern.t :=
  ErrorPattern.mk "bracket_negative_misread"
    "Bracketed negative number possibly misread as positive"
    "HIGH" "amount_raw" "format_check" "has_parentheses"
    "Verify amount is negative".

Definition dollar_sign_missing : ErrorPattern.t :=
  ErrorPattern.mk "dollar_sign_missing" "Amount missing dollar sign"
    "MEDIUM" "amount_raw" "format_check" "missing_dollar_sign"
    "Verify amount parsing".

Definition comma_decimal_confusion : ErrorPattern.t :=
  ErrorPattern.mk "comma_decimal_confusion"
    "Comma possibly misread as decimal point"
    "HIGH" "amount_raw" "format_check" "has_comma_as_decimal"
    "Check if European format (1.234,56)".

Definition date_ambiguity : ErrorPattern.t :=
  ErrorPattern.mk "date_ambiguity" "Date format ambiguous (MM/DD vs DD/MM)"
    "MEDIUM" "date_raw" "format_check" "ambiguous_date"
    "Verify month/day order".

Definition zero_o_confusion : ErrorPattern.t :=
  ErrorPattern.mk "zero_o_confusion" "Letter O possibly confused with zero"
    "HIGH" "amount_raw" "format_check" "has_letter_o"
    "Check if O should be 0".

Definition one_l_confusion : ErrorPattern.t :=
  ErrorPattern.mk "one_l_confusion" "Letter l possibly confused with 1"
    "HIGH" "amount_raw" "format_check" "has_letter_l"
    "Check if l should be 1".

Definition negative_deposit : ErrorPattern.t :=
  ErrorPattern.mk "negative_deposit" "Deposit amount is negative"
    "CRITICAL" "amount" "value_check" "negative"
    "Deposits should be positive".

Definition _get_default_patterns : list ErrorPattern.t :=
  [bracket_negative_misread; dollar_sign_missing; comma_decimal_confusion;
   date_ambiguity; zero_o_confusion; one_l_confusion; negative_deposit].

End ErrorPatternDatabase.

(** ** models/validation_report.py: ValidationReport *)

(** The [details] of a confidence component. *)
Inductive ComponentDetails :=
| SourceNote (source : string)
| CoverageDetails (coverage : dict Q)
| RuleCounts (total_checks failed_checks : Z)
| RiskDetails (critical high medium low : Z) (penalty : Q).

(** The dictionary built by [ConfidenceScorer._component]. *)
Module Component.
Record t := mk {
  key : string;
  label : string;
  score : option Q;
  weight : Q;
  details : ComponentDetails;
  available : bool
}.
End Component.

Module Metrics.
Record t := mk {
  engine_confidence : Q;
  field_coverage : dict Q;
  rule_pass_rate : Q;
  risk_signals : ComponentDetails
}.
End Metrics.

Module ValidationReport.
Record t := mk {
  document_id : string;
  validation_status : string;
  risk_signals : option RiskSummary.t;
  rule_violations : list RuleViolation.t;
  total_checks : Z;
  passed_checks : Z;
  failed_checks : Z;
  warnings : Z;
  rule_pass_rate : Q;
  overall_confidence : Q;
  confidence_label : string;
  confidence_components : list Component.t;
  confidence_notes : list string;
  confidence_metrics : option Metrics.t;
  pattern_matches : option (list PatternMatch.t)
}.

(** The constructor call of the pipeline: every other field at its default. *)
Definition new (document_id validation_status : string)
    (risk_signals : option RiskSummary.t) : t :=
  mk document_id validation_status risk_signals [] 0 0 0 0 0%Q 0%Q "Low" [] []
     None None.

Definition add_violation (self : t) (violation : RuleViolation.t) : t :=
  mk (document_id self) (validation_status self) (risk_signals self)
     (rule_violations self ++ [violation])
     (total_checks self) (passed_checks self) (failed_checks self + 1)
     (warnings self) (rule_pass_rate self) (overall_confidence self)
     (confidence_label self) (confidence_components self)
     (confidence_notes self) (confidence_metrics self) (pattern_matches self).

Definition add_violations (self : t) (violations : list RuleViolation.t) : t :=
  mk (document_id self) (validation_status self) (risk_signals self)
     (rule_violations self ++ violations)
     (total_checks self) (passed_checks self)
     (failed_checks self + Zlen violations)
     (warnings self) (rule_pass_rate self) (overall_confidence self)
     (confidence_label self) (confidence_components self)
     (confidence_notes self) (confidence_metrics self) (pattern_matches self).

Definition count_severity (sev : string) (vs : list RuleViolation.t) : Z :=
  Zlen (filter (fun v => String.eqb (RuleViolation.severity v) sev) vs).

Definition calculate_summary (self : t) : t :=
  let total_checks' :=
    if total_checks self =? 0 then passed_checks self + failed_checks self
    else
      let minimum_total := passed_checks self + failed_checks self in
      if total_checks self <? minimum_total then minimum_total
      else total_checks self in
  let critical_count := count_severity "CRITICAL" (rule_violations self) in
  let high_count := count_severity "HIGH" (rule_violations self) in
  let validation_status' :=
    if 0 <? critical_count then "NEEDS_REVIEW"%string
    else if (0 <? high_count)
            || Qltb (inject_Z total_checks' * (1 # 10)) (inject_Z (failed_checks self))
    then "REVIEW_RECOMMENDED"%string
    else "APPROVED"%string in
  let rule_pass_rate' :=
    if 0 <? total_checks'
    then (inject_Z (passed_checks self) / inject_Z total_checks')%Q
    else 0%Q in
  let overall_confidence' :=
    if (0 <? total_checks') && Qeq_bool (overall_confidence self) 0
    then rule_pass_rate'
    else overall_confidence self in
  mk (document_id self) validation_status' (risk_signals self)
     (rule_violations self) total_checks' (passed_checks self)
     (failed_checks self) (warnings self) rule_pass_rate' overall_confidence'
     (confidence_label self) (confidence_components self)
     (confidence_notes self) (confidence_metrics self) (pattern_matches self).

(** Attribute assignments of the pipeline, [report.f = v]. *)
Definition set_warnings (self : t) (v : Z) : t :=
  mk (document_id self) (validation_status self) (risk_signals self)
     (rule_violations self) (total_checks self) (passed_checks self)
     (failed_checks self) v (rule_pass_rate self) (overall_confidence self)
     (confidence_label self) (confidence_components self)
     (confidence_notes self) (confidence_metrics self) (pattern_matches self).

Definition set_pattern_matches (self : t) (v : list PatternMatch.t) : t :=
  mk (document_id self) (validation_status self) (risk_signals self)
     (rule_violations self) (total_checks self) (passed_checks self)
     (failed_checks self) (warnings self) (rule_pass_rate self)
     (overall_confidence self) (confidence_label self)
     (confidence_components self) (confidence_notes self)
     (confidence_metrics self) (Some v).

Definition set_total_checks (self : t) (v : Z) : t :=
  mk (document_id self) (validation_status self) (risk_signals self)
     (rule_violations self) v (passed_checks self)
     (failed_checks self) (warnings self) (rule_pass_rate self)
     (overall_confidence self) (confidence_label self)
     (confidence_components self) (confidence_notes self)
     (confidence_metrics self) (pattern_matches self).

Definition set_passed_checks (self : t) (v : Z) : t :=
  mk (document_id self) (validation_status self) (risk_signals self)
     (rule_violations self) (total_checks self) v
     (failed_checks self) (warnings self) (rule_pass_rate self)
     (overall_confidence self) (confidence_label self)
     (confidence_components self) (confidence_notes self)
     (confidence_metrics self) (pattern_matches self).

Definition set_confidence (self : t) (score : Q) (label : string)
    (components : list Component.t) (notes : list string) (metrics : Metrics.t)
    : t :=
  mk (document_id self) (validation_status self) (risk_signals self)
     (rule_violations self) (total_checks self) (passed_checks self)
     (failed_checks self) (warnings self) (rule_pass_rate self)
     score label components notes (Some metrics) (pattern_matches self).

End ValidationReport.

(** ** validators/confidence_scorer.py *)

Module Assessment.
Record t := mk {
  score : Q;
  label : string;
  components : list Component.t;
  metrics : Metrics.t;
  notes : list string
}.
End Assessment.

Module ConfidenceScorer.

Definition _component (key label : string) (score : option Q) (weight : Q)
    (details : ComponentDetails) : Component.t :=
  Component.mk key label score weight details (is_some score).

(** [c['score'] * c['weight']]; a component built by [_component] that is
    available has a score. *)
Definition weighted (c : Component.t) : Q :=
  match Component.score c with
  | Some s => (s * Component.weight c)%Q
  | None => 0%Q
  end.

Definition _weighted_score (components : list Component.t) : Q :=
  let usable :=
    filter (fun c => Component.available c && Qltb 0 (Component.weight c))
           components in
  let total_weight := Qsum (map Component.weight usable) in
  if Qle_bool total_weight 0 then 0%Q
  else
    let score := (Qsum (map weighted usable) / total_weight)%Q in
    py_max 0 (py_min 1 score).

Definition _label (score : Q) : string :=
  if Qle_bool (85 # 100) score then "High"
  else if Qle_bool (7 # 10) score then "Medium"
  else "Low".

(** The three confidences [_engine_confidence] reads from a row, the
    zero ones dropped. *)
Definition row_confidences (row : TransactionRow.t) : list Q :=
  filter (fun value => negb (Qeq_bool value 0))
         [TransactionRow.date_confidence row;
          TransactionRow.amount_confidence row;
          TransactionRow.balance_confidence row].

Definition _engine_confidence (result : OCRResult.t) : Q :=
  if Qltb 0 (OCRResult.overall_confidence result)
  then OCRResult.overall_confidence result
  else
    let confidences := flat_map row_confidences (OCRResult.rows result) in
    if is_empty confidences then 0%Q
    else (Qsum confidences / inject_Z (Zlen confidences))%Q.

Definition count_rows (p : TransactionRow.t -> bool) (rows : list TransactionRow.t)
    : Q :=
  inject_Z (Zlen (filter p rows)).

Definition _field_completeness (result : OCRResult.t) : Q * dict Q :=
  let rows := OCRResult.rows result in
  if is_empty rows then
    (0%Q, [("transaction_date"%string, 0%Q); ("amount"%string, 0%Q);
           ("balance"%string, 0%Q)])
  else
    let total_rows := inject_Z (Zlen rows) in
    let date_count :=
      count_rows (fun row => is_some (TransactionRow.transaction_date row)) rows in
    let amount_count :=
      count_rows (fun row => is_some (TransactionRow.deposit row)
                             || is_some (TransactionRow.withdrawal row)) rows in
    let balance_count :=
      count_rows (fun row => is_some (TransactionRow.balance row)) rows in
    let coverage : dict Q :=
      [("transaction_date"%string, date_count / total_rows);
       ("amount"%string, amount_count / total_rows);
       ("balance"%string, balance_count / total_rows)]%Q in
    ((Qsum (map snd coverage) / inject_Z (Zlen coverage))%Q, coverage).

Definition _risk_signal_score (risk_signals : option RiskSummary.t)
    : Q * ComponentDetails :=
  let '(critical, high, medium, low) :=
    match risk_signals with
    | Some d => (RiskSummary.critical_count d, RiskSummary.high_count d,
                 RiskSummary.medium_count d, RiskSummary.low_count d)
    | None => (0, 0, 0, 0)
    end in
  let penalty :=
    (inject_Z critical * (2 # 10) + inject_Z high * (1 # 10)
     + inject_Z medium * (5 # 100) + inject_Z low * (2 # 100))%Q in
  let score := py_max 0 (1 - py_min 1 penalty)%Q in
  (score, RiskDetails critical high medium low penalty).

Definition assess (config : ValidationConfig.t) (primary : OCRResult.t)
    (report : ValidationReport.t) : Assessment.t :=
  let weights := ValidationConfig.confidence_weights config in
  let engine_score := _engine_confidence primary in
  let '(completeness_score, coverage) := _field_completeness primary in
  let rule_pass_rate := ValidationReport.rule_pass_rate report in
  let '(risk_score, risk_details) :=
    _risk_signal_score (ValidationReport.risk_signals report) in
  let components :=
    [_component "engine_quality" "Primary engine quality" (Some engine_score)
       (dict_get weights "engine_quality" (25 # 100))
       (SourceNote "Document AI page quality score");
     _component "field_completeness" "Critical field coverage"
       (Some completeness_score)
       (dict_get weights "field_completeness" (20 # 100))
       (CoverageDetails coverage);
     _component "rule_consistency" "Hard-rule consistency" (Some rule_pass_rate)
       (dict_get weights "rule_consistency" (25 # 100))
       (RuleCounts (ValidationReport.total_checks report)
          (ValidationReport.failed_checks report));
     _component "risk_signals" "Risk signal penalty" (Some risk_score)
       (dict_get weights "risk_signals" (10 # 100))
       risk_details] in
  let overall_score := _weighted_score components in
  Assessment.mk overall_score (_label overall_score) components
    (Metrics.mk engine_score coverage rule_pass_rate risk_details) [].

End ConfidenceScorer.

(** ** core/pipeline.py *)

Module BankStatementPipeline.

Section Library.

Variable re_search : string -> string -> bool.
Variable str_decimal : Decimal -> string.
Variable str_date : date -> string.

(** [process] from the table the primary engine returned onwards, up to
    the verdict handed to the report generator.  [patterns] is the catalog
    the pattern database loaded, [today] the value of [date.today()]. *)
Definition process (validation_config : ValidationConfig.t)
    (patterns : list ErrorPattern.t) (today : date)
    (primary_result : OCRResult.t) : OCRResult.t * ValidationReport.t :=
  let risk_signals :=
    RiskSignalDetector.detect_signals validation_config primary_result in
  let rule_violations := HardRulesValidator.validate today primary_result in
  let pattern_matches :=
    ErrorPatternDatabase.match_ re_search str_decimal str_date patterns
      primary_result in
  let validation_report :=
    ValidationReport.new (OCRResult.document_id primary_result) "APPROVED"
      (Some (RiskSignals.to_dict risk_signals)) in
  let validation_report :=
    ValidationReport.add_violations validation_report rule_violations in
  let validation_report :=
    ValidationReport.set_warnings validation_report (Zlen pattern_matches) in
  let validation_report :=
    ValidationReport.set_pattern_matches validation_report pattern_matches in
  let validation_report :=
    ValidationReport.set_total_checks validation_report
      (HardRulesValidator.count_checks primary_result) in
  let validation_report :=
    ValidationReport.set_passed_checks validation_report
      (Z.max (ValidationReport.total_checks validation_report
              - ValidationReport.failed_checks validation_report) 0) in
  let validation_report := ValidationReport.calculate_summary validation_report in
  let confidence :=
    ConfidenceScorer.assess validation_config primary_result validation_report in
  let validation_report :=
    ValidationReport.set_confidence validation_report
      (Assessment.score confidence) (Assessment.label confidence)
      (Assessment.components confidence) (Assessment.notes confidence)
      (Assessment.metrics confidence) in
  (primary_result, validation_report).

End Library.

End BankStatementPipeline.

(** ** validators/error_pattern_db.py: the feedback loop *)

(** [s.replace(old, new)] for one-character [old] and [new]. *)
Definition replace_char (old new : ascii) (s : string) : string :=
  str_map (fun c => if Ascii.eqb c old then new else c) s.

(** The dictionary built by [FeedbackLoop._analyze_error]. *)
Module ErrorType.
Record t := mk {
  field : string;
  incorrect : string;
  correct : string;
  error_category : string
}.
End ErrorType.

Module FeedbackLoop.

Definition _categorize_error (incorrect correct : string) : string :=
  if char_in "(" incorrect || char_in ")" incorrect then "bracket_issue"
  else if String.eqb (replace_char "O" "0" incorrect) correct
  then "o_zero_confusion"
  else if String.eqb (replace_char "l" "1" incorrect) correct
  then "l_one_confusion"
  else "other".

Definition _analyze_error (incorrect correct field : string) : ErrorType.t :=
  ErrorType.mk field incorrect correct (_categorize_error incorrect correct).

(** [self.pattern_db.patterns] is the argument [patterns]. *)
Definition _has_similar_pattern (patterns : list ErrorPattern.t)
    (error_type : ErrorType.t) : bool :=
  existsb (fun p => str_in (ErrorType.error_category error_type)
                           (ErrorPattern.name p))
          patterns.

Definition _create_pattern_from_error (error_type : ErrorType.t)
    (description : string) : option ErrorPattern.t :=
  None.

(** [ErrorPatternDatabase.add_pattern]: the catalog after the append (the
    catalog is then written to its file). *)
Definition add_pattern (patterns : list ErrorPattern.t) (pattern : ErrorPattern.t)
    : list ErrorPattern.t :=
  patterns ++ [pattern].

(** [process_correction]: the catalog of the database afterwards. *)
Definition process_correction (patterns : list ErrorPattern.t)
    (document_id : string) (row_idx : nat)
    (field incorrect_value correct_value description : string)
    : list ErrorPattern.t :=
  let error_type := _analyze_error incorrect_value correct_value field in
  if negb (_has_similar_pattern patterns error_type) then
    match _create_pattern_from_error error_type description with
    | Some new_pattern => add_pattern patterns new_pattern
    | None => patterns
    end
  else patterns.

End FeedbackLoop.

(** ** utils/report_generator.py *)

(** [str(n)] for a count. *)
Definition str_nat (n : nat) : string :=
  NilZero.string_of_uint (Nat.to_uint n).

(** An entry of the list built by [_collect_review_items]. *)
Module ReviewItem.
Record t := mk {
  row : option nat;
  source : string;
  field : option string;
  severity : string;
  expected : string;
  actual : string
}.
End ReviewItem.

Module BusinessStatus.
Record t := mk {
  label : string;
  risk_level : string
}.
End BusinessStatus.

(** [items.sort(key=key)]: the stable sort by [key]. *)
Fixpoint insert_by {A : Type} (key : A -> Z) (x : A) (l : list A) : list A :=
  match l with
  | [] => [x]
  | y :: rest => if key x <=? key y then x :: y :: rest
                 else y :: insert_by key x rest
  end.

Definition sort_by {A : Type} (key : A -> Z) (l : list A) : list A :=
  fold_right (insert_by key) [] l.

Module BusinessSummary.
Record t := mk {
  document_id : string;
  status : BusinessStatus.t;
  score : Q;
  label : string;
  transactions : Z;
  failed_checks : Z;
  warnings : Z;
  review_items : Z;
  actions : list string;
  highlights : list ReviewItem.t
}.
End BusinessSummary.

Module ReportGenerator.

Section Library.

Variable str_decimal : Decimal -> string.

Definition _generate_recommendations (validation_report : ValidationReport.t)
    : list string :=
  let recommendations : list string := [] in
  let recommendations :=
    if String.eqb (ValidationReport.validation_status validation_report)
         "NEEDS_REVIEW"
    then recommendations
         ++ ["CRITICAL: Manual review required before using this data"%string]
    else recommendations in
  let critical_violations :=
    filter (fun v => String.eqb (RuleViolation.severity v) "CRITICAL")
           (ValidationReport.rule_violations validation_report) in
  let recommendations :=
    if negb (is_empty critical_violations)
    then recommendations
         ++ [("Found " ++ str_nat (List.length critical_violations)
              ++ " critical rule violations - verify data accuracy")%string]
    else recommendations in
  let recommendations :=
    if String.eqb (ValidationReport.confidence_label validation_report) "Low"
    then recommendations
         ++ ["Low confidence score - consider manual verification"%string]
    else recommendations in
  if is_empty recommendations
  then recommendations ++ ["Data passed all validations - safe to use"%string]
  else recommendations.

Definition _collect_review_items (validation_report : ValidationReport.t)
    : list ReviewItem.t :=
  map (fun violation =>
         ReviewItem.mk (RuleViolation.row violation) "rule"
           (RuleViolation.field violation) (RuleViolation.severity violation)
           (match RuleViolation.expected violation with
            | Some e => str_decimal e
            | None => EmptyString
            end)
           (match RuleViolation.actual violation with
            | Some a => str_decimal a
            | None => EmptyString
            end))
      (ValidationReport.rule_violations validation_report)
  ++ match ValidationReport.pattern_matches validation_report with
     | Some matches =>
         map (fun m =>
                ReviewItem.mk (Some (PatternMatch.row m)) "pattern"
                  (Some (PatternMatch.field m)) (PatternMatch.severity m)
                  EmptyString (PatternMatch.value m))
             matches
     | None => []
     end.

(** [severity_order.get(item.get("severity", "LOW"), 9)] *)
Definition severity_rank (item : ReviewItem.t) : Z :=
  dict_get [("CRITICAL"%string, 0); ("HIGH"%string, 1); ("MEDIUM"%string, 2);
            ("LOW"%string, 3)]
           (ReviewItem.severity item) 9.

(** [generate_review_rows_csv]: the rows written under the header line, or
    [None] when no file is written. *)
Definition generate_review_rows_csv (validation_report : ValidationReport.t)
    : option (list ReviewItem.t) :=
  let review_items := _collect_review_items validation_report in
  if is_empty review_items then None
  else Some (sort_by severity_rank review_items).

Definition _business_status (validation_status : string) : BusinessStatus.t :=
  if String.eqb validation_status "NEEDS_REVIEW"
  then BusinessStatus.mk "Needs Review" "High"
  else if String.eqb validation_status "REVIEW_RECOMMENDED"
  then BusinessStatus.mk "Review Recommended" "Medium"
  else if String.eqb validation_status "APPROVED"
  then BusinessStatus.mk "Approved" "Low"
  else BusinessStatus.mk validation_status "Unknown".

Definition _business_actions (validation_report : ValidationReport.t)
    (review_items : list ReviewItem.t) : list string :=
  let actions :=
    if String.eqb (ValidationReport.validation_status validation_report)
         "NEEDS_REVIEW"
    then ["Manual review required before use"%string]
    else if String.eqb (ValidationReport.validation_status validation_report)
              "REVIEW_RECOMMENDED"
    then ["Manual spot-check recommended"%string]
    else ["Data looks usable; perform standard spot-check"%string] in
  if negb (is_empty review_items)
  then actions ++ ["Review the generated review_rows CSV for flagged items"%string]
  else actions.

(** [generate_business_summary]: the summary written, without its
    timestamps. *)
Definition generate_business_summary (result : OCRResult.t)
    (validation_report : ValidationReport.t) : BusinessSummary.t :=
  let status :=
    _business_status (ValidationReport.validation_status validation_report) in
  let review_items := _collect_review_items validation_report in
  BusinessSummary.mk (ValidationReport.document_id validation_report) status
    (ValidationReport.overall_confidence validation_report)
    (ValidationReport.confidence_label validation_report)
    (Zlen (OCRResult.rows result))
    (ValidationReport.failed_checks validation_report)
    (ValidationReport.warnings validation_report)
    (Zlen review_items)
    (_business_actions validation_report review_items)
    (firstn 10 review_items).

End Library.

End ReportGenerator.

(** ** str: [strip], [endswith], slices, [rfind] *)

(** The ASCII characters [str.strip] removes. *)
Definition is_space (c : ascii) : bool :=
  let n := nat_of_ascii c in
  (((9 <=? n) && (n <=? 13)) || ((28 <=? n) && (n <=? 32)))%nat.

Fixpoint lstrip (s : string) : string :=
  match s with
  | EmptyString => EmptyString
  | String c rest => if is_space c then lstrip rest else s
  end.

Fixpoint rstrip (s : string) : string :=
  match s with
  | EmptyString => EmptyString
  | String c rest =>
      match rstrip rest with
      | EmptyString => if is_space c then EmptyString else String c EmptyString
      | kept => String c kept
      end
  end.

Definition strip (s : string) : string := rstrip (lstrip s).

(** [s.endswith(suffix)] *)
Fixpoint endswith (s suffix : string) : bool :=
  String.eqb s suffix
  || match s with
     | EmptyString => false
     | String _ rest => endswith rest suffix
     end.

(** [s[:-n]] for [1 <= n]. *)
Definition drop_last (n : nat) (s : string) : string :=
  String.substring 0 (String.length s - n) s.

(** [s[1:]] and [s[1:-1]]. *)
Definition drop_first (s : string) : string :=
  match s with
  | EmptyString => EmptyString
  | String _ rest => rest
  end.

(** [s.replace(c, "")] for a one-character [c]. *)
Fixpoint remove_char (c : ascii) (s : string) : string :=
  match s with
  | EmptyString => EmptyString
  | String c' rest =>
      if Ascii.eqb c' c then remove_char c rest else String c' (remove_char c rest)
  end.

(** [s.rfind(c)], counted from [i] for the first character; [-1] when [c]
    does not occur. *)
Fixpoint rfind_from (i : Z) (c : ascii) (s : string) : Z :=
  match s with
  | EmptyString => -1
  | String c' rest =>
      let later := rfind_from (i + 1) c rest in
      if later =? -1 then (if Ascii.eqb c' c then i else -1) else later
  end.

Definition rfind (c : ascii) (s : string) : Z := rfind_from 0 c s.

(** [re.search(r",\d{2}$", s)]: a comma and two digits at the end of the
    text, or before a newline that ends it. *)
Fixpoint comma_two_digits_at_end (s : string) : bool :=
  match s with
  | EmptyString => false
  | String c rest =>
      (Ascii.eqb c ","
       && match rest with
          | String a (String b tail) =>
              is_digit a && is_digit b
              && match tail with
                 | EmptyString => true
                 | String nl EmptyString => Ascii.eqb nl "010"
                 | _ => false
                 end
          | _ => false
          end)
      || comma_two_digits_at_end rest
  end.

Definition dec_neg (a : Decimal) : Decimal :=
  mkDecimal (- coefficient a) (exponent a).

(** ** utils/parsing.py *)

Module Parsing.

Definition _DATE_FORMATS : list string :=
  ["%Y-%m-%d"; "%Y/%m/%d"; "%m/%d/%Y"; "%d/%m/%Y"; "%m-%d-%Y"; "%d-%m-%Y";
   "%b %d, %Y"; "%B %d, %Y"; "%d-%b-%Y"; "%d %b %Y"]%string.

Section Library.

(** [datetime.strptime(text, fmt).date()] and [Decimal(text)], with [None]
    for the exceptions the callers catch. *)
Variable strptime : string -> string -> option date.
Variable Decimal_of_string : string -> option Decimal.

Definition parse_date (value : option string) : option date :=
  match value with
  | None => None
  | Some value =>
      if negb (str_nonempty value) then None
      else
        let cleaned := strip value in
        if negb (str_nonempty cleaned) then None
        else
          fold_right (fun fmt later =>
                        match strptime cleaned fmt with
                        | Some d => Some d
                        | None => later
                        end)
                     None _DATE_FORMATS
  end.

(** The part of [parse_amount] before the call of [Decimal]: whether the
    amount is negative, and the text handed to [Decimal]. *)
Definition normalise_amount (value : string) : option (bool * string) :=
  if negb (str_nonempty value) then None
  else
    let cleaned := strip value in
    if negb (str_nonempty cleaned) then None
    else
      let upper_ := upper cleaned in
      let '(suffix_sign, cleaned) :=
        if endswith upper_ "CR" then (Some 1, drop_last 2 cleaned)
        else if endswith upper_ "CREDIT" then (Some 1, drop_last 6 cleaned)
        else if endswith upper_ "DR" then (Some (-1), drop_last 2 cleaned)
        else if endswith upper_ "DEBIT" then (Some (-1), drop_last 5 cleaned)
        else (None, cleaned) in
      let cleaned := remove_char " " (remove_char "$" cleaned) in
      let '(is_negative, cleaned) :=
        if String.prefix "(" cleaned && endswith cleaned ")"
        then (true, drop_last 1 (drop_first cleaned))
        else if String.prefix "-" cleaned then (true, drop_first cleaned)
        else if String.prefix "+" cleaned then (false, drop_first cleaned)
        else (false, cleaned) in
      let is_negative :=
        match suffix_sign with
        | Some s => if s =? -1 then true else is_negative
        | None => is_negative
        end in
      let cleaned :=
        if char_in "," cleaned && char_in "." cleaned
           && (rfind "." cleaned <? rfind "," cleaned)
        then replace_char "," "." (remove_char "." cleaned)
        else if char_in "," cleaned && negb (char_in "." cleaned)
        then (if comma_two_digits_at_end cleaned
              then replace_char "," "." cleaned
              else remove_char "," cleaned)
        else remove_char "," cleaned in
      Some (is_negative, cleaned).

Definition parse_amount (value : option string) : option Decimal :=
  match value with
  | None => None
  | Some value =>
      match normalise_amount value with
      | None => None
      | Some (is_negative, cleaned) =>
          match Decimal_of_string cleaned with
          | Some amount => Some (if is_negative then dec_neg amount else amount)
          | None => None
          end
      end
  end.

End Library.

End Parsing.

(** ** core/document_ai_client.py: from table cells to rows *)

(** A cell as [_extract_cells] returns it. *)
Module Cell.
Record t := mk {
  text : string;
  confidence : Q;
  row_span : Z;
  col_span : Z
}.
End Cell.

Module DocumentAIClient.

Definition set_withdrawal (v : option Decimal) (r : TransactionRow.t) : TransactionRow.t :=
  TransactionRow.mk
    (TransactionRow.transaction_date r) (TransactionRow.description r)
    (TransactionRow.deposit r) v (TransactionRow.balance r)
    (TransactionRow.posting_date r) (TransactionRow.reference_number r)
    (TransactionRow.date_confidence r) (TransactionRow.description_confidence r)
    (TransactionRow.amount_confidence r) (TransactionRow.balance_confidence r)
    (TransactionRow.bbox r) (TransactionRow.page_number r) (TransactionRow.row_index r)
    (TransactionRow.amount_raw r) (TransactionRow.date_raw r).

Definition set_deposit (v : option Decimal) (r : TransactionRow.t) : TransactionRow.t :=
  TransactionRow.mk
    (TransactionRow.transaction_date r) (TransactionRow.description r)
    v (TransactionRow.withdrawal r) (TransactionRow.balance r)
    (TransactionRow.posting_date r) (TransactionRow.reference_number r)
    (TransactionRow.date_confidence r) (TransactionRow.description_confidence r)
    (TransactionRow.amount_confidence r) (TransactionRow.balance_confidence r)
    (TransactionRow.bbox r) (TransactionRow.page_number r) (TransactionRow.row_index r)
    (TransactionRow.amount_raw r) (TransactionRow.date_raw r).

Definition set_balance (v : option Decimal) (confidence : Q) (r : TransactionRow.t)
  : TransactionRow.t :=
  TransactionRow.mk
    (TransactionRow.transaction_date r) (TransactionRow.description r)
    (TransactionRow.deposit r) (TransactionRow.withdrawal r) v
    (TransactionRow.posting_date r) (TransactionRow.reference_number r)
    (TransactionRow.date_confidence r) (TransactionRow.description_confidence r)
    (TransactionRow.amount_confidence r) confidence
    (TransactionRow.bbox r) (TransactionRow.page_number r) (TransactionRow.row_index r)
    (TransactionRow.amount_raw r) (TransactionRow.date_raw r).

Definition set_amount_confidence (confidence : Q) (r : TransactionRow.t)
  : TransactionRow.t :=
  TransactionRow.mk
    (TransactionRow.transaction_date r) (TransactionRow.description r)
    (TransactionRow.deposit r) (TransactionRow.withdrawal r) (TransactionRow.balance r)
    (TransactionRow.posting_date r) (TransactionRow.reference_number r)
    (TransactionRow.date_confidence r) (TransactionRow.description_confidence r)
    confidence (TransactionRow.balance_confidence r)
    (TransactionRow.bbox r) (TransactionRow.page_number r) (TransactionRow.row_index r)
    (TransactionRow.amount_raw r) (TransactionRow.date_raw r).

Section Library.

(** [Decimal_of_string] gives finite Decimals only, so the comparison
    [amount < 0] below cannot raise and the [except] branch of
    [_cells_to_transaction] is not reached. *)
Variable strptime : string -> string -> option date.
Variable Decimal_of_string : string -> option Decimal.

Definition parse_date := Parsing.parse_date strptime.
Definition parse_amount := Parsing.parse_amount Decimal_of_string.

Definition _cells_to_transaction (cells : list Cell.t) (page_num row_idx : Z)
  : option TransactionRow.t :=
  match cells with
  | c0 :: c1 :: c2 :: more =>
      let transaction :=
        TransactionRow.mk
          (parse_date (Some (Cell.text c0))) (Cell.text c1)
          None None None None None
          (Cell.confidence c0) (Cell.confidence c1) 0%Q 0%Q
          None page_num row_idx
          (if (3 <? List.length cells)%nat
           then Cell.text (nth (List.length cells - 2) cells c0)
           else EmptyString)
          (Cell.text c0) in
      match more with
      | [c3; c4] =>
          Some (set_balance (parse_amount (Some (Cell.text c4))) (Cell.confidence c4)
                  (set_amount_confidence ((Cell.confidence c2 + Cell.confidence c3) / 2)%Q
                     (set_deposit (parse_amount (Some (Cell.text c3)))
                        (set_withdrawal (parse_amount (Some (Cell.text c2)))
                           transaction))))
      | [c3] =>
          let amount := parse_amount (Some (Cell.text c2)) in
          let transaction :=
            match amount with
            | Some a =>
                if dec_ltb a (dec_of_Z 0)
                then set_withdrawal (Some (dec_abs a)) transaction
                else set_deposit (Some a) transaction
            | None => transaction
            end in
          Some (set_balance (parse_amount (Some (Cell.text c3))) (Cell.confidence c3)
                  (set_amount_confidence (Cell.confidence c2) transaction))
      | [] =>
          Some (set_balance (parse_amount (Some (Cell.text c2))) (Cell.confidence c2)
                  transaction)
      | _ => Some transaction
      end
  | _ => None
  end.

(** [body_rows] holds, for each body row of the table, the cells
    [_extract_cells] returns for it. *)
Definition _parse_table (body_rows : list (list Cell.t)) (page_num start_row_idx : Z)
  : list TransactionRow.t :=
  flat_map (fun '(row_idx, cells) =>
              match _cells_to_transaction cells page_num
                      (start_row_idx + Z.of_nat row_idx) with
              | Some transaction => [transaction]
              | None => []
              end)
           (enumerate body_rows).

(** The loop of [_extract_data] that collects the rows of every table of
    every page; a page is the list of its tables. *)
Definition _extract_rows (pages : list (list (list (list Cell.t))))
  : list TransactionRow.t :=
  fst (fold_left
         (fun state '(page_idx, tables) =>
            fold_left
              (fun '(all_rows, row_index) table =>
                 let table_rows :=
                   _parse_table table (Z.of_nat page_idx + 1) row_index in
                 (all_rows ++ table_rows, row_index + Zlen table_rows))
              tables state)
         (enumerate pages) ([], 0)).

End Library.

End DocumentAIClient.

(** * Definitions used to state the properties *)

(** The violations of [vs] raised by rule [rule]. *)
Definition by_rule (rule : string) (vs : list RuleViolation.t)
    : list RuleViolation.t :=
  filter (fun v => String.eqb (RuleViolation.rule v) rule) vs.

(** The violations of [vs] reported for the row at index [i]. *)
Definition at_row (i : nat) (vs : list RuleViolation.t) : list RuleViolation.t :=
  filter (fun v => match RuleViolation.row v with
                   | Some j => Nat.eqb j i
                   | None => false
                   end) vs.

(** The violations of [vs] tagged with the field [name]. *)
Definition on_field (name : string) (vs : list RuleViolation.t)
    : list RuleViolation.t :=
  filter (fun v => match RuleViolation.field v with
                   | Some f => String.eqb f name
                   | None => false
                   end) vs.

(** An absent amount counted as zero. *)
Definition amount_or_zero (a : option Decimal) : Q :=
  match a with Some d => dec_value d | None => 0%Q end.

(** Adjacent pairs of rows, in reading order. *)
Definition adjacent_pairs {A : Type} (l : list A) : list (A * A) :=
  combine l (tl l).

Definition both_balances (p : TransactionRow.t * TransactionRow.t) : bool :=
  is_some (TransactionRow.balance (fst p))
  && is_some (TransactionRow.balance (snd p)).

(** The running-balance test of [count_checks] on the rows at [i - 1], [i]. *)
Definition counted_pair (p : option TransactionRow.t * option TransactionRow.t) : Z :=
  match p with
  | (Some prev_row, Some curr_row) => Z_of_bool (both_balances (prev_row, curr_row))
  | _ => 0
  end.

(** The number of monetary fields (deposit, withdrawal, balance) a row
    carries. *)
Definition present_monetary_fields (row : TransactionRow.t) : Z :=
  Z_of_bool (is_some (TransactionRow.deposit row))
  + Z_of_bool (is_some (TransactionRow.withdrawal row))
  + Z_of_bool (is_some (TransactionRow.balance row)).

Definition Zsum (l : list Z) : Z := fold_right Z.add 0 l.

(** The check count as the specification itemises it. *)
Definition itemised_checks (result : OCRResult.t) : Z :=
  let rows := OCRResult.rows result in
  Zlen rows
  + Zlen (adjacent_pairs rows)
  + Zlen rows
  + Zsum (map present_monetary_fields rows)
  + Zlen (filter both_balances (adjacent_pairs rows))
  + Z_of_bool (is_some (OCRResult.opening_balance result)
               && is_some (OCRResult.closing_balance result)).

(** The mean of the non-zero values of a list, and 0 when there is none. *)
Definition mean_nonzero (l : list Q) : Q :=
  let nonzero := filter (fun v => negb (Qeq_bool v 0)) l in
  match nonzero with
  | [] => 0%Q
  | _ :: _ => (fold_right Qplus 0 nonzero / inject_Z (Zlen nonzero))%Q
  end.

(** The engine-quality component in the specification's words, the
    per-field confidences of a row being those for date, description,
    amount and balance. *)
Definition spec_engine_quality (result : OCRResult.t) : Q :=
  if Qltb 0 (OCRResult.overall_confidence result)
  then OCRResult.overall_confidence result
  else mean_nonzero
         (flat_map (fun row => [TransactionRow.date_confidence row;
                                TransactionRow.description_confidence row;
                                TransactionRow.amount_confidence row;
                                TransactionRow.balance_confidence row])
                   (OCRResult.rows result)).

(** The confidences the scorer does read from a row. *)
Definition key_confidences (row : TransactionRow.t) : list Q :=
  [TransactionRow.date_confidence row;
   TransactionRow.amount_confidence row;
   TransactionRow.balance_confidence row].

Definition has_severity (sev : string) (vs : list RuleViolation.t) : Prop :=
  exists v, In v vs /\ RuleViolation.severity v = sev.

Definition has_signal (signal_type severity action : string)
    (signals : RiskSignals.t) : Prop :=
  exists s, In s signals
            /\ RiskSignal.signal_type s = signal_type
            /\ RiskSignal.severity s = severity
            /\ RiskSignal.action s = action.

Definition matched_names (ms : list PatternMatch.t) : list string :=
  map PatternMatch.pattern_name ms.

(** * Sample tables *)

Definition plain_row (transaction_date : option date)
    (deposit withdrawal balance : option Decimal) : TransactionRow.t :=
  TransactionRow.mk transaction_date "" deposit withdrawal balance None None
    0%Q 0%Q 0%Q 0%Q None 1 0 "" "".

Definition statement_of (rows : list TransactionRow.t) : OCRResult.t :=
  OCRResult.mk "statement" "document_ai" "" rows [] false 0%Q None None 1 0 0%Q.

(** A row with balance 100.00 followed by a row with deposit 50.00,
    withdrawal 0 and the balance [b]. *)
Definition deposit_statement (b : Decimal) : OCRResult.t :=
  statement_of
    [plain_row (Some 738000) None None (Some (mkDecimal 10000 (-2)));
     plain_row (Some 738001) (Some (mkDecimal 5000 (-2))) (Some (mkDecimal 0 0))
       (Some b)].

(** One row whose deposit is [Decimal('1000000.00')]. *)
Definition million_statement : OCRResult.t :=
  statement_of
    [plain_row (Some 738000) (Some (mkDecimal 100000000 (-2))) None None].

(** The table with no rows, the engine reporting no confidence. *)
Definition empty_statement : OCRResult.t := statement_of [].

(** One row whose only estimated confidence is that of the description. *)
Definition description_only_statement : OCRResult.t :=
  statement_of
    [TransactionRow.mk (Some 738000) "Payroll" (Some (mkDecimal 5000 (-2))) None
       None None None 0%Q (1 # 2)%Q 0%Q 0%Q None 1 0 "50.00" "2021-07-29"].

(** A row of which only the raw amount text was read. *)
Definition raw_amount_row (amount_raw : string) : TransactionRow.t :=
  TransactionRow.mk None "" None None None None None 0%Q 0%Q 0%Q 0%Q None 1 0
    amount_raw "".

(** A row with no deposit and the withdrawal [Decimal('-5.00')]. *)
Definition negative_withdrawal_row : TransactionRow.t :=
  plain_row (Some 738000) None (Some (mkDecimal (-500) (-2))) None.

(** One row built with the confidence fields at their defaults. *)
Definition unscored_statement : OCRResult.t :=
  statement_of [TransactionRow.default (Some 738000) "Payroll"].

(** The default configuration with the low-confidence signal switched off. *)
Definition low_confidence_off : ValidationConfig.t :=
  ValidationConfig.mk
    (ValidationConfig.confidence_threshold ValidationConfig.default)
    (ValidationConfig.field_coverage_thresholds ValidationConfig.default)
    (ValidationConfig.confidence_weights ValidationConfig.default)
    [("low_confidence"%string, false)].

(** The monetary fields of a row, by the name the validator tags them
    with. *)
Definition monetary_fields (row : TransactionRow.t)
    : list (string * option Decimal) :=
  [("deposit"%string, TransactionRow.deposit row);
   ("withdrawal"%string, TransactionRow.withdrawal row);
   ("balance"%string, TransactionRow.balance row)].

(** The sum of the values of the amounts present in a column. *)
Definition column_total (f : TransactionRow.t -> option Decimal)
    (rows : list TransactionRow.t) : Q :=
  fold_right Qplus 0%Q (map dec_value (present f rows)).

(** The type, severity and action of a signal, and the combinations the
    detector raises. *)
Definition signal_kind (s : RiskSignal.t) : string * string * string :=
  (RiskSignal.signal_type s, RiskSignal.severity s, RiskSignal.action s).

Definition signal_kinds : list (string * string * string) :=
  [("NO_ROWS", "CRITICAL", "MANUAL_REVIEW");
   ("LOW_CONFIDENCE", "HIGH", "REVIEW_RECOMMENDED");
   ("LOW_FIELD_COVERAGE", "HIGH", "REVIEW_RECOMMENDED");
   ("LOW_FIELD_COVERAGE", "MEDIUM", "REVIEW_RECOMMENDED");
   ("STRUCTURAL_ANOMALY", "MEDIUM", "REVIEW_RECOMMENDED");
   ("LOGIC_FAILURE", "CRITICAL", "MANUAL_REVIEW");
   ("UNKNOWN_TEMPLATE", "MEDIUM", "REVIEW_RECOMMENDED")]%string.

(** The positions of the body rows that have at least three cells. *)
Definition wide_enough_positions (body_rows : list (list Cell.t)) : list nat :=
  map fst (filter (fun ir => (3 <=? List.length (snd ir))%nat) (enumerate body_rows)).

(** The body rows of every table of every page, in reading order. *)
Definition all_body_rows (pages : list (list (list (list Cell.t))))
  : list (list Cell.t) :=
  concat (concat pages).

(** A page with two tables: a two-cell row above a three-cell row, then a
    three-cell row. *)
Definition two_table_page : list (list (list (list Cell.t))) :=
  let cell := Cell.mk "x" 1%Q 1 1 in
  [[ [[cell; cell]; [cell; cell; cell]]; [[cell; cell; cell]] ]].

(** The state of the loop of [_extract_data] after [n] rows, none dropped. *)
Definition numbered (state : list TransactionRow.t * Z) (n : nat) : Prop :=
  snd state = Z.of_nat n
  /\ map TransactionRow.row_index (fst state) = map Z.of_nat (seq 0 n).

(** The logic errors that report a negative deposit or withdrawal. *)
Definition is_negative_amount_error (e : LogicError) : bool :=
  match e with
  | NEGATIVE_DEPOSIT _ _ | NEGATIVE_WITHDRAWAL _ _ => true
  | _ => false
  end.

(** A row comes from the cells of some body row among [all]. *)
Definition read_from_cells (strptime : string -> string -> option date)
    (Decimal_of_string : string -> option Decimal)
    (all : list (list Cell.t)) (row : TransactionRow.t) : Prop :=
  exists cells page_num row_idx,
    In cells all
    /\ DocumentAIClient._cells_to_transaction strptime Decimal_of_string
         cells page_num row_idx = Some row.

(** * Decimal arithmetic *)

Section DecimalFacts.

Local Open Scope Q_scope.

Lemma ten_nonzero : ~ (10 # 1) == 0.
Proof. intro H. discriminate H. Qed.

Lemma ten_power_pos (e : Z) : 0 < (10 # 1) ^ e.
Proof. apply Qpower_0_lt. reflexivity. Qed.

(** Rescaling a coefficient to a smaller exponent keeps the value. *)
Lemma dec_value_rescale (c e e' : Z) :
  (e' <= e)%Z ->
  inject_Z (c * 10 ^ (e - e')) * (10 # 1) ^ e' == inject_Z c * (10 # 1) ^ e.
Proof.
  intro Hle.
  rewrite inject_Z_mult, Zpower_Qpower by lia.
  replace e with ((e - e') + e')%Z at 2 by lia.
  rewrite Qpower_plus by exact ten_nonzero.
  change (inject_Z 10) with (10 # 1).
  ring.
Qed.

Lemma dec_align_value (a b : Decimal) :
  let '(ca, cb, e) := dec_align a b in
  inject_Z ca * (10 # 1) ^ e == dec_value a
  /\ inject_Z cb * (10 # 1) ^ e == dec_value b.
Proof.
  unfold dec_align, dec_value. split; apply dec_value_rescale; lia.
Qed.

Lemma dec_add_value (a b : Decimal) :
  dec_value (dec_add a b) == dec_value a + dec_value b.
Proof.
  pose proof (dec_align_value a b) as H.
  unfold dec_add. destruct (dec_align a b) as [[ca cb] e].
  destruct H as [Ha Hb]. rewrite <- Ha, <- Hb.
  unfold dec_value; cbn [coefficient exponent]. rewrite inject_Z_plus. ring.
Qed.

Lemma dec_sub_value (a b : Decimal) :
  dec_value (dec_sub a b) == dec_value a - dec_value b.
Proof.
  pose proof (dec_align_value a b) as H.
  unfold dec_sub. destruct (dec_align a b) as [[ca cb] e].
  destruct H as [Ha Hb]. rewrite <- Ha, <- Hb.
  unfold dec_value; cbn [coefficient exponent]. unfold Z.sub.
  rewrite inject_Z_plus, inject_Z_opp. ring.
Qed.

Lemma dec_abs_value (a : Decimal) :
  dec_value (dec_abs a) == Qabs (dec_value a).
Proof.
  unfold dec_value, dec_abs; cbn [coefficient exponent].
  rewrite Qabs_Qmult.
  rewrite (Qabs_pos ((10 # 1) ^ exponent a))
    by (apply Qlt_le_weak, ten_power_pos).
  reflexivity.
Qed.

Lemma dec_ltb_value (a b : Decimal) :
  dec_ltb a b = true <-> dec_value a < dec_value b.
Proof.
  pose proof (dec_align_value a b) as H.
  unfold dec_ltb. destruct (dec_align a b) as [[ca cb] e].
  destruct H as [Ha Hb]. rewrite <- Ha, <- Hb.
  rewrite Z.ltb_lt, Zlt_Qlt.
  symmetry. apply Qmult_lt_r, ten_power_pos.
Qed.

Lemma dec_ltb_false_value (a b : Decimal) :
  dec_ltb a b = false <-> dec_value b <= dec_value a.
Proof.
  split.
  - intro H. apply Qnot_lt_le. intro Hlt.
    apply dec_ltb_value in Hlt. congruence.
  - intro H. destruct (dec_ltb a b) eqn:E; [|reflexivity].
    apply dec_ltb_value in E. exfalso. exact (Qle_not_lt _ _ H E).
Qed.

Lemma dec_of_Z_value (n : Z) : dec_value (dec_of_Z n) == inject_Z n.
Proof.
  unfold dec_value, dec_of_Z; cbn [coefficient exponent].
  change ((10 # 1) ^ 0) with 1. ring.
Qed.

End DecimalFacts.

(** * Lists, loops and indices *)

Lemma Zlen_app {A : Type} (l1 l2 : list A) : Zlen (l1 ++ l2) = Zlen l1 + Zlen l2.
Proof. unfold Zlen. rewrite length_app. lia. Qed.

Lemma Zlen_nonneg {A : Type} (l : list A) : 0 <= Zlen l.
Proof. unfold Zlen. lia. Qed.

Lemma Zlen_cons {A : Type} (a : A) (l : list A) : Zlen (a :: l) = 1 + Zlen l.
Proof. unfold Zlen. cbn [List.length]. lia. Qed.

Section ListFacts.

Context {A B : Type}.

Lemma filter_none (p : A -> bool) (l : list A) :
  (forall x, In x l -> p x = false) -> filter p l = [].
Proof.
  induction l as [|a l IH]; intro H; [reflexivity|].
  cbn [filter]. rewrite (H a) by (left; reflexivity).
  apply IH. intros x Hx. apply H. right; exact Hx.
Qed.

Lemma filter_all (p : A -> bool) (l : list A) :
  (forall x, In x l -> p x = true) -> filter p l = l.
Proof.
  induction l as [|a l IH]; intro H; [reflexivity|].
  cbn [filter]. rewrite (H a) by (left; reflexivity).
  f_equal. apply IH. intros x Hx. apply H. right; exact Hx.
Qed.

Lemma filter_flat_map (p : B -> bool) (f : A -> list B) (l : list A) :
  filter p (flat_map f l) = flat_map (fun x => filter p (f x)) l.
Proof.
  induction l as [|a l IH]; [reflexivity|].
  cbn [flat_map]. rewrite filter_app, IH. reflexivity.
Qed.

Lemma flat_map_nil (f : A -> list B) (l : list A) :
  (forall x, In x l -> f x = []) -> flat_map f l = [].
Proof.
  induction l as [|a l IH]; intro H; [reflexivity|].
  cbn [flat_map]. rewrite (H a) by (left; reflexivity).
  apply IH. intros x Hx. apply H. right; exact Hx.
Qed.

(** A loop that appends at most [g x] findings for the element [x]. *)
Lemma flat_map_Zlen_le (f : A -> list B) (g : A -> Z) (l : list A) :
  (forall x, In x l -> Zlen (f x) <= g x) ->
  Zlen (flat_map f l) <= Zsum (map g l).
Proof.
  induction l as [|a l IH]; intro H.
  - cbn. lia.
  - cbn [flat_map map Zsum fold_right]. rewrite Zlen_app.
    assert (Zlen (f a) <= g a) by (apply H; left; reflexivity).
    assert (Zlen (flat_map f l) <= Zsum (map g l))
      by (apply IH; intros x Hx; apply H; right; exact Hx).
    unfold Zsum in *. lia.
Qed.

(** A loop that adds [k x] to a counter for the element [x]. *)
Lemma fold_left_counter (f : Z -> A -> Z) (k : A -> Z) (l : list A) (c : Z) :
  (forall c x, In x l -> f c x = c + k x) ->
  fold_left f l c = c + Zsum (map k l).
Proof.
  revert c. induction l as [|a l IH]; intros c H.
  - cbn. lia.
  - cbn [fold_left map Zsum fold_right].
    rewrite IH by (intros; apply H; right; assumption).
    rewrite H by (left; reflexivity). unfold Zsum. lia.
Qed.

Lemma Zsum_filter_count (p : A -> bool) (l : list A) :
  Zsum (map (fun x => Z_of_bool (p x)) l) = Zlen (filter p l).
Proof.
  induction l as [|a l IH]; [reflexivity|].
  cbn [map Zsum fold_right filter]. unfold Zsum in IH. rewrite IH.
  destruct (p a); cbn [Z_of_bool]; [rewrite Zlen_cons|]; lia.
Qed.

End ListFacts.

Lemma Zsum_const_one {A : Type} (l : list A) :
  Zsum (map (fun _ => 1) l) = Zlen l.
Proof.
  induction l as [|a l IH]; [reflexivity|].
  cbn [map Zsum fold_right]. unfold Zsum in IH. rewrite IH, Zlen_cons. lia.
Qed.

Lemma Zsum_add {A : Type} (g h : A -> Z) (l : list A) :
  Zsum (map (fun x => g x + h x) l) = Zsum (map g l) + Zsum (map h l).
Proof.
  induction l as [|a l IH]; [reflexivity|].
  cbn [map Zsum fold_right]. unfold Zsum in *. rewrite IH. lia.
Qed.

(** Selecting, in the findings of a loop over distinct indices, those of
    the index [i]. *)
Lemma filter_flat_map_at {B : Type} (p : B -> bool) (f : nat -> list B)
    (l : list nat) (i : nat) :
  NoDup l -> In i l ->
  (forall j v, In v (f j) -> p v = Nat.eqb j i) ->
  filter p (flat_map f l) = f i.
Proof.
  intros Hnd Hin Hp. rewrite filter_flat_map.
  induction l as [|j l IH]; [destruct Hin|].
  inversion Hnd as [|? ? Hnotin Hnd']; subst.
  cbn [flat_map]. destruct Hin as [->|Hin].
  - rewrite filter_all
      by (intros v Hv; rewrite (Hp i v Hv); apply Nat.eqb_refl).
    rewrite flat_map_nil; [apply app_nil_r|].
    intros j Hj. apply filter_none. intros v Hv.
    rewrite (Hp j v Hv). apply Nat.eqb_neq. intros ->. contradiction.
  - rewrite (filter_none p (f j)).
    + apply IH; assumption.
    + intros v Hv. rewrite (Hp j v Hv). apply Nat.eqb_neq.
      intros ->. contradiction.
Qed.

(** ** [enumerate] and [range(1, len(l))] *)


(** The sum over [enumerate l] of a bound that depends on the index only
    through its being the first. *)
Lemma Zsum_enumerate_first {A : Type} (l : list A) (s : nat) :
  Zsum (map (fun ir : nat * A => 1 + Z_of_bool (0 <? fst ir)%nat)
            (combine (seq s (List.length l)) l))
  = Zlen l + (if (0 <? s)%nat then Zlen l else Z.max (Zlen l - 1) 0).
Proof.
  revert s. induction l as [|a l IH]; intro s.
  - destruct (0 <? s)%nat; reflexivity.
  - cbn [List.length seq combine map Zsum fold_right fst].
    specialize (IH (S s)). unfold Zsum in IH. rewrite IH.
    rewrite Zlen_cons. pose proof (Zlen_nonneg l).
    change (0 <? S s)%nat with true. cbn iota.
    destruct (0 <? s)%nat eqn:E; cbn [Z_of_bool]; lia.
Qed.

Lemma range1_cons {A : Type} (a : A) (l : list A) :
  range1 (a :: l) = seq 1 (List.length l).
Proof. unfold range1. cbn [List.length]. f_equal. lia. Qed.

Lemma in_range1 {A : Type} (l : list A) (i : nat) :
  In i (range1 l) <-> (1 <= i < List.length l)%nat.
Proof. unfold range1. rewrite in_seq. lia. Qed.

(** The rows at [i - 1] and [i], for [i] over [range(1, len(l))], are the
    adjacent pairs of [l]. *)
Lemma range1_adjacent_pairs {A : Type} (l : list A) :
  map (fun i => (nth_error l (i - 1), nth_error l i)) (range1 l)
  = map (fun p => (Some (fst p), Some (snd p))) (adjacent_pairs l).
Proof.
  induction l as [|a l IH]; [reflexivity|].
  rewrite range1_cons. unfold adjacent_pairs in *. cbn [tl].
  destruct l as [|b l]; [reflexivity|].
  rewrite range1_cons in IH. cbn [tl] in IH.
  change (combine (a :: b :: l) (b :: l)) with ((a, b) :: combine (b :: l) l).
  cbn [List.length seq map fst snd nth_error Nat.sub].
  f_equal. rewrite <- IH, <- seq_shift, map_map.
  apply map_ext_in. intros i Hi. apply in_seq in Hi.
  destruct i as [|i]; [lia|].
  cbn [nth_error Nat.sub]. rewrite Nat.sub_0_r. reflexivity.
Qed.

Lemma adjacent_pairs_Zlen {A : Type} (l : list A) :
  l <> [] -> Zlen (adjacent_pairs l) = Zlen l - 1.
Proof.
  intro H. destruct l as [|a l]; [contradiction|].
  unfold adjacent_pairs, Zlen. cbn [tl]. rewrite length_combine.
  cbn [List.length]. lia.
Qed.


Lemma enumerate_from_snd {A : Type} (l : list A) (s : nat) :
  map snd (combine (seq s (List.length l)) l) = l.
Proof.
  revert s. induction l as [|a l IH]; intro s; [reflexivity|].
  cbn [List.length seq combine map snd]. rewrite IH. reflexivity.
Qed.

Lemma enumerate_Zlen {A : Type} (l : list A) : Zlen (enumerate l) = Zlen l.
Proof.
  unfold Zlen, enumerate. rewrite length_combine, length_seq. lia.
Qed.

(** * The hard rules validator *)

Module HardRulesFacts.

Import HardRulesValidator.

(** ** What [count_checks] counts *)

Lemma counted_pairs_adjacent (rows : list TransactionRow.t) :
  Zsum (map (fun i => counted_pair (nth_error rows (i - 1), nth_error rows i))
            (range1 rows))
  = Zlen (filter both_balances (adjacent_pairs rows)).
Proof.
  rewrite <- Zsum_filter_count.
  rewrite <- (map_map (fun i => (nth_error rows (i - 1), nth_error rows i))
                      counted_pair).
  rewrite range1_adjacent_pairs, map_map. reflexivity.
Qed.

Lemma count_checks_itemised (result : OCRResult.t) :
  OCRResult.rows result <> [] ->
  count_checks result = itemised_checks result.
Proof.
  intro Hne. unfold count_checks, itemised_checks.
  set (rows := OCRResult.rows result) in *.
  destruct (is_empty rows) eqn:E; [destruct rows; [contradiction|discriminate]|].
  rewrite (fold_left_counter _
             (fun i => counted_pair (nth_error rows (i - 1), nth_error rows i))).
  2:{ intros c i _. unfold counted_pair, both_balances. cbn [fst snd].
      destruct (nth_error rows (i - 1)), (nth_error rows i); try lia.
      destruct (is_some _ && is_some _); cbn [Z_of_bool]; lia. }
  rewrite (fold_left_counter _ present_monetary_fields).
  2:{ intros c row _. unfold present_monetary_fields.
      destruct (is_some (TransactionRow.deposit row)),
               (is_some (TransactionRow.withdrawal row)),
               (is_some (TransactionRow.balance row)); cbn [Z_of_bool]; lia. }
  rewrite counted_pairs_adjacent, (adjacent_pairs_Zlen rows Hne).
  assert (1 <= Zlen rows)
    by (destruct rows; [contradiction|rewrite Zlen_cons; pose proof (Zlen_nonneg rows); lia]).
  destruct (1 <? Zlen rows) eqn:E1;
    [apply Z.ltb_lt in E1|apply Z.ltb_ge in E1];
    destruct (is_some (OCRResult.opening_balance result)
              && is_some (OCRResult.closing_balance result));
    cbn [Z_of_bool]; lia.
Qed.

(** ** How many violations each rule can raise *)

Lemma date_range_row_bound (today : date) (rows : list TransactionRow.t)
    (idx : nat) (row : TransactionRow.t) :
  Zlen (date_range_row today rows idx row) <= 1 + Z_of_bool (0 <? idx)%nat.
Proof.
  unfold date_range_row.
  destruct (TransactionRow.transaction_date row) as [d|]; [|destruct (0 <? idx)%nat; cbn; lia].
  rewrite Zlen_app.
  destruct (today <? d), (0 <? idx)%nat; cbn [Z_of_bool]; try (cbn; lia);
    destruct (nth_error rows (idx - 1)) as [prev|]; try (cbn; lia);
    destruct (TransactionRow.transaction_date prev) as [pd|]; try (cbn; lia);
    destruct (d <? pd); cbn; lia.
Qed.

Lemma validate_date_range_bound (today : date) (result : OCRResult.t) :
  Zlen (validate_date_range today result)
  <= Zlen (OCRResult.rows result) + Z.max (Zlen (OCRResult.rows result) - 1) 0.
Proof.
  unfold validate_date_range, enumerate.
  etransitivity.
  - apply (flat_map_Zlen_le _ (fun ir => 1 + Z_of_bool (0 <? fst ir)%nat)).
    intros ir _. apply date_range_row_bound.
  - rewrite Zsum_enumerate_first. cbn. lia.
Qed.

Lemma amount_format_field_bound (idx : nat) (name : string) (a : option Decimal) :
  Zlen (amount_format_field idx name a) <= Z_of_bool (is_some a).
Proof.
  unfold amount_format_field. destruct a as [a|]; [|cbn; lia].
  destruct (negb (is_valid_currency a)); cbn; lia.
Qed.

Lemma amount_format_row_bound (idx : nat) (row : TransactionRow.t) :
  Zlen (amount_format_row idx row) <= 1 + present_monetary_fields row.
Proof.
  unfold amount_format_row, present_monetary_fields. rewrite !Zlen_app.
  pose proof (amount_format_field_bound idx "deposit" (TransactionRow.deposit row)).
  pose proof (amount_format_field_bound idx "withdrawal" (TransactionRow.withdrawal row)).
  pose proof (amount_format_field_bound idx "balance" (TransactionRow.balance row)).
  assert (Zlen (match TransactionRow.deposit row, TransactionRow.withdrawal row with
                | None, None =>
                    [RuleViolation.mk "NO_AMOUNT" "HIGH" (Some idx) None None None None]
                | Some d, Some w =>
                    if negb (dec_eqb d (dec_of_Z 0)) && negb (dec_eqb w (dec_of_Z 0))
                    then [RuleViolation.mk "BOTH_DEPOSIT_WITHDRAWAL" "MEDIUM" (Some idx)
                            None None None None]
                    else []
                | _, _ => []
                end) <= 1).
  { destruct (TransactionRow.deposit row) as [d|],
             (TransactionRow.withdrawal row) as [w|]; try (cbn; lia).
    destruct (negb (dec_eqb d (dec_of_Z 0)) && negb (dec_eqb w (dec_of_Z 0)));
      cbn; lia. }
  lia.
Qed.

Lemma validate_amount_format_bound (result : OCRResult.t) :
  Zlen (validate_amount_format result)
  <= Zlen (OCRResult.rows result)
     + Zsum (map present_monetary_fields (OCRResult.rows result)).
Proof.
  unfold validate_amount_format.
  etransitivity.
  - apply (flat_map_Zlen_le _ (fun ir => 1 + present_monetary_fields (snd ir))).
    intros ir _. apply amount_format_row_bound.
  - rewrite (Zsum_add (fun _ => 1) (fun ir => present_monetary_fields (snd ir))).
    rewrite Zsum_const_one, enumerate_Zlen.
    rewrite <- (map_map snd present_monetary_fields).
    unfold enumerate. rewrite enumerate_from_snd. lia.
Qed.

Lemma running_balance_at_bound (rows : list TransactionRow.t) (i : nat) :
  Zlen (running_balance_at rows i)
  <= counted_pair (nth_error rows (i - 1), nth_error rows i).
Proof.
  unfold running_balance_at, counted_pair, both_balances. cbn [fst snd].
  destruct (nth_error rows (i - 1)) as [p|], (nth_error rows i) as [c|];
    try (cbn; lia).
  destruct (TransactionRow.balance p), (TransactionRow.balance c); try (cbn; lia).
  destruct (dec_ltb _ _); cbn; lia.
Qed.

Lemma validate_running_balance_bound (result : OCRResult.t) :
  Zlen (validate_running_balance result)
  <= Zlen (filter both_balances (adjacent_pairs (OCRResult.rows result))).
Proof.
  unfold validate_running_balance.
  rewrite <- counted_pairs_adjacent.
  apply flat_map_Zlen_le. intros i _. apply running_balance_at_bound.
Qed.

Lemma validate_overall_balance_bound (result : OCRResult.t) :
  Zlen (validate_overall_balance result)
  <= Z_of_bool (is_some (OCRResult.opening_balance result)
                && is_some (OCRResult.closing_balance result)).
Proof.
  unfold validate_overall_balance.
  destruct (OCRResult.opening_balance result), (OCRResult.closing_balance result);
    try (cbn; lia).
  destruct (dec_ltb _ _); cbn; lia.
Qed.

Lemma validate_bound (today : date) (result : OCRResult.t) :
  Zlen (validate today result) <= count_checks result.
Proof.
  destruct (OCRResult.rows result) as [|a l] eqn:E.
  - unfold validate, count_checks. rewrite E. cbn. lia.
  - assert (OCRResult.rows result <> []) as Hne by (rewrite E; discriminate).
    rewrite (count_checks_itemised result Hne).
    unfold validate. rewrite E. cbn [is_empty]. rewrite !Zlen_app.
    pose proof (validate_date_range_bound today result).
    pose proof (validate_amount_format_bound result).
    pose proof (validate_running_balance_bound result).
    pose proof (validate_overall_balance_bound result).
    pose proof (adjacent_pairs_Zlen _ Hne).
    unfold itemised_checks.
    assert (1 <= Zlen (OCRResult.rows result))
      by (rewrite E, Zlen_cons; pose proof (Zlen_nonneg l); lia).
    lia.
Qed.


(** ** Which rule raises what *)

Lemma date_range_rules (today : date) (result : OCRResult.t) (v : RuleViolation.t) :
  In v (validate_date_range today result) ->
  In (RuleViolation.rule v)
     ["DATE_MISSING"; "DATE_IN_FUTURE"; "DATE_NOT_MONOTONIC"]%string.
Proof.
  unfold validate_date_range. rewrite in_flat_map.
  intros [[idx row] [_ Hv]]. cbn [fst snd] in Hv. unfold date_range_row in Hv.
  destruct (TransactionRow.transaction_date row) as [d|].
  - apply in_app_or in Hv. destruct Hv as [Hv|Hv].
    + destruct (today <? d); [|destruct Hv].
      destruct Hv as [<-|[]]. cbn. auto.
    + destruct (0 <? idx)%nat; [|destruct Hv].
      destruct (nth_error _ _) as [prev|]; [|destruct Hv].
      destruct (TransactionRow.transaction_date prev) as [pd|]; [|destruct Hv].
      destruct (d <? pd); [|destruct Hv].
      destruct Hv as [<-|[]]. cbn. auto.
  - destruct Hv as [<-|[]]. cbn. auto.
Qed.

Lemma amount_format_field_rules (idx : nat) (name : string) (a : option Decimal)
    (v : RuleViolation.t) :
  In v (amount_format_field idx name a) ->
  v = RuleViolation.mk "INVALID_AMOUNT_FORMAT" "CRITICAL" (Some idx) (Some name)
        None None None.
Proof.
  unfold amount_format_field. destruct a as [a|]; [|intros []].
  destruct (negb (is_valid_currency a)); [|intros []].
  intros [<-|[]]. reflexivity.
Qed.

Lemma amount_format_rules (result : OCRResult.t) (v : RuleViolation.t) :
  In v (validate_amount_format result) ->
  In (RuleViolation.rule v)
     ["NO_AMOUNT"; "BOTH_DEPOSIT_WITHDRAWAL"; "INVALID_AMOUNT_FORMAT"]%string.
Proof.
  unfold validate_amount_format. rewrite in_flat_map.
  intros [[idx row] [_ Hv]]. cbn [fst snd] in Hv. unfold amount_format_row in Hv.
  repeat (apply in_app_or in Hv; destruct Hv as [Hv|Hv]);
    try (apply amount_format_field_rules in Hv; subst v; cbn; auto).
  destruct (TransactionRow.deposit row) as [d|],
           (TransactionRow.withdrawal row) as [w|];
    try destruct (negb (dec_eqb d (dec_of_Z 0)) && negb (dec_eqb w (dec_of_Z 0)));
    try destruct Hv as [<-|[]]; try destruct Hv; cbn; auto.
Qed.

Lemma running_balance_at_rules (rows : list TransactionRow.t) (i : nat)
    (v : RuleViolation.t) :
  In v (running_balance_at rows i) ->
  RuleViolation.rule v = "RUNNING_BALANCE_MISMATCH"%string
  /\ RuleViolation.severity v = "CRITICAL"%string
  /\ RuleViolation.row v = Some i.
Proof.
  unfold running_balance_at.
  destruct (nth_error rows (i - 1)) as [p|]; [|intros []].
  destruct (nth_error rows i) as [c|]; [|intros []].
  destruct (TransactionRow.balance p); [|intros []].
  destruct (TransactionRow.balance c); [|intros []].
  destruct (dec_ltb _ _); [|intros []].
  intros [<-|[]]. cbn. auto.
Qed.

Lemma overall_balance_rules (result : OCRResult.t) (v : RuleViolation.t) :
  In v (validate_overall_balance result) ->
  RuleViolation.rule v = "OVERALL_BALANCE_MISMATCH"%string
  /\ RuleViolation.severity v = "CRITICAL"%string.
Proof.
  unfold validate_overall_balance.
  destruct (OCRResult.opening_balance result); [|intros []].
  destruct (OCRResult.closing_balance result); [|intros []].
  destruct (dec_ltb _ _); [|intros []].
  intros [<-|[]]. cbn. auto.
Qed.

(** On a table with rows, the running-balance mismatches among all the
    violations are those of the running-balance rule. *)
Lemma by_rule_running_balance (today : date) (result : OCRResult.t) :
  OCRResult.rows result <> [] ->
  by_rule "RUNNING_BALANCE_MISMATCH" (validate today result)
  = validate_running_balance result.
Proof.
  intro Hne. unfold validate, by_rule.
  destruct (OCRResult.rows result) eqn:E; [contradiction|]. cbn [is_empty].
  rewrite !filter_app.
  rewrite (filter_none _ (validate_date_range today result)).
  2:{ intros v Hv. apply date_range_rules in Hv. cbn in Hv.
      destruct Hv as [<-|[<-|[<-|[]]]]; reflexivity. }
  rewrite (filter_none _ (validate_amount_format result)).
  2:{ intros v Hv. apply amount_format_rules in Hv. cbn in Hv.
      destruct Hv as [<-|[<-|[<-|[]]]]; reflexivity. }
  rewrite (filter_none _ (validate_overall_balance result)).
  2:{ intros v Hv. apply overall_balance_rules in Hv.
      destruct Hv as [-> _]. reflexivity. }
  rewrite app_nil_r. cbn [app].
  apply filter_all. intros v Hv. unfold validate_running_balance in Hv.
  apply in_flat_map in Hv. destruct Hv as [i [_ Hv]].
  apply running_balance_at_rules in Hv. destruct Hv as [-> _]. reflexivity.
Qed.

Lemma at_row_running_balance (result : OCRResult.t) (i : nat) :
  In i (range1 (OCRResult.rows result)) ->
  at_row i (validate_running_balance result)
  = running_balance_at (OCRResult.rows result) i.
Proof.
  intro Hin. unfold at_row, validate_running_balance.
  apply filter_flat_map_at.
  - apply seq_NoDup.
  - exact Hin.
  - intros j v Hv. apply running_balance_at_rules in Hv.
    destruct Hv as [_ [_ ->]]. reflexivity.
Qed.

(** ** The expected balance *)

Lemma expected_balance_value (prev_balance : Decimal) (curr_row : TransactionRow.t) :
  (dec_value (expected_balance prev_balance curr_row)
   == dec_value prev_balance
      + amount_or_zero (TransactionRow.deposit curr_row)
      - amount_or_zero (TransactionRow.withdrawal curr_row))%Q.
Proof.
  unfold expected_balance, amount_or_zero.
  destruct (TransactionRow.deposit curr_row) as [d|],
           (TransactionRow.withdrawal curr_row) as [w|];
    rewrite ?dec_sub_value, ?dec_add_value; ring.
Qed.

Lemma tolerance_value : (dec_value tolerance == 2 # 100)%Q.
Proof. reflexivity. Qed.

End HardRulesFacts.

(** * Properties of the hard rules *)

Lemma is_valid_currency_false_iff (amount : Decimal) :
  HardRulesValidator.is_valid_currency amount = false
  <-> (2 < Z.abs (exponent amount))%Z
      \/ (inject_Z 1000000 < Qabs (dec_value amount))%Q.
Proof.
  unfold HardRulesValidator.is_valid_currency.
  destruct (2 <? Z.abs (exponent amount)) eqn:E.
  - apply Z.ltb_lt in E. split; auto.
  - apply Z.ltb_ge in E.
    destruct (dec_ltb (dec_of_Z 1000000) (dec_abs amount)) eqn:L.
    + apply dec_ltb_value in L.
      rewrite dec_of_Z_value, dec_abs_value in L. split; auto.
    + apply dec_ltb_false_value in L.
      rewrite dec_of_Z_value, dec_abs_value in L.
      split; [discriminate|]. intros [H|H]; [lia|].
      exfalso. exact (Qle_not_lt _ _ L H).
Qed.

(** C3. For an adjacent pair of rows with both balances present, the
    expected balance is the previous balance plus the current deposit (0
    when absent) minus the current withdrawal (0 when absent); the validator
    reports exactly one CRITICAL RUNNING_BALANCE_MISMATCH for the current row,
    carrying the expected balance, the actual balance and their absolute
    difference, when that difference exceeds 0.02, and none otherwise.  With
    balance 100.00, then deposit 50.00, withdrawal 0: balance 150.03 gives
    the one violation (expected 150.00, actual 150.03, difference 0.03);
    balances 150.01 and 150.02 give none. *)
Theorem running_balance_mismatch_iff_beyond_tolerance :
  (forall (today : date) (result : OCRResult.t) (i : nat)
          (prev_row curr_row : TransactionRow.t)
          (prev_balance curr_balance : Decimal),
      (1 <= i)%nat ->
      nth_error (OCRResult.rows result) (i - 1) = Some prev_row ->
      nth_error (OCRResult.rows result) i = Some curr_row ->
      TransactionRow.balance prev_row = Some prev_balance ->
      TransactionRow.balance curr_row = Some curr_balance ->
      let expected :=
        (dec_value prev_balance
         + amount_or_zero (TransactionRow.deposit curr_row)
         - amount_or_zero (TransactionRow.withdrawal curr_row))%Q in
      let difference := Qabs (expected - dec_value curr_balance) in
      let found :=
        at_row i (by_rule "RUNNING_BALANCE_MISMATCH"
                          (HardRulesValidator.validate today result)) in
      ((2 # 100 < difference)%Q ->
       exists e d,
         found = [RuleViolation.mk "RUNNING_BALANCE_MISMATCH" "CRITICAL" (Some i)
                    None (Some e) (Some curr_balance) (Some d)]
         /\ (dec_value e == expected)%Q /\ (d == difference)%Q)
      /\ ((difference <= 2 # 100)%Q -> found = []))
  /\ (forall today : date,
        by_rule "RUNNING_BALANCE_MISMATCH"
          (HardRulesValidator.validate today (deposit_statement (mkDecimal 15003 (-2))))
        = [RuleViolation.mk "RUNNING_BALANCE_MISMATCH" "CRITICAL" (Some 1%nat) None
             (Some (mkDecimal 15000 (-2))) (Some (mkDecimal 15003 (-2)))
             (Some (3 # 100)%Q)])
  /\ (forall today : date,
        by_rule "RUNNING_BALANCE_MISMATCH"
          (HardRulesValidator.validate today (deposit_statement (mkDecimal 15001 (-2))))
        = [])
  /\ (forall today : date,
        by_rule "RUNNING_BALANCE_MISMATCH"
          (HardRulesValidator.validate today (deposit_statement (mkDecimal 15002 (-2))))
        = []).
Proof.
  split; [|repeat split; intro today;
           rewrite HardRulesFacts.by_rule_running_balance by discriminate;
           vm_compute; reflexivity].
  intros today result i prev_row curr_row prev_balance curr_balance
         Hi Hprev Hcurr Hpb Hcb expected difference found.
  assert (OCRResult.rows result <> []) as Hne
    by (intro E; rewrite E in Hcurr; destruct i; discriminate).
  assert (In i (range1 (OCRResult.rows result))) as Hin.
  { apply in_range1. split; [exact Hi|].
    apply nth_error_Some. rewrite Hcurr. discriminate. }
  assert (found = HardRulesValidator.running_balance_at (OCRResult.rows result) i)
    as Hfound.
  { unfold found. rewrite HardRulesFacts.by_rule_running_balance by exact Hne.
    apply HardRulesFacts.at_row_running_balance. exact Hin. }
  unfold HardRulesValidator.running_balance_at in Hfound.
  rewrite Hprev, Hcurr, Hpb, Hcb in Hfound. cbv zeta in Hfound.
  set (e := HardRulesValidator.expected_balance prev_balance curr_row) in *.
  assert (dec_value e == expected)%Q as He
    by apply HardRulesFacts.expected_balance_value.
  assert (dec_value (dec_abs (dec_sub e curr_balance)) == difference)%Q as Hd.
  { unfold difference. rewrite dec_abs_value, dec_sub_value, He. reflexivity. }
  split; intro H.
  - exists e, (dec_value (dec_abs (dec_sub e curr_balance))).
    split; [|split; assumption].
    rewrite Hfound.
    replace (dec_ltb HardRulesValidator.tolerance (dec_abs (dec_sub e curr_balance)))
      with true; [reflexivity|].
    symmetry. apply dec_ltb_value.
    rewrite HardRulesFacts.tolerance_value, Hd. exact H.
  - rewrite Hfound.
    replace (dec_ltb HardRulesValidator.tolerance (dec_abs (dec_sub e curr_balance)))
      with false; [reflexivity|].
    symmetry. apply dec_ltb_false_value.
    rewrite HardRulesFacts.tolerance_value, Hd. exact H.
Qed.

Lemma running_balance_mismatch_witness :
  exists e d,
    at_row 1 (by_rule "RUNNING_BALANCE_MISMATCH"
                (HardRulesValidator.validate 738002
                   (deposit_statement (mkDecimal 15003 (-2)))))
    = [RuleViolation.mk "RUNNING_BALANCE_MISMATCH" "CRITICAL" (Some 1%nat) None
         (Some e) (Some (mkDecimal 15003 (-2))) (Some d)]
    /\ (dec_value e == 150)%Q /\ (d == 3 # 100)%Q.
Proof.
  destruct (proj1 running_balance_mismatch_iff_beyond_tolerance 738002
              (deposit_statement (mkDecimal 15003 (-2))) 1%nat
              (plain_row (Some 738000) None None (Some (mkDecimal 10000 (-2))))
              (plain_row (Some 738001) (Some (mkDecimal 5000 (-2)))
                 (Some (mkDecimal 0 0)) (Some (mkDecimal 15003 (-2))))
              (mkDecimal 10000 (-2)) (mkDecimal 15003 (-2))
              (le_n 1) eq_refl eq_refl eq_refl eq_refl) as [Hfire _].
  destruct (Hfire eq_refl) as [e [d [Hf [He Hd]]]].
  exists e, d. split; [exact Hf|]. split.
  - rewrite He. reflexivity.
  - rewrite Hd. reflexivity.
Defined.

(** C7. On a table with rows, [count_checks] is one date check per row, one
    monotonicity check per adjacent pair, one amount-presence check per row,
    one format check per present monetary field, one running-balance check
    per adjacent pair with both balances and one overall-balance check when
    opening and closing balance are both present; on the empty table it is
    1.  On every table the violations returned by [validate] are at most
    [count_checks]. *)
Theorem count_checks_itemised_and_bounds_violations
    (today : date) (result : OCRResult.t) :
  HardRulesValidator.count_checks result
  = (if is_empty (OCRResult.rows result) then 1 else itemised_checks result)
  /\ Zlen (HardRulesValidator.validate today result)
     <= HardRulesValidator.count_checks result.
Proof.
  split; [|apply HardRulesFacts.validate_bound].
  destruct (OCRResult.rows result) eqn:E.
  - unfold HardRulesValidator.count_checks. rewrite E. reflexivity.
  - cbn [is_empty]. apply HardRulesFacts.count_checks_itemised.
    rewrite E. discriminate.
Qed.

(** C4 (the amount that is exactly 1,000,000).  The currency check rejects
    an amount only when its magnitude is strictly above 1,000,000: the
    amounts 1000000 and 1000000.00 pass it, and a row whose deposit is
    1000000.00 gets no INVALID_AMOUNT_FORMAT violation, while 1000000.01 is
    rejected. *)
Theorem exact_million_passes_currency_check :
  HardRulesValidator.is_valid_currency (mkDecimal 1000000 0) = true
  /\ HardRulesValidator.is_valid_currency (mkDecimal 100000000 (-2)) = true
  /\ HardRulesValidator.is_valid_currency (mkDecimal 100000001 (-2)) = false
  /\ by_rule "INVALID_AMOUNT_FORMAT"
       (HardRulesValidator.validate 738002 million_statement) = [].
Proof. repeat split; vm_compute; reflexivity. Qed.

(** * Properties of the verdict *)

Lemma Qltb_lt (x y : Q) : Qltb x y = true <-> (x < y)%Q.
Proof.
  unfold Qltb. rewrite negb_true_iff. split; intro H.
  - apply Qnot_le_lt. intro Hle. apply Qle_bool_iff in Hle. congruence.
  - destruct (Qle_bool y x) eqn:E; [|reflexivity].
    apply Qle_bool_iff in E. exfalso. exact (Qle_not_lt _ _ E H).
Qed.

Lemma Qltb_ge (x y : Q) : Qltb x y = false <-> (y <= x)%Q.
Proof.
  unfold Qltb. rewrite negb_false_iff. apply Qle_bool_iff.
Qed.

Lemma count_severity_pos (sev : string) (vs : list RuleViolation.t) :
  (0 <? ValidationReport.count_severity sev vs) = true <-> has_severity sev vs.
Proof.
  unfold ValidationReport.count_severity, has_severity.
  rewrite Z.ltb_lt. split.
  - intro H.
    destruct (filter (fun v => String.eqb (RuleViolation.severity v) sev) vs)
      as [|v l] eqn:E; [cbn in H; lia|].
    assert (In v (v :: l)) as Hin by (left; reflexivity).
    rewrite <- E in Hin. apply filter_In in Hin. destruct Hin as [Hin Hs].
    exists v. split; [exact Hin|]. apply String.eqb_eq. exact Hs.
  - intros [v [Hin Hs]].
    assert (In v (filter (fun v => String.eqb (RuleViolation.severity v) sev) vs))
      as Hf by (apply filter_In; split; [exact Hin|apply String.eqb_eq; exact Hs]).
    destruct (filter _ vs); [destruct Hf|].
    rewrite Zlen_cons. pose proof (Zlen_nonneg l). lia.
Qed.

Lemma count_severity_zero (sev : string) (vs : list RuleViolation.t) :
  (0 <? ValidationReport.count_severity sev vs) = false <-> ~ has_severity sev vs.
Proof.
  rewrite <- count_severity_pos. destruct (0 <? _); split; congruence.
Qed.


Ltac unfold_report :=
  cbv beta iota zeta delta
    [BankStatementPipeline.process snd fst
     ValidationReport.new ValidationReport.add_violations
     ValidationReport.set_warnings ValidationReport.set_pattern_matches
     ValidationReport.set_total_checks ValidationReport.set_passed_checks
     ValidationReport.set_confidence ValidationReport.calculate_summary
     ValidationReport.document_id ValidationReport.validation_status
     ValidationReport.risk_signals ValidationReport.rule_violations
     ValidationReport.total_checks ValidationReport.passed_checks
     ValidationReport.failed_checks ValidationReport.warnings
     ValidationReport.rule_pass_rate ValidationReport.overall_confidence
     ValidationReport.pattern_matches].

(** C2. The verdict of the pipeline has [total_checks] at least
    [passed_checks + failed_checks], where [failed_checks] is the number of
    rule violations and [passed_checks] is not negative; [calculate_summary]
    establishes the inequality on every report, whatever its counts were. *)
Theorem total_checks_covers_passed_and_failed
    (re_search : string -> string -> bool) (str_decimal : Decimal -> string)
    (str_date : date -> string) (config : ValidationConfig.t)
    (patterns : list ErrorPattern.t) (today : date) (result : OCRResult.t)
    (any_report : ValidationReport.t) :
  let report :=
    snd (BankStatementPipeline.process re_search str_decimal str_date
           config patterns today result) in
  let summary := ValidationReport.calculate_summary any_report in
  ValidationReport.passed_checks report + ValidationReport.failed_checks report
  <= ValidationReport.total_checks report
  /\ ValidationReport.failed_checks report
     = Zlen (HardRulesValidator.validate today result)
  /\ 0 <= ValidationReport.passed_checks report
  /\ ValidationReport.passed_checks summary + ValidationReport.failed_checks summary
     <= ValidationReport.total_checks summary.
Proof.
  destruct any_report. unfold_report.
  pose proof (Zlen_nonneg (HardRulesValidator.validate today result)).
  repeat split; try lia;
    repeat match goal with
           | |- context [?a =? ?b] => destruct (Z.eqb_spec a b)
           | |- context [?a <? ?b] => destruct (Z.ltb_spec a b)
           end; lia.
Qed.

(** C1. After [calculate_summary] the status is NEEDS_REVIEW when some
    violation is CRITICAL; otherwise REVIEW_RECOMMENDED when some violation is
    HIGH or [failed_checks] exceeds a tenth of [total_checks]; otherwise
    APPROVED.  A table for which the hard rules raise a CRITICAL violation
    leaves the pipeline with status NEEDS_REVIEW. *)
Theorem status_follows_severities
    (re_search : string -> string -> bool) (str_decimal : Decimal -> string)
    (str_date : date -> string) (config : ValidationConfig.t)
    (patterns : list ErrorPattern.t) (today : date) (result : OCRResult.t)
    (any_report : ValidationReport.t) :
  let summary := ValidationReport.calculate_summary any_report in
  let violations := ValidationReport.rule_violations summary in
  let over_a_tenth :=
    (inject_Z (ValidationReport.total_checks summary) * (1 # 10)
     < inject_Z (ValidationReport.failed_checks summary))%Q in
  let report :=
    snd (BankStatementPipeline.process re_search str_decimal str_date
           config patterns today result) in
  (has_severity "CRITICAL" violations ->
   ValidationReport.validation_status summary = "NEEDS_REVIEW"%string)
  /\ (~ has_severity "CRITICAL" violations ->
      has_severity "HIGH" violations \/ over_a_tenth ->
      ValidationReport.validation_status summary = "REVIEW_RECOMMENDED"%string)
  /\ (~ has_severity "CRITICAL" violations ->
      ~ has_severity "HIGH" violations -> ~ over_a_tenth ->
      ValidationReport.validation_status summary = "APPROVED"%string)
  /\ (has_severity "CRITICAL" (HardRulesValidator.validate today result) ->
      ValidationReport.validation_status report = "NEEDS_REVIEW"%string).
Proof.
  intros summary violations over_a_tenth report.
  assert (ValidationReport.rule_violations summary
          = ValidationReport.rule_violations any_report) as Hvs
    by (destruct any_report; reflexivity).
  assert (ValidationReport.validation_status summary
          = if 0 <? ValidationReport.count_severity "CRITICAL" violations
            then "NEEDS_REVIEW"%string
            else if (0 <? ValidationReport.count_severity "HIGH" violations)
                    || Qltb (inject_Z (ValidationReport.total_checks summary) * (1 # 10))
                            (inject_Z (ValidationReport.failed_checks summary))
            then "REVIEW_RECOMMENDED"%string
            else "APPROVED"%string) as Hstatus
    by (unfold violations; rewrite Hvs; destruct any_report; reflexivity).
  repeat split.
  - intro Hc. apply count_severity_pos in Hc. rewrite Hstatus, Hc. reflexivity.
  - intros Hc Hh. apply count_severity_zero in Hc. rewrite Hstatus, Hc.
    destruct Hh as [Hh|Hh].
    + apply count_severity_pos in Hh. rewrite Hh. reflexivity.
    + apply Qltb_lt in Hh. rewrite Hh, orb_true_r. reflexivity.
  - intros Hc Hh Ht. apply count_severity_zero in Hc, Hh.
    rewrite Hstatus, Hc, Hh.
    destruct (Qltb _ _) eqn:E; [|reflexivity].
    apply Qltb_lt in E. contradiction.
  - intro Hc. apply count_severity_pos in Hc.
    unfold report. unfold_report. cbn [app].
    rewrite Hc. reflexivity.
Qed.

Lemma status_follows_severities_witness :
  ValidationReport.validation_status
    (snd (BankStatementPipeline.process (fun _ _ => false) (fun _ => EmptyString)
            (fun _ => EmptyString) ValidationConfig.default
            ErrorPatternDatabase._get_default_patterns 738002
            (statement_of [])))
  = "NEEDS_REVIEW"%string.
Proof.
  refine (proj2 (proj2 (proj2
            (status_follows_severities (fun _ _ => false) (fun _ => EmptyString)
               (fun _ => EmptyString) ValidationConfig.default
               ErrorPatternDatabase._get_default_patterns 738002
               (statement_of [])
               (ValidationReport.new "statement" "APPROVED" None)))) _).
  exists (RuleViolation.mk "NO_ROWS" "CRITICAL" None None None None None).
  split; [left; reflexivity|reflexivity].
Defined.

(** * Properties of the confidence score *)

Lemma py_clamp_bounds (s : Q) : (0 <= py_max 0 (py_min 1 s) <= 1)%Q.
Proof.
  unfold py_max, py_min.
  destruct (Qltb s 1) eqn:E1.
  - apply Qltb_lt in E1. destruct (Qltb 0 s) eqn:E0.
    + apply Qltb_lt in E0. split; apply Qlt_le_weak; assumption.
    + split; [apply Qle_refl|discriminate].
  - change (Qltb 0 1) with true. cbn iota.
    split; [discriminate|apply Qle_refl].
Qed.

Lemma weighted_score_bounds (components : list Component.t) :
  (0 <= ConfidenceScorer._weighted_score components <= 1)%Q.
Proof.
  unfold ConfidenceScorer._weighted_score.
  destruct (Qle_bool _ 0).
  - split; discriminate.
  - apply py_clamp_bounds.
Qed.

Lemma fold_left_Qplus (l : list Q) (a : Q) :
  (fold_left Qplus l a == a + fold_right Qplus 0 l)%Q.
Proof.
  revert a. induction l as [|x l IH]; intro a; cbn [fold_left fold_right].
  - ring.
  - rewrite IH. ring.
Qed.

Lemma Qsum_fold_right (l : list Q) : (Qsum l == fold_right Qplus 0 l)%Q.
Proof. unfold Qsum. rewrite fold_left_Qplus. ring. Qed.

(** The confidences [_engine_confidence] collects are the non-zero date,
    amount and balance confidences of the rows. *)
Lemma engine_confidences_nonzero (rows : list TransactionRow.t) :
  flat_map ConfidenceScorer.row_confidences rows
  = filter (fun v => negb (Qeq_bool v 0)) (flat_map key_confidences rows).
Proof. rewrite filter_flat_map. reflexivity. Qed.

(** C6, as the code has it.  The engine-quality component is the table's
    engine-reported overall confidence when that is above 0; otherwise it is
    the mean of the non-zero date, amount and balance confidences of all
    rows, and 0 when there is none.  The description confidence is not
    read. *)
Theorem engine_confidence_reads_key_fields (result : OCRResult.t) :
  (ConfidenceScorer._engine_confidence result
   == if Qltb 0 (OCRResult.overall_confidence result)
      then OCRResult.overall_confidence result
      else mean_nonzero (flat_map key_confidences (OCRResult.rows result)))%Q.
Proof.
  unfold ConfidenceScorer._engine_confidence, mean_nonzero.
  destruct (Qltb 0 (OCRResult.overall_confidence result)); [reflexivity|].
  rewrite engine_confidences_nonzero.
  destruct (filter _ _) as [|v l]; [reflexivity|].
  cbn [is_empty]. rewrite Qsum_fold_right. reflexivity.
Qed.

(** C6, as stated: with the description confidence among the per-field
    confidences, a row whose only non-zero confidence is that of its
    description has mean 1/2, while the component is 0. *)
Lemma engine_confidence_ignores_description :
  ~ (ConfidenceScorer._engine_confidence description_only_statement
     == spec_engine_quality description_only_statement)%Q.
Proof. vm_compute. discriminate. Qed.

Lemma assess_score_bounds (config : ValidationConfig.t) (primary : OCRResult.t)
    (report : ValidationReport.t) :
  (0 <= Assessment.score (ConfidenceScorer.assess config primary report) <= 1)%Q.
Proof.
  unfold ConfidenceScorer.assess.
  destruct (ConfidenceScorer._field_completeness primary) as [c cov].
  destruct (ConfidenceScorer._risk_signal_score _) as [r d].
  cbn [Assessment.score]. apply weighted_score_bounds.
Qed.

(** C5, as the code has it.  The confidence score of the verdict lies in
    [0, 1] for every table.  For a table with no rows and engine-reported
    overall confidence 0, under the default configuration, the score is 0.12
    and the label is Low: the NO_ROWS signal leaves the risk-signal component
    at 0.8 with weight 0.15, the three other components being 0. *)
Theorem confidence_score_in_unit_interval
    (re_search : string -> string -> bool) (str_decimal : Decimal -> string)
    (str_date : date -> string) (patterns : list ErrorPattern.t) (today : date) :
  (forall (config : ValidationConfig.t) (result : OCRResult.t),
      let report :=
        snd (BankStatementPipeline.process re_search str_decimal str_date
               config patterns today result) in
      (0 <= ValidationReport.overall_confidence report <= 1)%Q)
  /\ (forall result : OCRResult.t,
        OCRResult.rows result = [] ->
        (OCRResult.overall_confidence result == 0)%Q ->
        let report :=
          snd (BankStatementPipeline.process re_search str_decimal str_date
                 ValidationConfig.default patterns today result) in
        (ValidationReport.overall_confidence report == 12 # 100)%Q
        /\ ValidationReport.confidence_label report = "Low"%string).
Proof.
  split.
  - intros config result.
    unfold BankStatementPipeline.process. cbn [snd].
    unfold ValidationReport.set_confidence at 1.
    cbn [ValidationReport.overall_confidence].
    apply assess_score_bounds.
  - intros result Hrows Hzero.
    assert (Qltb 0 (OCRResult.overall_confidence result) = false) as Hlt
      by (apply Qltb_ge; rewrite Hzero; apply Qle_refl).
    destruct result as [doc eng at_ rows header hd hc ob cb pc tr oc].
    cbn [OCRResult.rows OCRResult.overall_confidence] in Hrows, Hlt.
    subst rows.
    unfold BankStatementPipeline.process. cbn [snd].
    unfold ValidationReport.set_confidence at 1.
    cbn [ValidationReport.overall_confidence ValidationReport.confidence_label].
    unfold ConfidenceScorer.assess, ConfidenceScorer._engine_confidence.
    cbn [OCRResult.overall_confidence]. rewrite Hlt.
    vm_compute. split; reflexivity.
Qed.

Lemma confidence_score_witness :
  (ValidationReport.overall_confidence
     (snd (BankStatementPipeline.process (fun _ _ => false)
             (fun _ => EmptyString) (fun _ => EmptyString)
             ValidationConfig.default ErrorPatternDatabase._get_default_patterns
             738002%Z empty_statement))
   == 12 # 100)%Q
  /\ ValidationReport.confidence_label
       (snd (BankStatementPipeline.process (fun _ _ => false)
               (fun _ => EmptyString) (fun _ => EmptyString)
               ValidationConfig.default ErrorPatternDatabase._get_default_patterns
               738002%Z empty_statement))
     = "Low"%string.
Proof.
  apply (proj2 (confidence_score_in_unit_interval (fun _ _ => false)
                  (fun _ => EmptyString) (fun _ => EmptyString)
                  ErrorPatternDatabase._get_default_patterns 738002)
               empty_statement).
  - reflexivity.
  - reflexivity.
Defined.

(** C5, as stated: the score of the empty table is not 0. *)
Lemma empty_table_score_is_not_zero :
  ~ (ValidationReport.overall_confidence
       (snd (BankStatementPipeline.process (fun _ _ => false)
               (fun _ => EmptyString) (fun _ => EmptyString)
               ValidationConfig.default ErrorPatternDatabase._get_default_patterns
               738002%Z empty_statement))
     == 0)%Q.
Proof. vm_compute. discriminate. Qed.

(** * Properties of the pattern matcher *)

Lemma in_enumerate_from_nth {A : Type} (l : list A) (s i : nat) (x : A) :
  nth_error l i = Some x -> In ((s + i)%nat, x) (combine (seq s (List.length l)) l).
Proof.
  revert s i. induction l as [|a l IH]; intros s i H; [destruct i; discriminate|].
  cbn [List.length seq combine]. destruct i as [|i].
  - inversion H; subst. rewrite Nat.add_0_r. left; reflexivity.
  - right. replace (s + S i)%nat with (S s + i)%nat by lia. apply IH. exact H.
Qed.

Lemma in_enumerate {A : Type} (l : list A) (i : nat) (x : A) :
  nth_error l i = Some x -> In (i, x) (enumerate l).
Proof. intro H. apply (in_enumerate_from_nth l 0 i x H). Qed.

Section PatternFacts.

Variable re_search : string -> string -> bool.
Variable str_decimal : Decimal -> string.
Variable str_date : date -> string.

Let _match_pattern :=
  ErrorPatternDatabase._match_pattern re_search str_decimal str_date.
Let match_ := ErrorPatternDatabase.match_ re_search str_decimal str_date.

(** A match of the row at [idx] against a pattern of the catalog is among
    the matches of the table. *)
Lemma match_contains (patterns : list ErrorPattern.t) (result : OCRResult.t)
    (pattern : ErrorPattern.t) (idx : nat) (row : TransactionRow.t)
    (m : PatternMatch.t) :
  nth_error (OCRResult.rows result) idx = Some row ->
  In pattern patterns ->
  In m (_match_pattern pattern row idx) ->
  In m (match_ patterns result).
Proof.
  intros Hrow Hp Hm. unfold match_, ErrorPatternDatabase.match_.
  apply in_flat_map. exists (idx, row). split; [apply in_enumerate; exact Hrow|].
  apply in_flat_map. exists pattern. split; assumption.
Qed.

Lemma comma_pattern_needs_no_dot (row : TransactionRow.t) (idx : nat) :
  char_in "." (TransactionRow.amount_raw row) = true ->
  _match_pattern ErrorPatternDatabase.comma_decimal_confusion row idx = [].
Proof.
  intro H. unfold _match_pattern, ErrorPatternDatabase._match_pattern.
  cbn. rewrite H, andb_false_r. reflexivity.
Qed.

End PatternFacts.

(** C8, as the code has it.  With the default catalog, a row whose raw
    amount text is "(1,200.00)" or "(1200.00)" matches
    bracket_negative_misread and does not match comma_decimal_confusion; it
    also matches dollar_sign_missing, the text holding no dollar sign.
    comma_decimal_confusion never matches a raw amount that contains a
    decimal point, so the two patterns never fire together on one. *)
Theorem bracket_and_comma_patterns_do_not_co_fire
    (re_search : string -> string -> bool) (str_decimal : Decimal -> string)
    (str_date : date -> string) (row : TransactionRow.t) (idx : nat) :
  let fired pattern :=
    matched_names
      (ErrorPatternDatabase._match_pattern re_search str_decimal str_date
         pattern row idx) in
  (TransactionRow.amount_raw row = "(1,200.00)"%string
   \/ TransactionRow.amount_raw row = "(1200.00)"%string ->
   fired ErrorPatternDatabase.bracket_negative_misread
   = ["bracket_negative_misread"%string]
   /\ fired ErrorPatternDatabase.comma_decimal_confusion = []
   /\ fired ErrorPatternDatabase.dollar_sign_missing
      = ["dollar_sign_missing"%string])
  /\ (char_in "." (TransactionRow.amount_raw row) = true ->
      fired ErrorPatternDatabase.comma_decimal_confusion = [])
  /\ matched_names
       (ErrorPatternDatabase.match_ re_search str_decimal str_date
          ErrorPatternDatabase._get_default_patterns
          (statement_of [raw_amount_row "(1,200.00)"; raw_amount_row "(1200.00)"]))
     = ["bracket_negative_misread"; "dollar_sign_missing";
        "bracket_negative_misread"; "dollar_sign_missing"]%string.
Proof.
  intro fired. split; [|split].
  - intros [H|H]; unfold fired, ErrorPatternDatabase._match_pattern; cbn;
      rewrite H; repeat split; reflexivity.
  - intro H. unfold fired. rewrite comma_pattern_needs_no_dot by exact H.
    reflexivity.
  - vm_compute. reflexivity.
Qed.

Lemma bracket_and_comma_witness :
  matched_names
    (ErrorPatternDatabase._match_pattern (fun _ _ => false) (fun _ => EmptyString)
       (fun _ => EmptyString) ErrorPatternDatabase.bracket_negative_misread
       (raw_amount_row "(1,200.00)") 0)
  = ["bracket_negative_misread"%string]
  /\ matched_names
       (ErrorPatternDatabase._match_pattern (fun _ _ => false)
          (fun _ => EmptyString) (fun _ => EmptyString)
          ErrorPatternDatabase.comma_decimal_confusion
          (raw_amount_row "(1,200.00)") 0)
     = [].
Proof.
  destruct (proj1 (bracket_and_comma_patterns_do_not_co_fire (fun _ _ => false)
                     (fun _ => EmptyString) (fun _ => EmptyString)
                     (raw_amount_row "(1,200.00)") 0)
                  (or_introl eq_refl)) as [Hb [Hc _]].
  split; [exact Hb|exact Hc].
Defined.

(** C8, as stated: "(1200.00)" does not match bracket_negative_misread
    only; the default catalog also reports dollar_sign_missing for it. *)
Lemma bracketed_amount_matches_two_patterns :
  matched_names
    (ErrorPatternDatabase.match_ (fun _ _ => false) (fun _ => EmptyString)
       (fun _ => EmptyString) ErrorPatternDatabase._get_default_patterns
       (statement_of [raw_amount_row "(1200.00)"]))
  <> ["bracket_negative_misread"%string].
Proof. vm_compute. discriminate. Qed.

(** C10. The field [amount] of a row is its deposit when present and its
    withdrawal otherwise, so the default negative_deposit pattern matches
    every row that has no deposit and a negative withdrawal. *)
Theorem negative_deposit_matches_negative_withdrawal
    (re_search : string -> string -> bool) (str_decimal : Decimal -> string)
    (str_date : date -> string) (result : OCRResult.t)
    (row : TransactionRow.t) (idx : nat) :
  (forall d, TransactionRow.deposit row = Some d ->
             ErrorPatternDatabase._get_field_value row "amount"
             = Some (VDecimal d))
  /\ (TransactionRow.deposit row = None ->
      ErrorPatternDatabase._get_field_value row "amount"
      = option_map VDecimal (TransactionRow.withdrawal row))
  /\ (forall w,
        TransactionRow.deposit row = None ->
        TransactionRow.withdrawal row = Some w ->
        (dec_value w < 0)%Q ->
        let m :=
          PatternMatch.mk "negative_deposit" idx "amount" (str_decimal w)
            "CRITICAL" "Deposits should be positive" in
        ErrorPatternDatabase._match_pattern re_search str_decimal str_date
          ErrorPatternDatabase.negative_deposit row idx = [m]
        /\ (nth_error (OCRResult.rows result) idx = Some row ->
            In m (ErrorPatternDatabase.match_ re_search str_decimal str_date
                    ErrorPatternDatabase._get_default_patterns result))).
Proof.
  split; [|split].
  - intros d H. unfold ErrorPatternDatabase._get_field_value. cbn.
    rewrite H. reflexivity.
  - intro H. unfold ErrorPatternDatabase._get_field_value. cbn.
    rewrite H. reflexivity.
  - intros w Hd Hw Hneg m.
    assert (ErrorPatternDatabase._match_pattern re_search str_decimal str_date
              ErrorPatternDatabase.negative_deposit row idx = [m]) as Hm.
    { assert (dec_ltb w (dec_of_Z 0) = true) as Hlt
        by (apply dec_ltb_value; rewrite dec_of_Z_value; exact Hneg).
      unfold ErrorPatternDatabase._match_pattern,
        ErrorPatternDatabase._get_field_value. cbn -[dec_ltb].
      rewrite Hd, Hw. cbn -[dec_ltb]. rewrite Hlt. reflexivity. }
    split; [exact Hm|]. intro Hrow.
    apply (match_contains re_search str_decimal str_date _ result
             ErrorPatternDatabase.negative_deposit idx row); [exact Hrow| |].
    + cbn. auto 10.
    + rewrite Hm. left; reflexivity.
Qed.

Lemma negative_deposit_witness :
  In (PatternMatch.mk "negative_deposit" 0 "amount" "-5.00" "CRITICAL"
        "Deposits should be positive")
     (ErrorPatternDatabase.match_ (fun _ _ => false) (fun _ => "-5.00"%string)
        (fun _ => EmptyString) ErrorPatternDatabase._get_default_patterns
        (statement_of [negative_withdrawal_row])).
Proof.
  apply (proj2 (proj2 (proj2 (negative_deposit_matches_negative_withdrawal
                                (fun _ _ => false) (fun _ => "-5.00"%string)
                                (fun _ => EmptyString)
                                (statement_of [negative_withdrawal_row])
                                negative_withdrawal_row 0))
                      (mkDecimal (-500) (-2)) eq_refl eq_refl eq_refl)).
  reflexivity.
Defined.

(** * Properties of the risk signals *)

Lemma add_keeps (self : RiskSignals.t) (signal_type : string)
    (details : Details.t) (s : RiskSignal.t) :
  In s self -> In s (RiskSignals.add self signal_type details).
Proof. intro H. unfold RiskSignals.add. apply in_or_app. left; exact H. Qed.

Lemma in_enumerate_of_in {A : Type} (l : list A) (x : A) :
  In x l -> exists i, In (i, x) (enumerate l).
Proof.
  intro H. apply In_nth_error in H. destruct H as [i H].
  exists i. apply in_enumerate. exact H.
Qed.

(** A row with a low amount or balance confidence puts a P0 entry in the
    list [check_low_confidence] builds, which makes it return that list. *)
Lemma check_low_confidence_p0 (config : ValidationConfig.t) (result : OCRResult.t)
    (row : TransactionRow.t) :
  In row (OCRResult.rows result) ->
  (TransactionRow.amount_confidence row
   < ValidationConfig.confidence_threshold config
   \/ TransactionRow.balance_confidence row
      < ValidationConfig.confidence_threshold config)%Q ->
  RiskSignalDetector.check_low_confidence config result <> [].
Proof.
  intros Hin Hlow. unfold RiskSignalDetector.check_low_confidence.
  set (fields := flat_map _ _).
  assert (exists f, In f fields /\ LowConfidenceField.priority f = "P0"%string)
    as [f [Hf Hp]].
  { destruct (in_enumerate_of_in _ _ Hin) as [i Hi].
    destruct Hlow as [Hlow|Hlow]; apply Qltb_lt in Hlow.
    - exists (LowConfidenceField.mk i "amount"
                (TransactionRow.amount_confidence row) "P0").
      split; [|reflexivity]. unfold fields. apply in_flat_map.
      exists (i, row). split; [exact Hi|]. cbn [fst snd].
      unfold RiskSignalDetector.low_confidence_row. rewrite Hlow.
      left; reflexivity.
    - exists (LowConfidenceField.mk i "balance"
                (TransactionRow.balance_confidence row) "P0").
      split; [|reflexivity]. unfold fields. apply in_flat_map.
      exists (i, row). split; [exact Hi|]. cbn [fst snd].
      unfold RiskSignalDetector.low_confidence_row. rewrite Hlow.
      apply in_or_app. right. apply in_or_app. left. left; reflexivity. }
  assert ((0 <? RiskSignalDetector.count_priority "P0" fields) = true) as Hcount.
  { unfold RiskSignalDetector.count_priority. apply Z.ltb_lt.
    assert (In f (filter (fun f => String.eqb (LowConfidenceField.priority f) "P0")
                         fields)) as Hff
      by (apply filter_In; split; [exact Hf|rewrite Hp; reflexivity]).
    destruct (filter _ fields) as [|g l]; [destruct Hff|].
    rewrite Zlen_cons. pose proof (Zlen_nonneg l). lia. }
  rewrite Hcount. cbn [orb].
  intro E. rewrite E in Hf. destruct Hf.
Qed.

(** C9, as the code has it.  On a table with rows, when the low_confidence
    trigger rule is enabled (it is by default) and some row has its amount
    confidence or its balance confidence below the configured threshold, the
    LOW_CONFIDENCE signal fires with severity HIGH and action
    REVIEW_RECOMMENDED.  So it does, for any threshold above 0 (0.85 by
    default), on a table whose rows were built with the confidence fields at
    their 0.0 defaults. *)
Theorem low_confidence_signal_fires
    (config : ValidationConfig.t) (result : OCRResult.t) (row : TransactionRow.t) :
  dict_get (ValidationConfig.trigger_rules config) "low_confidence" true = true ->
  In row (OCRResult.rows result) ->
  ((TransactionRow.amount_confidence row
    < ValidationConfig.confidence_threshold config
    \/ TransactionRow.balance_confidence row
       < ValidationConfig.confidence_threshold config)%Q
   \/ ((0 < ValidationConfig.confidence_threshold config)%Q
       /\ exists d s, row = TransactionRow.default d s)) ->
  has_signal "LOW_CONFIDENCE" "HIGH" "REVIEW_RECOMMENDED"
    (RiskSignalDetector.detect_signals config result).
Proof.
  intros Htrigger Hin Hlow.
  assert (TransactionRow.amount_confidence row
          < ValidationConfig.confidence_threshold config
          \/ TransactionRow.balance_confidence row
             < ValidationConfig.confidence_threshold config)%Q as Hlow'.
  { destruct Hlow as [Hlow|[Hpos [d [s ->]]]]; [exact Hlow|].
    left. exact Hpos. }
  pose proof (check_low_confidence_p0 config result row Hin Hlow') as Hne.
  exists (RiskSignal.mk "LOW_CONFIDENCE" "HIGH"
            (Details.mk (Some "HIGH"%string) (Some "REVIEW_RECOMMENDED"%string)
               (Fields (RiskSignalDetector.check_low_confidence config result)))
            "REVIEW_RECOMMENDED").
  split; [|repeat split].
  unfold RiskSignalDetector.detect_signals.
  destruct (OCRResult.rows result) as [|r0 rs] eqn:Erows; [destruct Hin|].
  cbn [is_empty]. rewrite Htrigger.
  destruct (RiskSignalDetector.check_low_confidence config result) as [|f l] eqn:E;
    [contradiction|].
  cbn [is_empty negb].
  match goal with
  | |- context [RiskSignals.add [] ?t ?d] => set (s1 := RiskSignals.add [] t d)
  end.
  assert (In (RiskSignal.mk "LOW_CONFIDENCE" "HIGH"
                (Details.mk (Some "HIGH"%string)
                   (Some "REVIEW_RECOMMENDED"%string) (Fields (f :: l)))
                "REVIEW_RECOMMENDED") s1) as Hs1 by (left; reflexivity).
  clearbody s1.
  repeat match goal with
         | |- In _ (if ?b then _ else _) => destruct b
         | |- In _ (match ?o with Some _ => _ | None => _ end) => destruct o
         | |- In _ (RiskSignals.add _ _ _) => apply add_keeps
         end;
    exact Hs1.
Qed.

Lemma low_confidence_signal_witness :
  has_signal "LOW_CONFIDENCE" "HIGH" "REVIEW_RECOMMENDED"
    (RiskSignalDetector.detect_signals ValidationConfig.default unscored_statement).
Proof.
  apply (low_confidence_signal_fires ValidationConfig.default unscored_statement
           (TransactionRow.default (Some 738000) "Payroll")).
  - reflexivity.
  - left; reflexivity.
  - right. split; [reflexivity|].
    exists (Some 738000), "Payroll"%string. reflexivity.
Defined.

(** C9, as stated: with the low_confidence trigger rule switched off, a
    table whose confidences are all at their 0.0 defaults raises no
    LOW_CONFIDENCE signal. *)
Lemma low_confidence_signal_can_be_switched_off :
  ~ has_signal "LOW_CONFIDENCE" "HIGH" "REVIEW_RECOMMENDED"
      (RiskSignalDetector.detect_signals low_confidence_off unscored_statement).
Proof.
  intros [s [Hin [Htype _]]].
  vm_compute in Hin.
  repeat (destruct Hin as [<-|Hin]; [discriminate Htype|]).
  destruct Hin.
Qed.

(** * Further properties of the hard rules *)

Lemma dec_eqb_value (a b : Decimal) :
  dec_eqb a b = true <-> (dec_value a == dec_value b)%Q.
Proof.
  pose proof (dec_align_value a b) as H.
  unfold dec_eqb. destruct (dec_align a b) as [[ca cb] e].
  destruct H as [Ha Hb]. rewrite <- Ha, <- Hb. rewrite Z.eqb_eq. split.
  - intros ->. reflexivity.
  - intro H. apply Qmult_inj_r in H.
    + unfold Qeq in H. cbn in H. lia.
    + intro E. pose proof (ten_power_pos e) as P. rewrite E in P. discriminate P.
Qed.

Lemma dec_sum_from_value (l : list Decimal) (a : Decimal) :
  (dec_value (fold_left dec_add l a)
   == dec_value a + fold_right Qplus 0 (map dec_value l))%Q.
Proof.
  revert a. induction l as [|x l IH]; intro a; cbn [fold_left map fold_right].
  - ring.
  - rewrite IH, dec_add_value. ring.
Qed.

Lemma dec_sum_value (l : list Decimal) :
  (dec_value (dec_sum l) == fold_right Qplus 0 (map dec_value l))%Q.
Proof.
  unfold dec_sum. rewrite dec_sum_from_value, dec_of_Z_value. ring.
Qed.

(** Selecting, in the findings of a loop over [enumerate l], those of the
    row at index [i]. *)
Lemma filter_flat_map_enumerate_from {A B : Type} (p : B -> bool)
    (f : nat * A -> list B) (l : list A) (s i : nat) (x : A) :
  nth_error l i = Some x ->
  (forall j r v, In v (f (j, r)) -> p v = Nat.eqb j (s + i)) ->
  filter p (flat_map f (combine (seq s (List.length l)) l)) = f ((s + i)%nat, x).
Proof.
  revert s i. induction l as [|a l IH]; intros s i Hn Hp;
    [destruct i; discriminate|].
  cbn [List.length seq combine flat_map]. rewrite filter_app.
  destruct i as [|i].
  - inversion Hn; subst a. rewrite Nat.add_0_r in *.
    rewrite filter_all by (intros v Hv; rewrite (Hp s x v Hv); apply Nat.eqb_refl).
    rewrite filter_flat_map, flat_map_nil; [apply app_nil_r|].
    intros [j r] Hj. apply filter_none. intros v Hv.
    rewrite (Hp j r v Hv). apply Nat.eqb_neq.
    apply in_combine_l, in_seq in Hj. lia.
  - rewrite (filter_none p (f (s, a))).
    + replace (s + S i)%nat with (S s + i)%nat by lia.
      apply IH; [exact Hn|].
      intros j r v Hv. rewrite (Hp j r v Hv). f_equal. lia.
    + intros v Hv. rewrite (Hp s a v Hv). apply Nat.eqb_neq. lia.
Qed.

Lemma filter_flat_map_enumerate {A B : Type} (p : B -> bool)
    (f : nat * A -> list B) (l : list A) (i : nat) (x : A) :
  nth_error l i = Some x ->
  (forall j r v, In v (f (j, r)) -> p v = Nat.eqb j i) ->
  filter p (flat_map f (enumerate l)) = f (i, x).
Proof. intros Hn Hp. apply (filter_flat_map_enumerate_from p f l 0 i x Hn Hp). Qed.

Lemma filter_comm {A : Type} (p q : A -> bool) (l : list A) :
  filter p (filter q l) = filter q (filter p l).
Proof.
  induction l as [|a l IH]; [reflexivity|].
  cbn [filter]. destruct (p a) eqn:Ep, (q a) eqn:Eq; cbn [filter];
    rewrite ?Ep, ?Eq, IH; reflexivity.
Qed.

Lemma amount_format_row_rows (j : nat) (r : TransactionRow.t) (v : RuleViolation.t) :
  In v (HardRulesValidator.amount_format_row j r) -> RuleViolation.row v = Some j.
Proof.
  unfold HardRulesValidator.amount_format_row. intro Hv.
  repeat (apply in_app_or in Hv; destruct Hv as [Hv|Hv]);
    try (apply HardRulesFacts.amount_format_field_rules in Hv; subst v; reflexivity).
  destruct (TransactionRow.deposit r) as [d|], (TransactionRow.withdrawal r) as [w|];
    try destruct (negb (dec_eqb d (dec_of_Z 0)) && negb (dec_eqb w (dec_of_Z 0)));
    try destruct Hv as [<-|[]]; try destruct Hv; reflexivity.
Qed.

(** The violations the amount-format rule raises for the row at [i]. *)
Lemma at_row_amount_format (result : OCRResult.t) (i : nat) (row : TransactionRow.t) :
  nth_error (OCRResult.rows result) i = Some row ->
  at_row i (HardRulesValidator.validate_amount_format result)
  = HardRulesValidator.amount_format_row i row.
Proof.
  intro Hn. unfold at_row, HardRulesValidator.validate_amount_format.
  apply (filter_flat_map_enumerate _
           (fun ir => HardRulesValidator.amount_format_row (fst ir) (snd ir))
           _ i row Hn).
  intros j r v Hv. cbn [fst snd] in Hv.
  rewrite (amount_format_row_rows j r v Hv). reflexivity.
Qed.

(** On a table with rows, the violations of one of the amount-format
    rule's names are those the amount-format rule raised. *)
Lemma by_rule_amount_format (today : date) (result : OCRResult.t) (rule : string) :
  OCRResult.rows result <> [] ->
  In rule ["NO_AMOUNT"; "BOTH_DEPOSIT_WITHDRAWAL"; "INVALID_AMOUNT_FORMAT"]%string ->
  by_rule rule (HardRulesValidator.validate today result)
  = by_rule rule (HardRulesValidator.validate_amount_format result).
Proof.
  intros Hne Hrule. unfold HardRulesValidator.validate, by_rule.
  destruct (OCRResult.rows result) eqn:E; [contradiction|]. cbn [is_empty].
  rewrite !filter_app.
  rewrite (filter_none _ (HardRulesValidator.validate_date_range today result)).
  2:{ intros v Hv. apply HardRulesFacts.date_range_rules in Hv. cbn in Hv, Hrule.
      destruct Hv as [<-|[<-|[<-|[]]]];
        destruct Hrule as [<-|[<-|[<-|[]]]]; reflexivity. }
  rewrite (filter_none _ (HardRulesValidator.validate_running_balance result)).
  2:{ intros v Hv. unfold HardRulesValidator.validate_running_balance in Hv.
      apply in_flat_map in Hv. destruct Hv as [i [_ Hv]].
      apply HardRulesFacts.running_balance_at_rules in Hv. destruct Hv as [-> _].
      cbn in Hrule. destruct Hrule as [<-|[<-|[<-|[]]]]; reflexivity. }
  rewrite (filter_none _ (HardRulesValidator.validate_overall_balance result)).
  2:{ intros v Hv. apply HardRulesFacts.overall_balance_rules in Hv.
      destruct Hv as [-> _].
      cbn in Hrule. destruct Hrule as [<-|[<-|[<-|[]]]]; reflexivity. }
  rewrite app_nil_r. reflexivity.
Qed.

Lemma amount_findings_of_row (today : date) (result : OCRResult.t) (rule : string)
    (i : nat) (row : TransactionRow.t) :
  nth_error (OCRResult.rows result) i = Some row ->
  In rule ["NO_AMOUNT"; "BOTH_DEPOSIT_WITHDRAWAL"; "INVALID_AMOUNT_FORMAT"]%string ->
  at_row i (by_rule rule (HardRulesValidator.validate today result))
  = by_rule rule (HardRulesValidator.amount_format_row i row).
Proof.
  intros Hn Hrule.
  assert (OCRResult.rows result <> []) as Hne
    by (intro E; rewrite E in Hn; destruct i; discriminate).
  rewrite (by_rule_amount_format today result rule Hne Hrule).
  unfold at_row, by_rule. rewrite filter_comm.
  fold (at_row i (HardRulesValidator.validate_amount_format result)).
  rewrite (at_row_amount_format result i row Hn). reflexivity.
Qed.

(** X1. For a row of the table and each of its monetary fields, the
    validator reports one CRITICAL INVALID_AMOUNT_FORMAT tagged with the
    field when the amount is present and its written exponent is beyond 2 in
    magnitude or its magnitude is above 1,000,000, and none otherwise. *)
Theorem invalid_amount_format_per_field
    (today : date) (result : OCRResult.t) (i : nat) (row : TransactionRow.t)
    (name : string) (amount : option Decimal) :
  nth_error (OCRResult.rows result) i = Some row ->
  In (name, amount) (monetary_fields row) ->
  let found :=
    on_field name
      (at_row i (by_rule "INVALID_AMOUNT_FORMAT"
                   (HardRulesValidator.validate today result))) in
  (forall a, amount = Some a ->
     (2 < Z.abs (exponent a))%Z \/ (inject_Z 1000000 < Qabs (dec_value a))%Q ->
     found = [RuleViolation.mk "INVALID_AMOUNT_FORMAT" "CRITICAL" (Some i)
                (Some name) None None None])
  /\ (forall a, amount = Some a ->
        (Z.abs (exponent a) <= 2)%Z ->
        (Qabs (dec_value a) <= inject_Z 1000000)%Q ->
        found = [])
  /\ (amount = None -> found = []).
Proof.
  intros Hn Hfield found.
  assert (found = HardRulesValidator.amount_format_field i name amount) as Hfound.
  { unfold found.
    rewrite (amount_findings_of_row today result _ i row Hn) by (cbn; auto).
    unfold HardRulesValidator.amount_format_row, by_rule, on_field.
    rewrite !filter_app.
    assert (forall n a,
               filter (fun v => match RuleViolation.field v with
                                | Some f => String.eqb f name
                                | None => false
                                end)
                 (filter (fun v => String.eqb (RuleViolation.rule v)
                                     "INVALID_AMOUNT_FORMAT")
                    (HardRulesValidator.amount_format_field i n a))
               = if String.eqb n name
                 then HardRulesValidator.amount_format_field i n a else []) as Hf.
    { intros n a. unfold HardRulesValidator.amount_format_field.
      destruct a as [a|]; [|destruct (String.eqb n name); reflexivity].
      destruct (negb (HardRulesValidator.is_valid_currency a));
        [|destruct (String.eqb n name); reflexivity].
      cbn. destruct (String.eqb n name); reflexivity. }
    rewrite !Hf.
    match goal with
    | |- filter _ (filter _ ?pres) ++ _ = _ =>
        assert (filter (fun v => String.eqb (RuleViolation.rule v)
                                   "INVALID_AMOUNT_FORMAT") pres = []) as Hp
    end.
    { destruct (TransactionRow.deposit row) as [d|],
               (TransactionRow.withdrawal row) as [w|];
        try destruct (negb (dec_eqb d (dec_of_Z 0)) && negb (dec_eqb w (dec_of_Z 0)));
        reflexivity. }
    rewrite Hp. cbn [filter app].
    cbn in Hfield.
    destruct Hfield as [H|[H|[H|[]]]]; inversion H; subst; cbn;
      rewrite ?app_nil_r; reflexivity. }
  rewrite Hfound. unfold HardRulesValidator.amount_format_field.
  split; [|split].
  - intros a -> Hbad. apply is_valid_currency_false_iff in Hbad.
    rewrite Hbad. reflexivity.
  - intros a -> He Hv.
    destruct (HardRulesValidator.is_valid_currency a) eqn:E; [reflexivity|].
    apply is_valid_currency_false_iff in E. destruct E as [E|E]; [lia|].
    exfalso. exact (Qle_not_lt _ _ Hv E).
  - intros ->. reflexivity.
Qed.

Lemma invalid_amount_format_witness :
  on_field "deposit"
    (at_row 0 (by_rule "INVALID_AMOUNT_FORMAT"
                 (HardRulesValidator.validate 738002
                    (statement_of [plain_row (Some 738000)
                                     (Some (mkDecimal 12345 (-3))) None None]))))
  = [RuleViolation.mk "INVALID_AMOUNT_FORMAT" "CRITICAL" (Some 0%nat)
       (Some "deposit"%string) None None None].
Proof.
  apply (proj1 (invalid_amount_format_per_field 738002
                  (statement_of [plain_row (Some 738000)
                                   (Some (mkDecimal 12345 (-3))) None None])
                  0 (plain_row (Some 738000) (Some (mkDecimal 12345 (-3))) None None)
                  "deposit" (Some (mkDecimal 12345 (-3)))
                  eq_refl (or_introl eq_refl))
               (mkDecimal 12345 (-3)) eq_refl).
  left. reflexivity.
Defined.

Lemma by_rule_amount_format_field_other (rule : string) (i : nat) (n : string)
    (a : option Decimal) :
  rule <> "INVALID_AMOUNT_FORMAT"%string ->
  by_rule rule (HardRulesValidator.amount_format_field i n a) = [].
Proof.
  intro Hr. unfold by_rule. apply filter_none. intros v Hv.
  apply HardRulesFacts.amount_format_field_rules in Hv. subst v.
  cbn [RuleViolation.rule]. apply String.eqb_neq. congruence.
Qed.

(** X2. For a row of the table, the validator reports one HIGH NO_AMOUNT
    exactly when neither deposit nor withdrawal is present, and one MEDIUM
    BOTH_DEPOSIT_WITHDRAWAL exactly when both are present and neither is
    zero. *)
Theorem amount_presence_findings
    (today : date) (result : OCRResult.t) (i : nat) (row : TransactionRow.t) :
  nth_error (OCRResult.rows result) i = Some row ->
  let no_amount :=
    at_row i (by_rule "NO_AMOUNT" (HardRulesValidator.validate today result)) in
  let both :=
    at_row i (by_rule "BOTH_DEPOSIT_WITHDRAWAL"
                (HardRulesValidator.validate today result)) in
  (TransactionRow.deposit row = None /\ TransactionRow.withdrawal row = None ->
   no_amount = [RuleViolation.mk "NO_AMOUNT" "HIGH" (Some i) None None None None])
  /\ (TransactionRow.deposit row <> None \/ TransactionRow.withdrawal row <> None ->
      no_amount = [])
  /\ (forall d w,
        TransactionRow.deposit row = Some d ->
        TransactionRow.withdrawal row = Some w ->
        ~ (dec_value d == 0)%Q -> ~ (dec_value w == 0)%Q ->
        both = [RuleViolation.mk "BOTH_DEPOSIT_WITHDRAWAL" "MEDIUM" (Some i)
                  None None None None])
  /\ (amount_or_zero (TransactionRow.deposit row) == 0
      \/ amount_or_zero (TransactionRow.withdrawal row) == 0 ->
      both = [])%Q.
Proof.
  intros Hn no_amount both.
  assert (forall rule,
             In rule ["NO_AMOUNT"; "BOTH_DEPOSIT_WITHDRAWAL"]%string ->
             at_row i (by_rule rule (HardRulesValidator.validate today result))
             = by_rule rule
                 (match TransactionRow.deposit row, TransactionRow.withdrawal row with
                  | None, None =>
                      [RuleViolation.mk "NO_AMOUNT" "HIGH" (Some i) None None None None]
                  | Some d, Some w =>
                      if negb (dec_eqb d (dec_of_Z 0)) && negb (dec_eqb w (dec_of_Z 0))
                      then [RuleViolation.mk "BOTH_DEPOSIT_WITHDRAWAL" "MEDIUM"
                              (Some i) None None None None]
                      else []
                  | _, _ => []
                  end)) as Hfound.
  { intros rule Hrule.
    rewrite (amount_findings_of_row today result rule i row Hn)
      by (cbn in Hrule |- *; tauto).
    unfold HardRulesValidator.amount_format_row.
    assert (rule <> "INVALID_AMOUNT_FORMAT"%string) as Hr
      by (cbn in Hrule; destruct Hrule as [<-|[<-|[]]]; discriminate).
    unfold by_rule at 1. rewrite !filter_app.
    fold (by_rule rule (HardRulesValidator.amount_format_field i "deposit"
                          (TransactionRow.deposit row))).
    fold (by_rule rule (HardRulesValidator.amount_format_field i "withdrawal"
                          (TransactionRow.withdrawal row))).
    fold (by_rule rule (HardRulesValidator.amount_format_field i "balance"
                          (TransactionRow.balance row))).
    rewrite !by_rule_amount_format_field_other by exact Hr.
    rewrite !app_nil_r. reflexivity. }
  assert (forall d, dec_eqb d (dec_of_Z 0) = true <-> (dec_value d == 0)%Q) as Hz.
  { intro d. rewrite dec_eqb_value, dec_of_Z_value. reflexivity. }
  unfold no_amount, both. rewrite !Hfound by (cbn; auto).
  split; [|split; [|split]].
  - intros [-> ->]. reflexivity.
  - intros [H|H];
      destruct (TransactionRow.deposit row) as [d|],
               (TransactionRow.withdrawal row) as [w|];
      try congruence; try reflexivity;
      destruct (negb (dec_eqb d (dec_of_Z 0)) && negb (dec_eqb w (dec_of_Z 0)));
      reflexivity.
  - intros d w -> -> Hd Hw.
    destruct (dec_eqb d (dec_of_Z 0)) eqn:Ed; [apply Hz in Ed; contradiction|].
    destruct (dec_eqb w (dec_of_Z 0)) eqn:Ew; [apply Hz in Ew; contradiction|].
    reflexivity.
  - intros H.
    destruct (TransactionRow.deposit row) as [d|],
             (TransactionRow.withdrawal row) as [w|]; try reflexivity.
    cbn [amount_or_zero] in H.
    destruct H as [H|H]; apply Hz in H; rewrite H;
      rewrite ?andb_false_r; reflexivity.
Qed.

Lemma amount_presence_witness :
  at_row 0 (by_rule "NO_AMOUNT"
              (HardRulesValidator.validate 738002
                 (deposit_statement (mkDecimal 15000 (-2)))))
  = [RuleViolation.mk "NO_AMOUNT" "HIGH" (Some 0%nat) None None None None].
Proof.
  apply (proj1 (amount_presence_findings 738002
                  (deposit_statement (mkDecimal 15000 (-2))) 0
                  (plain_row (Some 738000) None None (Some (mkDecimal 10000 (-2))))
                  eq_refl)).
  split; reflexivity.
Defined.

Lemma by_rule_overall_balance (today : date) (result : OCRResult.t) :
  OCRResult.rows result <> [] ->
  by_rule "OVERALL_BALANCE_MISMATCH" (HardRulesValidator.validate today result)
  = HardRulesValidator.validate_overall_balance result.
Proof.
  intro Hne. unfold HardRulesValidator.validate, by_rule.
  destruct (OCRResult.rows result) eqn:E; [contradiction|]. cbn [is_empty].
  rewrite !filter_app.
  rewrite (filter_none _ (HardRulesValidator.validate_date_range today result)).
  2:{ intros v Hv. apply HardRulesFacts.date_range_rules in Hv. cbn in Hv.
      destruct Hv as [<-|[<-|[<-|[]]]]; reflexivity. }
  rewrite (filter_none _ (HardRulesValidator.validate_amount_format result)).
  2:{ intros v Hv. apply HardRulesFacts.amount_format_rules in Hv. cbn in Hv.
      destruct Hv as [<-|[<-|[<-|[]]]]; reflexivity. }
  rewrite (filter_none _ (HardRulesValidator.validate_running_balance result)).
  2:{ intros v Hv. unfold HardRulesValidator.validate_running_balance in Hv.
      apply in_flat_map in Hv. destruct Hv as [i [_ Hv]].
      apply HardRulesFacts.running_balance_at_rules in Hv. destruct Hv as [-> _].
      reflexivity. }
  cbn [app]. apply filter_all. intros v Hv.
  apply HardRulesFacts.overall_balance_rules in Hv. destruct Hv as [-> _].
  reflexivity.
Qed.

(** X3. The overall-balance rule is skipped on a table without rows or
    without an opening or a closing balance.  Otherwise the expected closing
    balance is the opening balance plus the deposits minus the withdrawals
    of all rows, and the validator reports one CRITICAL
    OVERALL_BALANCE_MISMATCH, tied to no row and carrying the expected and
    the actual closing balance and their absolute difference, when that
    difference exceeds 0.02, and none otherwise. *)
Theorem overall_balance_findings (today : date) (result : OCRResult.t) :
  let rows := OCRResult.rows result in
  let found :=
    by_rule "OVERALL_BALANCE_MISMATCH" (HardRulesValidator.validate today result) in
  (rows = [] \/ OCRResult.opening_balance result = None
   \/ OCRResult.closing_balance result = None -> found = [])
  /\ (forall opening closing,
        rows <> [] ->
        OCRResult.opening_balance result = Some opening ->
        OCRResult.closing_balance result = Some closing ->
        let expected :=
          (dec_value opening + column_total TransactionRow.deposit rows
           - column_total TransactionRow.withdrawal rows)%Q in
        let difference := Qabs (expected - dec_value closing) in
        ((2 # 100 < difference)%Q ->
         exists e d,
           found = [RuleViolation.mk "OVERALL_BALANCE_MISMATCH" "CRITICAL" None
                      None (Some e) (Some closing) (Some d)]
           /\ (dec_value e == expected)%Q /\ (d == difference)%Q)
        /\ ((difference <= 2 # 100)%Q -> found = [])).
Proof.
  intros rows found. split.
  - intros [H|H].
    + unfold found, HardRulesValidator.validate. fold rows. rewrite H. reflexivity.
    + destruct rows eqn:E.
      * unfold found, HardRulesValidator.validate. fold rows. rewrite E. reflexivity.
      * unfold found. rewrite by_rule_overall_balance
          by (fold rows; rewrite E; discriminate).
        unfold HardRulesValidator.validate_overall_balance.
        destruct H as [-> | ->]; [reflexivity|].
        destruct (OCRResult.opening_balance result); reflexivity.
  - intros opening closing Hne Ho Hc expected difference.
    unfold found. rewrite by_rule_overall_balance by exact Hne.
    unfold HardRulesValidator.validate_overall_balance. rewrite Ho, Hc.
    cbv zeta. fold rows.
    set (e := dec_sub (dec_add opening _) _).
    assert (dec_value e == expected)%Q as He.
    { unfold e, expected, column_total.
      rewrite dec_sub_value, dec_add_value, !dec_sum_value. reflexivity. }
    assert (dec_value (dec_abs (dec_sub e closing)) == difference)%Q as Hd.
    { unfold difference. rewrite dec_abs_value, dec_sub_value, He. reflexivity. }
    split; intro H.
    + exists e, (dec_value (dec_abs (dec_sub e closing))).
      split; [|split; assumption].
      replace (dec_ltb HardRulesValidator.tolerance (dec_abs (dec_sub e closing)))
        with true; [reflexivity|].
      symmetry. apply dec_ltb_value.
      rewrite HardRulesFacts.tolerance_value, Hd. exact H.
    + replace (dec_ltb HardRulesValidator.tolerance (dec_abs (dec_sub e closing)))
        with false; [reflexivity|].
      symmetry. apply dec_ltb_false_value.
      rewrite HardRulesFacts.tolerance_value, Hd. exact H.
Qed.

Lemma overall_balance_witness :
  by_rule "OVERALL_BALANCE_MISMATCH"
    (HardRulesValidator.validate 738002
       (OCRResult.mk "statement" "document_ai" ""
          [plain_row (Some 738000) (Some (mkDecimal 5000 (-2))) None None]
          [] false 0%Q (Some (mkDecimal 10000 (-2))) (Some (mkDecimal 15000 (-2)))
          1 1 0%Q))
  = [].
Proof.
  apply (proj2 (overall_balance_findings 738002
                  (OCRResult.mk "statement" "document_ai" ""
                     [plain_row (Some 738000) (Some (mkDecimal 5000 (-2))) None None]
                     [] false 0%Q (Some (mkDecimal 10000 (-2)))
                     (Some (mkDecimal 15000 (-2))) 1 1 0%Q))
               (mkDecimal 10000 (-2)) (mkDecimal 15000 (-2))).
  - discriminate.
  - reflexivity.
  - reflexivity.
  - discriminate.
Defined.

Lemma enumerate_from_nth_error {A : Type} (l : list A) (s i : nat) (x : A) :
  In (i, x) (combine (seq s (List.length l)) l) ->
  (s <= i)%nat /\ nth_error l (i - s) = Some x.
Proof.
  revert s. induction l as [|a l IH]; intros s H; [destruct H|].
  cbn [List.length seq combine] in H. destruct H as [H|H].
  - inversion H; subst. rewrite Nat.sub_diag. split; [lia|reflexivity].
  - apply IH in H. destruct H as [Hle Hn]. split; [lia|].
    replace (i - s)%nat with (S (i - S s)) by lia. exact Hn.
Qed.

Lemma enumerate_nth_error {A : Type} (l : list A) (i : nat) (x : A) :
  In (i, x) (enumerate l) <-> nth_error l i = Some x.
Proof.
  split; [|apply in_enumerate].
  intro H. apply enumerate_from_nth_error in H.
  rewrite Nat.sub_0_r in H. apply H.
Qed.

Lemma in_adjacent_pairs {A : Type} (l : list A) (p c : A) :
  In (p, c) (adjacent_pairs l)
  <-> exists i, (1 <= i)%nat /\ nth_error l (i - 1) = Some p /\ nth_error l i = Some c.
Proof.
  pose proof (range1_adjacent_pairs l) as E. split.
  - intro H.
    apply (in_map (fun q => (Some (fst q), Some (snd q)))) in H.
    rewrite <- E in H. apply in_map_iff in H. destruct H as [i [Hi Hin]].
    apply in_range1 in Hin. cbv beta in Hi. cbn [fst snd] in Hi.
    injection Hi as Hp Hc.
    exists i. split; [lia|]. split; [exact Hp|exact Hc].
  - intros [i [Hi [Hp Hc]]].
    assert (In i (range1 l)) as Hin.
    { apply in_range1. split; [exact Hi|].
      apply nth_error_Some. rewrite Hc. discriminate. }
    apply (in_map (fun i => (nth_error l (i - 1), nth_error l i))) in Hin.
    rewrite E, Hp, Hc in Hin. apply in_map_iff in Hin.
    destruct Hin as [[p' c'] [Hq Hin]]. cbv beta in Hq. cbn [fst snd] in Hq.
    inversion Hq; subst. exact Hin.
Qed.

Lemma flat_map_eq_nil {A B : Type} (f : A -> list B) (l : list A) :
  flat_map f l = [] <-> forall x, In x l -> f x = [].
Proof.
  split; [|apply flat_map_nil].
  intros H x Hx. destruct (f x) as [|b t] eqn:E; [reflexivity|].
  assert (In b (flat_map f l)) as Hb
    by (apply in_flat_map; exists x; split; [exact Hx|rewrite E; left; reflexivity]).
  rewrite H in Hb. destruct Hb.
Qed.

(** The date rule finds nothing for a row exactly when the row has a date
    that is not after today and not before the date of the previous row. *)
Lemma date_range_row_nil (today : date) (rows : list TransactionRow.t)
    (idx : nat) (row : TransactionRow.t) :
  HardRulesValidator.date_range_row today rows idx row = []
  <-> exists d,
        TransactionRow.transaction_date row = Some d /\ d <= today
        /\ forall prev pd,
             (1 <= idx)%nat -> nth_error rows (idx - 1) = Some prev ->
             TransactionRow.transaction_date prev = Some pd -> pd <= d.
Proof.
  unfold HardRulesValidator.date_range_row.
  destruct (TransactionRow.transaction_date row) as [d|];
    [|split; [discriminate|intros [d [H _]]; discriminate]].
  split.
  - intro H. apply app_eq_nil in H. destruct H as [H1 H2].
    exists d. split; [reflexivity|]. split.
    + destruct (Z.ltb_spec today d); [discriminate|lia].
    + intros prev pd Hidx Hprev Hpd.
      assert ((0 <? idx)%nat = true) as E by (apply Nat.ltb_lt; lia).
      rewrite E, Hprev, Hpd in H2.
      destruct (Z.ltb_spec d pd); [discriminate|lia].
  - intros [d' [Hd [Hle Hprev]]]. inversion Hd; subst d'.
    destruct (Z.ltb_spec today d); [lia|]. cbn [app].
    destruct (0 <? idx)%nat eqn:E; [|reflexivity].
    apply Nat.ltb_lt in E.
    destruct (nth_error rows (idx - 1)) as [prev|] eqn:Ep; [|reflexivity].
    destruct (TransactionRow.transaction_date prev) as [pd|] eqn:Epd; [|reflexivity].
    specialize (Hprev prev pd ltac:(lia) eq_refl Epd).
    destruct (Z.ltb_spec d pd); [lia|reflexivity].
Qed.

(** X4. The validator raises no date violation (DATE_MISSING,
    DATE_IN_FUTURE, DATE_NOT_MONOTONIC) exactly when every row has a date
    that is not after today and, for every two adjacent rows, the date of
    the second is not before the date of the first. *)
Theorem no_date_violation_iff_dates_in_order (today : date) (result : OCRResult.t) :
  (forall v, In v (HardRulesValidator.validate today result) ->
             ~ In (RuleViolation.rule v)
                  ["DATE_MISSING"; "DATE_IN_FUTURE"; "DATE_NOT_MONOTONIC"]%string)
  <-> (forall row, In row (OCRResult.rows result) ->
         exists d, TransactionRow.transaction_date row = Some d /\ d <= today)
      /\ (forall p c dp dc,
            In (p, c) (adjacent_pairs (OCRResult.rows result)) ->
            TransactionRow.transaction_date p = Some dp ->
            TransactionRow.transaction_date c = Some dc -> dp <= dc).
Proof.
  assert ((forall v, In v (HardRulesValidator.validate today result) ->
             ~ In (RuleViolation.rule v)
                  ["DATE_MISSING"; "DATE_IN_FUTURE"; "DATE_NOT_MONOTONIC"]%string)
          <-> HardRulesValidator.validate_date_range today result = []) as Hdate.
  { unfold HardRulesValidator.validate.
    destruct (OCRResult.rows result) as [|r0 rs] eqn:E; cbn [is_empty].
    - split.
      + intros _. unfold HardRulesValidator.validate_date_range, enumerate.
        rewrite E. reflexivity.
      + intros _ v [<-|[]]. cbn. intuition discriminate.
    - split.
      + intro H.
        destruct (HardRulesValidator.validate_date_range today result)
          as [|v l] eqn:Ev; [reflexivity|].
        exfalso. apply (H v); [left; reflexivity|].
        apply (HardRulesFacts.date_range_rules today result).
        rewrite Ev. left; reflexivity.
      + intros -> v Hv Hrule. cbn [app] in Hv.
        apply in_app_or in Hv. destruct Hv as [Hv|Hv].
        * apply HardRulesFacts.amount_format_rules in Hv. cbn in Hv, Hrule.
          destruct Hv as [Hv|[Hv|[Hv|[]]]]; rewrite <- Hv in Hrule;
            intuition discriminate.
        * apply in_app_or in Hv. destruct Hv as [Hv|Hv].
          -- unfold HardRulesValidator.validate_running_balance in Hv.
             apply in_flat_map in Hv. destruct Hv as [i [_ Hv]].
             apply HardRulesFacts.running_balance_at_rules in Hv.
             destruct Hv as [Hv _]. rewrite Hv in Hrule. cbn in Hrule.
             intuition discriminate.
          -- apply HardRulesFacts.overall_balance_rules in Hv.
             destruct Hv as [Hv _]. rewrite Hv in Hrule. cbn in Hrule.
             intuition discriminate. }
  rewrite Hdate. unfold HardRulesValidator.validate_date_range.
  rewrite flat_map_eq_nil. split.
  - intro H. split.
    + intros row Hrow. destruct (in_enumerate_of_in _ _ Hrow) as [i Hi].
      specialize (H (i, row) Hi). cbn [fst snd] in H.
      apply date_range_row_nil in H. destruct H as [d [Hd [Hle _]]].
      exists d. split; assumption.
    + intros p c dp dc Hpair Hp Hc.
      apply in_adjacent_pairs in Hpair. destruct Hpair as [i [Hi [Hnp Hnc]]].
      specialize (H (i, c) (in_enumerate _ _ _ Hnc)). cbn [fst snd] in H.
      apply date_range_row_nil in H. destruct H as [d [Hd [_ Hprev]]].
      rewrite Hc in Hd. inversion Hd; subst d.
      exact (Hprev p dp Hi Hnp Hp).
  - intros [Hrows Hpairs] [i row] Hi. cbn [fst snd].
    apply enumerate_nth_error in Hi.
    apply date_range_row_nil.
    destruct (Hrows row (nth_error_In _ _ Hi)) as [d [Hd Hle]].
    exists d. split; [exact Hd|]. split; [exact Hle|].
    intros prev pd Hidx Hprev Hpd.
    apply (Hpairs prev row pd d); [|exact Hpd|exact Hd].
    apply in_adjacent_pairs. exists i. split; [exact Hidx|]. split; assumption.
Qed.

(** * Further properties of the verdict *)

Lemma count_checks_pos (result : OCRResult.t) :
  1 <= HardRulesValidator.count_checks result.
Proof.
  destruct (OCRResult.rows result) as [|r0 rs] eqn:E.
  - unfold HardRulesValidator.count_checks. rewrite E. cbn. lia.
  - assert (OCRResult.rows result <> []) as Hne by (rewrite E; discriminate).
    rewrite (HardRulesFacts.count_checks_itemised result Hne).
    pose proof (HardRulesFacts.validate_date_range_bound 0 result).
    unfold itemised_checks. rewrite E.
    rewrite Zlen_cons.
    pose proof (Zlen_nonneg rs).
    pose proof (Zlen_nonneg (adjacent_pairs (r0 :: rs))).
    pose proof (Zlen_nonneg (filter both_balances (adjacent_pairs (r0 :: rs)))).
    assert (0 <= Zsum (map present_monetary_fields (r0 :: rs))).
    { generalize (r0 :: rs). intro l. induction l as [|a l IH]; [cbn; lia|].
      cbn [map Zsum fold_right]. unfold Zsum in IH.
      unfold present_monetary_fields at 1.
      destruct (is_some (TransactionRow.deposit a)),
               (is_some (TransactionRow.withdrawal a)),
               (is_some (TransactionRow.balance a)); cbn [Z_of_bool]; lia. }
    destruct (is_some _ && is_some _); cbn [Z_of_bool]; lia.
Qed.

Lemma Qdiv_unit_interval (p t : Z) :
  0 <= p <= t -> 0 < t -> (0 <= inject_Z p / inject_Z t <= 1)%Q.
Proof.
  intros [Hp Hpt] Ht.
  assert (0 < inject_Z t)%Q as Ht'
    by (change (inject_Z 0 < inject_Z t)%Q; rewrite <- Zlt_Qlt; exact Ht).
  split.
  - apply Qle_shift_div_l; [exact Ht'|].
    rewrite Qmult_0_l. change (inject_Z 0 <= inject_Z p)%Q.
    rewrite <- Zle_Qle. exact Hp.
  - apply Qle_shift_div_r; [exact Ht'|].
    rewrite Qmult_1_l. rewrite <- Zle_Qle. exact Hpt.
Qed.

(** X5. In the verdict of the pipeline the check counts are exact:
    [total_checks] is [count_checks] of the table and is at least 1,
    [failed_checks] is the number of violations, [passed_checks] is their
    difference, so that passed + failed = total, and the rule pass rate is
    passed / total, a value in [0, 1]. *)
Theorem pipeline_check_accounting
    (re_search : string -> string -> bool) (str_decimal : Decimal -> string)
    (str_date : date -> string) (config : ValidationConfig.t)
    (patterns : list ErrorPattern.t) (today : date) (result : OCRResult.t) :
  let report :=
    snd (BankStatementPipeline.process re_search str_decimal str_date
           config patterns today result) in
  let total := ValidationReport.total_checks report in
  let passed := ValidationReport.passed_checks report in
  let failed := ValidationReport.failed_checks report in
  total = HardRulesValidator.count_checks result
  /\ 1 <= total
  /\ failed = Zlen (HardRulesValidator.validate today result)
  /\ passed = total - failed
  /\ 0 <= passed
  /\ (ValidationReport.rule_pass_rate report == inject_Z passed / inject_Z total)%Q
  /\ (0 <= ValidationReport.rule_pass_rate report <= 1)%Q.
Proof.
  pose proof (count_checks_pos result) as Hpos.
  pose proof (HardRulesFacts.validate_bound today result) as Hbound.
  pose proof (Zlen_nonneg (HardRulesValidator.validate today result)) as Hnn.
  unfold_report.
  set (n := HardRulesValidator.count_checks result) in *.
  set (v := Zlen (HardRulesValidator.validate today result)) in *.
  replace (0 + v) with v by lia.
  replace (Z.max (n - v) 0) with (n - v) by lia.
  destruct (Z.eqb_spec n 0); [lia|].
  destruct (Z.ltb_spec n (n - v + v)); [lia|].
  destruct (Z.ltb_spec 0 n); [|lia].
  split; [reflexivity|]. split; [exact Hpos|]. split; [reflexivity|].
  split; [reflexivity|]. split; [lia|]. split; [reflexivity|].
  apply Qdiv_unit_interval; lia.
Qed.

(** X6. [calculate_summary] is idempotent: summarising a summarised report
    changes nothing. *)
Theorem calculate_summary_idempotent (report : ValidationReport.t) :
  ValidationReport.calculate_summary (ValidationReport.calculate_summary report)
  = ValidationReport.calculate_summary report.
Proof.
  destruct report as [doc st rs vs total passed failed warn rate oc lab comps
                        notes metrics pm].
  unfold ValidationReport.calculate_summary.
  cbn [ValidationReport.document_id ValidationReport.validation_status
       ValidationReport.risk_signals ValidationReport.rule_violations
       ValidationReport.total_checks ValidationReport.passed_checks
       ValidationReport.failed_checks ValidationReport.warnings
       ValidationReport.rule_pass_rate ValidationReport.overall_confidence
       ValidationReport.confidence_label ValidationReport.confidence_components
       ValidationReport.confidence_notes ValidationReport.confidence_metrics
       ValidationReport.pattern_matches].
  set (total' := if total =? 0 then passed + failed
                 else if total <? passed + failed then passed + failed else total).
  assert ((if total' =? 0 then passed + failed
           else if total' <? passed + failed then passed + failed else total')
          = total') as Ht.
  { unfold total'.
    repeat match goal with
           | |- context [?a =? ?b] => destruct (Z.eqb_spec a b)
           | |- context [?a <? ?b] => destruct (Z.ltb_spec a b)
           end; lia. }
  rewrite Ht.
  f_equal.
  destruct (0 <? total') eqn:Epos; cbn [andb]; [|reflexivity].
  destruct (Qeq_bool oc 0) eqn:Eoc; rewrite ?Eoc;
    repeat match goal with
           | |- context [if ?b then _ else _] => destruct b
           end; reflexivity.
Qed.

(** X7. Adding violations in bulk is adding them one at a time, and either
    way [failed_checks] grows by the number of violations added. *)
Theorem add_violations_one_by_one (report : ValidationReport.t)
    (violations : list RuleViolation.t) :
  fold_left ValidationReport.add_violation violations report
  = ValidationReport.add_violations report violations
  /\ ValidationReport.failed_checks
       (ValidationReport.add_violations report violations)
     - Zlen (ValidationReport.rule_violations
               (ValidationReport.add_violations report violations))
     = ValidationReport.failed_checks report
       - Zlen (ValidationReport.rule_violations report).
Proof.
  split.
  - revert report. induction violations as [|v vs IH]; intro report.
    + destruct report. unfold ValidationReport.add_violations. cbn.
      rewrite app_nil_r. f_equal. unfold Zlen. cbn. lia.
    + cbn [fold_left]. rewrite IH. destruct report.
      unfold ValidationReport.add_violations, ValidationReport.add_violation.
      cbn. rewrite <- app_assoc. cbn [app]. f_equal.
      unfold Zlen. cbn [List.length]. lia.
  - destruct report. unfold ValidationReport.add_violations. cbn.
    rewrite Zlen_app. lia.
Qed.

(** * Further properties of the confidence score *)

Lemma Qltb_cases (x y : Q) :
  (Qltb x y = true /\ x < y)%Q \/ (Qltb x y = false /\ y <= x)%Q.
Proof.
  destruct (Qltb x y) eqn:E.
  - left. split; [reflexivity|]. apply Qltb_lt. exact E.
  - right. split; [reflexivity|]. apply Qltb_ge. exact E.
Qed.

Lemma Zlen_filter_le {A : Type} (p : A -> bool) (l : list A) :
  0 <= Zlen (filter p l) <= Zlen l.
Proof.
  split; [apply Zlen_nonneg|].
  induction l as [|a l IH]; [cbn; lia|].
  cbn [filter]. destruct (p a); rewrite ?Zlen_cons; lia.
Qed.

(** X8. The risk-signal component computed from the summary of any
    collection of signals lies in [0, 1]; it is 1 minus the penalty
    0.2 per CRITICAL, 0.1 per HIGH, 0.05 per MEDIUM and 0.02 per LOW signal
    while that penalty is at most 1, and 0 beyond; with no signals, or no
    summary at all, it is 1. *)
Theorem risk_signal_score_range (signals : RiskSignals.t) :
  let summary := RiskSignals.to_dict signals in
  let score := fst (ConfidenceScorer._risk_signal_score (Some summary)) in
  let penalty :=
    (inject_Z (RiskSummary.critical_count summary) * (2 # 10)
     + inject_Z (RiskSummary.high_count summary) * (1 # 10)
     + inject_Z (RiskSummary.medium_count summary) * (5 # 100)
     + inject_Z (RiskSummary.low_count summary) * (2 # 100))%Q in
  (0 <= score <= 1)%Q
  /\ (0 <= penalty)%Q
  /\ ((penalty <= 1)%Q -> (score == 1 - penalty)%Q)
  /\ ((1 <= penalty)%Q -> (score == 0)%Q)
  /\ (signals = [] -> (score == 1)%Q)
  /\ (fst (ConfidenceScorer._risk_signal_score None) == 1)%Q.
Proof.
  intros summary score penalty.
  assert (0 <= penalty)%Q as Hp.
  { unfold penalty, summary, RiskSignals.to_dict, RiskSignals.count_severity.
    cbn [RiskSummary.critical_count RiskSummary.high_count
         RiskSummary.medium_count RiskSummary.low_count].
    repeat match goal with
           | |- context [Zlen (filter ?p signals)] =>
               let H := fresh "H" in
               pose proof (proj1 (Zlen_filter_le p signals)) as H;
               rewrite Zle_Qle in H;
               generalize dependent (inject_Z (Zlen (filter p signals)))
           end.
    intros. change (inject_Z 0) with 0%Q in *. lra. }
  assert (signals = [] -> (score == 1)%Q) as Hnone
    by (intros ->; vm_compute; reflexivity).
  assert (fst (ConfidenceScorer._risk_signal_score None) == 1)%Q as Hno
    by (vm_compute; reflexivity).
  assert (score = py_max 0 (1 - py_min 1 penalty)%Q) as Hs by reflexivity.
  clearbody score penalty. rewrite Hs in *. unfold py_max, py_min in *.
  assert (forall P : Q -> Prop,
             ((penalty < 1)%Q -> (0 < 1 - penalty)%Q -> P (1 - penalty)%Q) ->
             ((1 <= penalty)%Q -> P 0%Q) ->
             P (if Qltb 0 (1 - (if Qltb penalty 1 then penalty else 1))
                then (1 - (if Qltb penalty 1 then penalty else 1))%Q else 0%Q))
    as Hcase.
  { intros P Hin Hout.
    destruct (Qltb_cases penalty 1) as [[-> H1]|[-> H1]].
    - destruct (Qltb_cases 0 (1 - penalty)) as [[-> H0]|[-> H0]].
      + apply Hin; assumption.
      + exfalso. lra.
    - destruct (Qltb_cases 0 (1 - 1)) as [[-> H0]|[-> H0]].
      + exfalso. lra.
      + apply Hout. exact H1. }
  split; [|split; [exact Hp|split; [|split; [|split; [exact Hnone|exact Hno]]]]].
  - apply Hcase; intros; lra.
  - intro Hle. apply Hcase; intros; lra.
  - intro Hge. apply Hcase; intros; lra.
Qed.

Lemma count_rows_ratio (p : TransactionRow.t -> bool) (rows : list TransactionRow.t) :
  rows <> [] ->
  (0 <= ConfidenceScorer.count_rows p rows / inject_Z (Zlen rows) <= 1)%Q.
Proof.
  intro Hne. unfold ConfidenceScorer.count_rows.
  apply Qdiv_unit_interval; [apply Zlen_filter_le|].
  destruct rows; [contradiction|]. rewrite Zlen_cons.
  pose proof (Zlen_nonneg rows). lia.
Qed.

Lemma count_rows_all (p : TransactionRow.t -> bool) (rows : list TransactionRow.t) :
  rows <> [] -> (forall row, In row rows -> p row = true) ->
  (ConfidenceScorer.count_rows p rows / inject_Z (Zlen rows) == 1)%Q.
Proof.
  intros Hne Hall. unfold ConfidenceScorer.count_rows.
  rewrite (filter_all p rows Hall).
  apply Qmult_inv_r. intro E.
  destruct rows; [contradiction|]. rewrite Zlen_cons in E.
  pose proof (Zlen_nonneg rows).
  unfold Qeq, inject_Z in E. cbn [Qnum Qden] in E. lia.
Qed.

(** X9. The field-completeness component lies in [0, 1] for every table; it
    is 0 for a table without rows and 1 for a table in which every row has a
    date, a deposit or a withdrawal, and a balance. *)
Theorem field_completeness_range (result : OCRResult.t) :
  let score := fst (ConfidenceScorer._field_completeness result) in
  (0 <= score <= 1)%Q
  /\ (OCRResult.rows result = [] -> score = 0%Q)
  /\ (OCRResult.rows result <> [] ->
      (forall row, In row (OCRResult.rows result) ->
         TransactionRow.transaction_date row <> None
         /\ (TransactionRow.deposit row <> None
             \/ TransactionRow.withdrawal row <> None)
         /\ TransactionRow.balance row <> None) ->
      (score == 1)%Q).
Proof.
  intro score. unfold score, ConfidenceScorer._field_completeness.
  destruct (OCRResult.rows result) as [|r0 rs] eqn:E; cbn [is_empty fst].
  - split; [split; discriminate|]. split; [reflexivity|]. intro H. contradiction.
  - assert (r0 :: rs <> []) as Hne by discriminate.
    set (rows := r0 :: rs) in *.
    cbv zeta. unfold Qsum. cbn [map snd fold_left].
    repeat match goal with
           | |- context [inject_Z (Zlen (?a :: ?b :: ?c :: nil))] =>
               change (inject_Z (Zlen (a :: b :: c :: nil))) with (3 # 1)%Q
           end.
    split; [|split; [intro H; discriminate|]].
    + pose proof (count_rows_ratio
                    (fun row => is_some (TransactionRow.transaction_date row))
                    rows Hne) as H1.
      pose proof (count_rows_ratio
                    (fun row => is_some (TransactionRow.deposit row)
                                || is_some (TransactionRow.withdrawal row))
                    rows Hne) as H2.
      pose proof (count_rows_ratio
                    (fun row => is_some (TransactionRow.balance row))
                    rows Hne) as H3.
      split; [apply Qle_shift_div_l|apply Qle_shift_div_r]; try reflexivity; lra.
    + intros _ Hall.
      pose proof (count_rows_all
                    (fun row => is_some (TransactionRow.transaction_date row))
                    rows Hne) as H1.
      pose proof (count_rows_all
                    (fun row => is_some (TransactionRow.deposit row)
                                || is_some (TransactionRow.withdrawal row))
                    rows Hne) as H2.
      pose proof (count_rows_all
                    (fun row => is_some (TransactionRow.balance row))
                    rows Hne) as H3.
      rewrite H1, H2, H3; [reflexivity| | |];
        intros row Hrow; destruct (Hall row Hrow) as [Hd [Ha Hb]].
      * destruct (TransactionRow.balance row); [reflexivity|contradiction].
      * destruct (TransactionRow.deposit row), (TransactionRow.withdrawal row);
          try reflexivity. destruct Ha; contradiction.
      * destruct (TransactionRow.transaction_date row); [reflexivity|contradiction].
Qed.

Lemma field_completeness_witness :
  (fst (ConfidenceScorer._field_completeness
          (statement_of [plain_row (Some 738000%Z) (Some (mkDecimal 5000 (-2))) None
                           (Some (mkDecimal 15000 (-2)))]))
   == 1)%Q.
Proof.
  apply (proj2 (proj2 (field_completeness_range
                         (statement_of
                            [plain_row (Some 738000%Z) (Some (mkDecimal 5000 (-2)))
                               None (Some (mkDecimal 15000 (-2)))])))).
  - discriminate.
  - intros row [<-|[]]. cbn. repeat split; try discriminate.
    left. discriminate.
Defined.

(** * Further properties of the risk signals *)

Lemma check_field_coverage_details (config : ValidationConfig.t)
    (result : OCRResult.t) (d : Details.t) :
  RiskSignalDetector.check_field_coverage config result = Some d ->
  (Details.severity d = Some "HIGH"%string
   \/ Details.severity d = Some "MEDIUM"%string)
  /\ Details.action d = Some "REVIEW_RECOMMENDED"%string.
Proof.
  unfold RiskSignalDetector.check_field_coverage.
  destruct (is_empty (OCRResult.rows result)); [discriminate|].
  cbv zeta. destruct (is_empty (filter _ _)); [discriminate|].
  destruct (existsb _ _); intro H; injection H as <-; cbn; auto.
Qed.

(** The signals of a table with rows, check by check. *)
Lemma detect_signals_shape (config : ValidationConfig.t) (result : OCRResult.t) :
  OCRResult.rows result <> [] ->
  exists l1 l2 l3 l4 l5,
    RiskSignalDetector.detect_signals config result = l1 ++ l2 ++ l3 ++ l4 ++ l5
    /\ (l1 = [] \/ exists d,
          l1 = [RiskSignal.mk "LOW_CONFIDENCE" "HIGH" d "REVIEW_RECOMMENDED"])
    /\ (l2 = [] \/ exists d sev,
          l2 = [RiskSignal.mk "LOW_FIELD_COVERAGE" sev d "REVIEW_RECOMMENDED"]
          /\ (sev = "HIGH"%string \/ sev = "MEDIUM"%string))
    /\ (l3 = [] \/ exists d,
          l3 = [RiskSignal.mk "STRUCTURAL_ANOMALY" "MEDIUM" d "REVIEW_RECOMMENDED"])
    /\ (l4 = [] \/ exists d,
          l4 = [RiskSignal.mk "LOGIC_FAILURE" "CRITICAL" d "MANUAL_REVIEW"])
    /\ (l5 = [] \/ exists d,
          l5 = [RiskSignal.mk "UNKNOWN_TEMPLATE" "MEDIUM" d "REVIEW_RECOMMENDED"]).
Proof.
  intro Hne. unfold RiskSignalDetector.detect_signals.
  destruct (OCRResult.rows result) as [|r0 rs] eqn:E; [contradiction|].
  cbn [is_empty]. cbv zeta.
  set (t := ValidationConfig.trigger_rules config).
  set (s0 := @nil RiskSignal.t).
  match goal with
  | |- context [if dict_get t "low_confidence" true then ?a else ?b] =>
      set (s1 := if dict_get t "low_confidence" true then a else b)
  end.
  assert (exists l1, s1 = s0 ++ l1
                     /\ (l1 = [] \/ exists d,
                           l1 = [RiskSignal.mk "LOW_CONFIDENCE" "HIGH" d
                                   "REVIEW_RECOMMENDED"])) as [l1 [E1 H1]].
  { unfold s1. destruct (dict_get t "low_confidence" true);
      [destruct (negb (is_empty _))|];
      try (exists []; split; [symmetry; apply app_nil_r|left; reflexivity]).
    eexists. split; [reflexivity|]. right. eexists. reflexivity. }
  clearbody s1.
  match goal with
  | |- context [if dict_get t "low_coverage" true then ?a else ?b] =>
      set (s2 := if dict_get t "low_coverage" true then a else b)
  end.
  assert (exists l2, s2 = s1 ++ l2
                     /\ (l2 = [] \/ exists d sev,
                           l2 = [RiskSignal.mk "LOW_FIELD_COVERAGE" sev d
                                   "REVIEW_RECOMMENDED"]
                           /\ (sev = "HIGH"%string \/ sev = "MEDIUM"%string)))
    as [l2 [E2 H2]].
  { unfold s2. destruct (dict_get t "low_coverage" true);
      [destruct (RiskSignalDetector.check_field_coverage config result) as [d|] eqn:Ec|];
      try (exists []; split; [symmetry; apply app_nil_r|left; reflexivity]).
    destruct (check_field_coverage_details config result d Ec) as [Hs Ha].
    eexists. split; [reflexivity|]. right. exists d.
    rewrite Ha. destruct Hs as [-> | ->]; eexists; split; [reflexivity|auto|reflexivity|auto]. }
  clearbody s2.
  match goal with
  | |- context [if dict_get t "structural_anomaly" true then ?a else ?b] =>
      set (s3 := if dict_get t "structural_anomaly" true then a else b)
  end.
  assert (exists l3, s3 = s2 ++ l3
                     /\ (l3 = [] \/ exists d,
                           l3 = [RiskSignal.mk "STRUCTURAL_ANOMALY" "MEDIUM" d
                                   "REVIEW_RECOMMENDED"])) as [l3 [E3 H3]].
  { unfold s3. destruct (dict_get t "structural_anomaly" true);
      [destruct (negb (is_empty _))|];
      try (exists []; split; [symmetry; apply app_nil_r|left; reflexivity]).
    eexists. split; [reflexivity|]. right. eexists. reflexivity. }
  clearbody s3.
  match goal with
  | |- context [if dict_get t "logic_failure" true then ?a else ?b] =>
      set (s4 := if dict_get t "logic_failure" true then a else b)
  end.
  assert (exists l4, s4 = s3 ++ l4
                     /\ (l4 = [] \/ exists d,
                           l4 = [RiskSignal.mk "LOGIC_FAILURE" "CRITICAL" d
                                   "MANUAL_REVIEW"])) as [l4 [E4 H4]].
  { unfold s4. destruct (dict_get t "logic_failure" true);
      [destruct (negb (is_empty _))|];
      try (exists []; split; [symmetry; apply app_nil_r|left; reflexivity]).
    eexists. split; [reflexivity|]. right. eexists. reflexivity. }
  clearbody s4.
  match goal with |- exists _ _ _ _ _, ?s5 = _ /\ _ =>
    assert (exists l5, s5 = s4 ++ l5
                       /\ (l5 = [] \/ exists d,
                             l5 = [RiskSignal.mk "UNKNOWN_TEMPLATE" "MEDIUM" d
                                     "REVIEW_RECOMMENDED"])) as [l5 [E5 H5]]
  end.
  { destruct (dict_get t "unknown_template" true);
      [destruct (Qltb _ _)|];
      try (exists []; split; [symmetry; apply app_nil_r|left; reflexivity]).
    eexists. split; [reflexivity|]. right. eexists. reflexivity. }
  exists l1, l2, l3, l4, l5.
  split; [|auto].
  rewrite E5, E4, E3, E2, E1. unfold s0. cbn [app].
  rewrite <- !app_assoc. reflexivity.
Qed.

(** X10. Every signal the detector raises has one of seven combinations of
    type, severity and action; no type is raised twice, so there are at most
    five signals; a table without rows gets the single NO_ROWS signal,
    whatever the trigger rules, and a table with rows never gets it.  In the
    summary the LOW count is 0 and the CRITICAL, HIGH and MEDIUM counts add
    up to the total. *)
Theorem detect_signals_kinds (config : ValidationConfig.t) (result : OCRResult.t) :
  let signals := RiskSignalDetector.detect_signals config result in
  let summary := RiskSignals.to_dict signals in
  (forall s, In s signals -> In (signal_kind s) signal_kinds)
  /\ NoDup (map RiskSignal.signal_type signals)
  /\ Zlen signals <= 5
  /\ (OCRResult.rows result = [] ->
      map signal_kind signals = [("NO_ROWS", "CRITICAL", "MANUAL_REVIEW")]%string)
  /\ (OCRResult.rows result <> [] ->
      ~ In "NO_ROWS"%string (map RiskSignal.signal_type signals))
  /\ RiskSummary.low_count summary = 0
  /\ RiskSummary.critical_count summary + RiskSummary.high_count summary
     + RiskSummary.medium_count summary
     = RiskSummary.total_signals summary.
Proof.
  intros signals summary.
  destruct (OCRResult.rows result) as [|r0 rs] eqn:E.
  - assert (signals = [RiskSignal.mk "NO_ROWS" "CRITICAL"
                         (Details.mk (Some "CRITICAL"%string)
                            (Some "MANUAL_REVIEW"%string) NoPayload)
                         "MANUAL_REVIEW"]) as Hs
      by (unfold signals, RiskSignalDetector.detect_signals; rewrite E; reflexivity).
    unfold summary. rewrite Hs.
    split; [intros s [<-|[]]; cbn; auto|].
    split; [repeat constructor; cbn; tauto|].
    split; [cbn; lia|].
    split; [reflexivity|].
    split; [intro H; contradiction|].
    split; reflexivity.
  - assert (OCRResult.rows result <> []) as Hne by (rewrite E; discriminate).
    destruct (detect_signals_shape config result Hne)
      as [l1 [l2 [l3 [l4 [l5 [Hs [H1 [H2 [H3 [H4 H5]]]]]]]]]].
    unfold summary. fold signals in Hs. rewrite Hs. clear Hs.
    destruct H1 as [-> | [d1 ->]];
      destruct H2 as [-> | [d2 [sev [-> [-> | ->]]]]];
      destruct H3 as [-> | [d3 ->]];
      destruct H4 as [-> | [d4 ->]];
      destruct H5 as [-> | [d5 ->]];
      cbn [app];
      (split; [intros s Hin; cbn in Hin;
               repeat (destruct Hin as [<-|Hin]; [cbn; auto 10|]); destruct Hin|]);
      (split; [repeat constructor; cbn; intuition discriminate|]);
      (split; [cbn; lia|]);
      (split; [discriminate|]);
      (split; [intros _; cbn; intuition discriminate|]);
      split; reflexivity.
Qed.

Lemma quick_logic_check_negative (result : OCRResult.t) (row : TransactionRow.t) :
  In row (OCRResult.rows result) ->
  (exists d, TransactionRow.deposit row = Some d /\ (dec_value d < 0)%Q)
  \/ (exists w, TransactionRow.withdrawal row = Some w /\ (dec_value w < 0)%Q) ->
  RiskSignalDetector.quick_logic_check result <> [].
Proof.
  intros Hin Hneg E. unfold RiskSignalDetector.quick_logic_check in E.
  apply app_eq_nil in E. destruct E as [_ E].
  apply app_eq_nil in E. destruct E as [_ E].
  destruct (in_enumerate_of_in _ _ Hin) as [i Hi].
  pose proof (proj1 (flat_map_eq_nil _ _) E (i, row) Hi) as Hrow.
  cbn [fst snd] in Hrow. unfold RiskSignalDetector.negative_amounts_row in Hrow.
  apply app_eq_nil in Hrow. destruct Hrow as [Hd Hw].
  assert (forall a, (dec_value a < 0)%Q -> dec_ltb a (dec_of_Z 0) = true) as Hlt
    by (intros a Ha; apply dec_ltb_value; rewrite dec_of_Z_value; exact Ha).
  destruct Hneg as [[d [Ed Hd']]|[w [Ew Hw']]].
  - rewrite Ed, (Hlt d Hd') in Hd. discriminate.
  - rewrite Ew, (Hlt w Hw') in Hw. discriminate.
Qed.

(** X11. When the logic_failure trigger rule is enabled (it is by default)
    and some row has a negative deposit or a negative withdrawal, the
    LOGIC_FAILURE signal fires with severity CRITICAL and action
    MANUAL_REVIEW. *)
Theorem logic_failure_on_negative_amount
    (config : ValidationConfig.t) (result : OCRResult.t) (row : TransactionRow.t) :
  dict_get (ValidationConfig.trigger_rules config) "logic_failure" true = true ->
  In row (OCRResult.rows result) ->
  (exists d, TransactionRow.deposit row = Some d /\ (dec_value d < 0)%Q)
  \/ (exists w, TransactionRow.withdrawal row = Some w /\ (dec_value w < 0)%Q) ->
  has_signal "LOGIC_FAILURE" "CRITICAL" "MANUAL_REVIEW"
    (RiskSignalDetector.detect_signals config result).
Proof.
  intros Htrigger Hin Hneg.
  pose proof (quick_logic_check_negative result row Hin Hneg) as Hne.
  exists (RiskSignal.mk "LOGIC_FAILURE" "CRITICAL"
            (Details.mk (Some "CRITICAL"%string) (Some "MANUAL_REVIEW"%string)
               (Errors (RiskSignalDetector.quick_logic_check result)))
            "MANUAL_REVIEW").
  split; [|repeat split].
  unfold RiskSignalDetector.detect_signals.
  destruct (OCRResult.rows result) as [|r0 rs] eqn:Erows; [destruct Hin|].
  cbn [is_empty]. cbv zeta. rewrite Htrigger.
  destruct (RiskSignalDetector.quick_logic_check result) as [|e l] eqn:E;
    [contradiction|].
  cbn [is_empty negb].
  match goal with
  | |- context [RiskSignals.add ?s "LOGIC_FAILURE" ?d] =>
      set (s4 := RiskSignals.add s "LOGIC_FAILURE" d);
      assert (In (RiskSignal.mk "LOGIC_FAILURE" "CRITICAL"
                    (Details.mk (Some "CRITICAL"%string)
                       (Some "MANUAL_REVIEW"%string) (Errors (e :: l)))
                    "MANUAL_REVIEW") s4) as Hs4
        by (unfold s4, RiskSignals.add; apply in_or_app; right; left; reflexivity)
  end.
  clearbody s4.
  repeat match goal with
         | |- In _ (if ?b then _ else _) => destruct b
         | |- In _ (RiskSignals.add _ _ _) => apply add_keeps
         end;
    exact Hs4.
Qed.

Lemma logic_failure_witness :
  has_signal "LOGIC_FAILURE" "CRITICAL" "MANUAL_REVIEW"
    (RiskSignalDetector.detect_signals ValidationConfig.default
       (statement_of [negative_withdrawal_row])).
Proof.
  apply (logic_failure_on_negative_amount ValidationConfig.default
           (statement_of [negative_withdrawal_row]) negative_withdrawal_row).
  - reflexivity.
  - left; reflexivity.
  - right. exists (mkDecimal (-500) (-2)). split; reflexivity.
Defined.

Lemma count_priority_app (p : string) (l1 l2 : list LowConfidenceField.t) :
  RiskSignalDetector.count_priority p (l1 ++ l2)
  = RiskSignalDetector.count_priority p l1 + RiskSignalDetector.count_priority p l2.
Proof.
  unfold RiskSignalDetector.count_priority. rewrite filter_app. apply Zlen_app.
Qed.

Lemma count_priority_flat_map {A : Type} (p : string)
    (f : A -> list LowConfidenceField.t) (l : list A) :
  RiskSignalDetector.count_priority p (flat_map f l)
  = Zsum (map (fun x => RiskSignalDetector.count_priority p (f x)) l).
Proof.
  induction l as [|a l IH]; [reflexivity|].
  cbn [flat_map map Zsum fold_right]. rewrite count_priority_app, IH. reflexivity.
Qed.

(** The P0 and P1 entries one row contributes. *)
Lemma count_priority_row (thr : Q) (i : nat) (row : TransactionRow.t) :
  RiskSignalDetector.count_priority "P0"
    (RiskSignalDetector.low_confidence_row thr i row)
  = Z_of_bool (Qltb (TransactionRow.amount_confidence row) thr)
    + Z_of_bool (Qltb (TransactionRow.balance_confidence row) thr)
  /\ RiskSignalDetector.count_priority "P1"
       (RiskSignalDetector.low_confidence_row thr i row)
     = Z_of_bool (Qltb (TransactionRow.date_confidence row) thr).
Proof.
  unfold RiskSignalDetector.low_confidence_row.
  destruct (Qltb (TransactionRow.amount_confidence row) thr),
           (Qltb (TransactionRow.balance_confidence row) thr),
           (Qltb (TransactionRow.date_confidence row) thr);
    split; reflexivity.
Qed.

Lemma Zsum_enumerate_snd {A : Type} (g : A -> Z) (l : list A) :
  Zsum (map (fun ir : nat * A => g (snd ir)) (enumerate l)) = Zsum (map g l).
Proof.
  rewrite <- (map_map snd g). unfold enumerate.
  rewrite enumerate_from_snd. reflexivity.
Qed.

Lemma Zsum_pos_exists {A : Type} (g : A -> Z) (l : list A) :
  (forall x, 0 <= g x) ->
  (0 < Zsum (map g l) <-> exists x, In x l /\ 0 < g x).
Proof.
  intro Hg. induction l as [|a l IH]; cbn [map Zsum fold_right].
  - split; [lia|intros [x [[] _]]].
  - unfold Zsum in IH. split.
    + intro H. destruct (Z.ltb_spec 0 (g a)).
      * exists a. split; [left; reflexivity|assumption].
      * assert (0 < fold_right Z.add 0 (map g l)) as H' by lia.
        apply IH in H'. destruct H' as [x [Hx Hgx]].
        exists x. split; [right; exact Hx|exact Hgx].
    + intros [x [[<-|Hx] Hgx]].
      * assert (0 <= fold_right Z.add 0 (map g l)); [|lia].
        clear IH. induction l as [|b l IH']; cbn; [lia|].
        pose proof (Hg b). lia.
      * assert (0 < fold_right Z.add 0 (map g l))
          by (apply IH; exists x; split; assumption).
        pose proof (Hg a). lia.
Qed.

(** X12. [check_low_confidence] reports low-confidence fields exactly when
    some row has its amount or balance confidence below the threshold, or
    more than a fifth of the rows have their date confidence below it;
    otherwise it returns the empty list, whatever low date confidences
    there are. *)
Theorem check_low_confidence_trigger
    (config : ValidationConfig.t) (result : OCRResult.t) :
  let thr := ValidationConfig.confidence_threshold config in
  let rows := OCRResult.rows result in
  let low_dates :=
    filter (fun row => Qltb (TransactionRow.date_confidence row) thr) rows in
  RiskSignalDetector.check_low_confidence config result <> []
  <-> (exists row, In row rows
                   /\ (TransactionRow.amount_confidence row < thr
                       \/ TransactionRow.balance_confidence row < thr)%Q)
      \/ Zlen rows < 5 * Zlen low_dates.
Proof.
  intros thr rows low_dates.
  unfold RiskSignalDetector.check_low_confidence. fold rows thr.
  set (fields := flat_map _ (enumerate rows)).
  assert (RiskSignalDetector.count_priority "P1" fields = Zlen low_dates) as Hp1.
  { unfold fields. rewrite count_priority_flat_map.
    rewrite (map_ext _ (fun ir : nat * TransactionRow.t =>
                          Z_of_bool (Qltb (TransactionRow.date_confidence (snd ir))
                                       thr)))
      by (intros [i r]; apply count_priority_row).
    rewrite (Zsum_enumerate_snd
               (fun r => Z_of_bool (Qltb (TransactionRow.date_confidence r) thr))).
    apply Zsum_filter_count. }
  assert (0 < RiskSignalDetector.count_priority "P0" fields
          <-> exists row, In row rows
                          /\ (TransactionRow.amount_confidence row < thr
                              \/ TransactionRow.balance_confidence row < thr)%Q)
    as Hp0.
  { unfold fields. rewrite count_priority_flat_map.
    rewrite (map_ext _ (fun ir : nat * TransactionRow.t =>
                          Z_of_bool (Qltb (TransactionRow.amount_confidence (snd ir))
                                       thr)
                          + Z_of_bool (Qltb (TransactionRow.balance_confidence
                                               (snd ir)) thr)))
      by (intros [i r]; apply count_priority_row).
    rewrite (Zsum_enumerate_snd
               (fun r => Z_of_bool (Qltb (TransactionRow.amount_confidence r) thr)
                         + Z_of_bool (Qltb (TransactionRow.balance_confidence r) thr))).
    rewrite Zsum_pos_exists
      by (intro r; destruct (Qltb _ thr), (Qltb _ thr); cbn [Z_of_bool]; lia).
    split; intros [row [Hin H]]; exists row; (split; [exact Hin|]).
    - destruct (Qltb_cases (TransactionRow.amount_confidence row) thr)
        as [[Ea Ha]|[Ea Ha]]; [left; exact Ha|].
      destruct (Qltb_cases (TransactionRow.balance_confidence row) thr)
        as [[Eb Hb]|[Eb Hb]]; [right; exact Hb|].
      rewrite Ea, Eb in H. cbn [Z_of_bool] in H. lia.
    - destruct H as [H|H]; apply Qltb_lt in H; rewrite H;
        repeat match goal with
               | |- context [Qltb ?a thr] => destruct (Qltb a thr)
               end; cbn [Z_of_bool]; lia. }
  assert (fields = [] -> RiskSignalDetector.count_priority "P0" fields = 0
                         /\ Zlen low_dates = 0) as Hnil
    by (intro E; rewrite <- Hp1, E; split; reflexivity).
  assert (Qltb (2 # 10)
            (if is_empty rows then 0
             else inject_Z (RiskSignalDetector.count_priority "P1" fields)
                  / inject_Z (Zlen rows)) = true
          <-> Zlen rows < 5 * Zlen low_dates) as Hrate.
  { rewrite Hp1. pose proof (Zlen_filter_le
                               (fun row => Qltb (TransactionRow.date_confidence row) thr)
                               rows) as Hle.
    fold low_dates in Hle.
    destruct rows as [|r0 rs] eqn:Er; cbn [is_empty].
    - split; [discriminate|]. cbn in Hle |- *. lia.
    - rewrite Qltb_lt.
      assert (0 < Zlen (r0 :: rs))
        by (rewrite Zlen_cons; pose proof (Zlen_nonneg rs); lia).
      assert (0 < inject_Z (Zlen (r0 :: rs)))%Q as Hn
        by (change (inject_Z 0 < inject_Z (Zlen (r0 :: rs)))%Q;
            rewrite <- Zlt_Qlt; assumption).
      split; intro Hr.
      + apply (Qmult_lt_r _ _ _ Hn) in Hr.
        rewrite (Qmult_comm (_ / _)), Qmult_div_r in Hr
          by (intro E0; rewrite E0 in Hn; discriminate Hn).
        unfold Qlt, Qmult, inject_Z in Hr. cbn [Qnum Qden] in Hr. lia.
      + apply Qlt_shift_div_l; [exact Hn|].
        unfold Qlt, Qmult, inject_Z. cbn [Qnum Qden]. lia. }
  split.
  - intro Hne.
    destruct (0 <? RiskSignalDetector.count_priority "P0" fields) eqn:E0.
    + left. apply Hp0. apply Z.ltb_lt. exact E0.
    + cbn [orb] in Hne. destruct (Qltb (2 # 10) _) eqn:Er; [|contradiction].
      right. apply Hrate. reflexivity.
  - intros [H|H].
    + apply Hp0 in H. apply Z.ltb_lt in H as H'. rewrite H'. cbn [orb].
      intro E. apply Hnil in E. lia.
    + apply Hrate in H as H'. rewrite H', orb_true_r.
      intro E. apply Hnil in E.
      pose proof (Zlen_nonneg rows). lia.
Qed.

(** * Further properties of the pattern matcher *)

Section MatcherFacts.

Variable re_search : string -> string -> bool.
Variable str_decimal : Decimal -> string.
Variable str_date : date -> string.

Let _match_pattern :=
  ErrorPatternDatabase._match_pattern re_search str_decimal str_date.
Let match_ := ErrorPatternDatabase.match_ re_search str_decimal str_date.

Lemma match_pattern_origin (pattern : ErrorPattern.t) (row : TransactionRow.t)
    (idx : nat) (m : PatternMatch.t) :
  In m (_match_pattern pattern row idx) ->
  exists v,
    ErrorPatternDatabase._get_field_value row (ErrorPattern.field pattern) = Some v
    /\ m = PatternMatch.mk (ErrorPattern.name pattern) idx
             (ErrorPattern.field pattern)
             (ErrorPatternDatabase.str str_decimal str_date v)
             (ErrorPattern.severity pattern) (ErrorPattern.fix_suggestion pattern).
Proof.
  unfold _match_pattern, ErrorPatternDatabase._match_pattern.
  destruct (ErrorPatternDatabase._get_field_value row (ErrorPattern.field pattern))
    as [v|]; [|intros []].
  cbv zeta.
  match goal with |- In _ (if ?b then _ else _) -> _ => destruct b end;
    [|intros []].
  intros [<-|[]]. exists v. split; reflexivity.
Qed.

Lemma match_pattern_Zlen (pattern : ErrorPattern.t) (row : TransactionRow.t)
    (idx : nat) :
  Zlen (_match_pattern pattern row idx) <= 1.
Proof.
  unfold _match_pattern, ErrorPatternDatabase._match_pattern.
  destruct (ErrorPatternDatabase._get_field_value row (ErrorPattern.field pattern));
    [|cbn; lia].
  cbv zeta.
  match goal with |- Zlen (if ?b then _ else _) <= _ => destruct b end; cbn; lia.
Qed.

End MatcherFacts.

(** X13. Every match reported for a table names a pattern of the catalog,
    with that pattern's field, severity and fix suggestion, and the index of
    a row of the table whose field the pattern targets is present; a row is
    matched at most once per pattern, so there are at most rows times
    patterns matches, and none for an empty table or an empty catalog. *)
Theorem matches_come_from_catalog_and_rows
    (re_search : string -> string -> bool) (str_decimal : Decimal -> string)
    (str_date : date -> string) (patterns : list ErrorPattern.t)
    (result : OCRResult.t) :
  let matches :=
    ErrorPatternDatabase.match_ re_search str_decimal str_date patterns result in
  (forall m, In m matches ->
     exists pattern row v,
       In pattern patterns
       /\ nth_error (OCRResult.rows result) (PatternMatch.row m) = Some row
       /\ ErrorPatternDatabase._get_field_value row (ErrorPattern.field pattern)
          = Some v
       /\ m = PatternMatch.mk (ErrorPattern.name pattern) (PatternMatch.row m)
                (ErrorPattern.field pattern)
                (ErrorPatternDatabase.str str_decimal str_date v)
                (ErrorPattern.severity pattern)
                (ErrorPattern.fix_suggestion pattern))
  /\ Zlen matches <= Zlen (OCRResult.rows result) * Zlen patterns.
Proof.
  intro matches. split.
  - intros m Hm. unfold matches, ErrorPatternDatabase.match_ in Hm.
    apply in_flat_map in Hm. destruct Hm as [[i row] [Hi Hm]].
    apply in_flat_map in Hm. destruct Hm as [pattern [Hp Hm]].
    cbn [fst snd] in Hm.
    apply match_pattern_origin in Hm. destruct Hm as [v [Hv Em]].
    apply enumerate_nth_error in Hi.
    exists pattern, row, v. subst m. cbn [PatternMatch.row].
    repeat split; assumption.
  - unfold matches, ErrorPatternDatabase.match_.
    etransitivity.
    + apply (flat_map_Zlen_le _ (fun _ => Zlen patterns)).
      intros [i row] _. cbn [fst snd].
      etransitivity.
      * apply (flat_map_Zlen_le _ (fun _ => 1)).
        intros pattern _. apply match_pattern_Zlen.
      * rewrite Zsum_const_one. lia.
    + assert (forall (l : list (nat * TransactionRow.t)),
                 Zsum (map (fun _ => Zlen patterns) l) = Zlen l * Zlen patterns) as Hc.
      { induction l as [|a l IH]; [reflexivity|].
        cbn [map Zsum fold_right]. unfold Zsum in IH. rewrite IH, Zlen_cons. lia. }
      rewrite Hc, enumerate_Zlen. lia.
Qed.

Lemma matches_come_from_catalog_witness :
  exists pattern row v,
    In pattern ErrorPatternDatabase._get_default_patterns
    /\ nth_error [negative_withdrawal_row] 0 = Some row
    /\ ErrorPatternDatabase._get_field_value row (ErrorPattern.field pattern)
       = Some v
    /\ ErrorPattern.name pattern = "negative_deposit"%string.
Proof.
  destruct (proj1 (matches_come_from_catalog_and_rows (fun _ _ => false)
                     (fun _ => "-5.00"%string) (fun _ => EmptyString)
                     ErrorPatternDatabase._get_default_patterns
                     (statement_of [negative_withdrawal_row]))
                  (PatternMatch.mk "negative_deposit" 0 "amount" "-5.00" "CRITICAL"
                     "Deposits should be positive"))
    as [pattern [row [v [Hp [Hrow [Hv Hm]]]]]].
  - vm_compute. auto 10.
  - exists pattern, row, v. repeat split; try assumption.
    injection Hm as Hn _ _ _ _. symmetry. exact Hn.
Defined.

(** X14. A pattern never matches when its target field is not one of the
    six known field names, when its type is not one of regex, format_check
    and value_check, when it is a format_check whose format is not one of
    the six known formats, or when it is a value_check other than
    [negative]; and a [negative] value_check never matches a text or date
    field. *)
Theorem unknown_pattern_keys_never_match
    (re_search : string -> string -> bool) (str_decimal : Decimal -> string)
    (str_date : date -> string) (pattern : ErrorPattern.t)
    (row : TransactionRow.t) (idx : nat) :
  let no_match :=
    ErrorPatternDatabase._match_pattern re_search str_decimal str_date
      pattern row idx = [] in
  (~ In (ErrorPattern.field pattern)
        ["amount"; "amount_raw"; "date"; "date_raw"; "description"; "balance"]%string
   -> no_match)
  /\ (~ In (ErrorPattern.pattern_type pattern)
           ["regex"; "format_check"; "value_check"]%string -> no_match)
  /\ (ErrorPattern.pattern_type pattern = "format_check"%string ->
      ~ In (ErrorPattern.pattern_value pattern)
           ["has_parentheses"; "missing_dollar_sign"; "has_comma_as_decimal";
            "ambiguous_date"; "has_letter_o"; "has_letter_l"]%string ->
      no_match)
  /\ (ErrorPattern.pattern_type pattern = "value_check"%string ->
      ErrorPattern.pattern_value pattern <> "negative"%string -> no_match)
  /\ (ErrorPattern.pattern_type pattern = "value_check"%string ->
      In (ErrorPattern.field pattern)
         ["amount_raw"; "date"; "date_raw"; "description"]%string -> no_match).
Proof.
  intro no_match. unfold no_match, ErrorPatternDatabase._match_pattern.
  assert (forall a l, ~ In a l -> forall b, In b l -> String.eqb a b = false) as Hneq.
  { intros a l Hn b Hb. apply String.eqb_neq. intros ->. contradiction. }
  split; [|split; [|split; [|split]]].
  - intro Hf. unfold ErrorPatternDatabase._get_field_value.
    rewrite !(Hneq _ _ Hf) by (cbn; auto 10). reflexivity.
  - intro Ht.
    destruct (ErrorPatternDatabase._get_field_value row _); [|reflexivity].
    rewrite !(Hneq _ _ Ht) by (cbn; auto 10). reflexivity.
  - intros Ht Hv.
    destruct (ErrorPatternDatabase._get_field_value row _); [|reflexivity].
    rewrite Ht. cbn [String.eqb Ascii.eqb Bool.eqb andb].
    unfold ErrorPatternDatabase._check_format.
    rewrite !(Hneq _ _ Hv) by (cbn; auto 10). reflexivity.
  - intros Ht Hv.
    destruct (ErrorPatternDatabase._get_field_value row _); [|reflexivity].
    rewrite Ht. cbn [String.eqb Ascii.eqb Bool.eqb andb].
    unfold ErrorPatternDatabase._check_value.
    apply String.eqb_neq in Hv. rewrite Hv. reflexivity.
  - intros Ht Hf. unfold ErrorPatternDatabase._get_field_value.
    rewrite Ht.
    cbn in Hf. destruct Hf as [<-|[<-|[<-|[<-|[]]]]];
      cbn [String.eqb Ascii.eqb Bool.eqb andb];
      try destruct (TransactionRow.transaction_date row); cbn [option_map];
      unfold ErrorPatternDatabase._check_value;
      destruct (String.eqb (ErrorPattern.pattern_value pattern) "negative");
      reflexivity.
Qed.

Lemma unknown_pattern_keys_witness :
  ErrorPatternDatabase._match_pattern (fun _ _ => true) (fun _ => EmptyString)
    (fun _ => EmptyString)
    (ErrorPattern.mk "cents_missing" "Amount without cents" "LOW" "amount_text"
       "regex" "^[0-9]+$" "Check the cents")
    (raw_amount_row "1200") 0
  = [].
Proof.
  apply (proj1 (unknown_pattern_keys_never_match (fun _ _ => true)
                  (fun _ => EmptyString) (fun _ => EmptyString)
                  (ErrorPattern.mk "cents_missing" "Amount without cents" "LOW"
                     "amount_text" "regex" "^[0-9]+$" "Check the cents")
                  (raw_amount_row "1200") 0)).
  cbn. intuition discriminate.
Defined.

(** * Properties of the feedback loop *)

(** X15. [process_correction] never changes the pattern catalog, whatever
    the correction.  The category of a correction is one of four, a bracket
    in the misread text taking precedence over everything else; and with the
    default catalog no category is contained in a pattern name, so no
    correction is ever considered covered by an existing pattern. *)
Theorem feedback_never_changes_catalog
    (patterns : list ErrorPattern.t) (document_id : string) (row_idx : nat)
    (field incorrect correct description : string) :
  FeedbackLoop.process_correction patterns document_id row_idx field incorrect
    correct description = patterns
  /\ In (FeedbackLoop._categorize_error incorrect correct)
        ["bracket_issue"; "o_zero_confusion"; "l_one_confusion"; "other"]%string
  /\ (char_in "(" incorrect = true \/ char_in ")" incorrect = true ->
      FeedbackLoop._categorize_error incorrect correct = "bracket_issue"%string)
  /\ FeedbackLoop._has_similar_pattern ErrorPatternDatabase._get_default_patterns
       (FeedbackLoop._analyze_error incorrect correct field) = false.
Proof.
  assert (In (FeedbackLoop._categorize_error incorrect correct)
             ["bracket_issue"; "o_zero_confusion"; "l_one_confusion"; "other"]%string)
    as Hcat.
  { unfold FeedbackLoop._categorize_error.
    destruct (char_in "(" incorrect || char_in ")" incorrect); [cbn; auto|].
    destruct (String.eqb (replace_char "O" "0" incorrect) correct); [cbn; auto|].
    destruct (String.eqb (replace_char "l" "1" incorrect) correct); cbn; auto. }
  split; [|split; [exact Hcat|split]].
  - unfold FeedbackLoop.process_correction.
    destruct (negb _); reflexivity.
  - intro H. unfold FeedbackLoop._categorize_error.
    destruct H as [-> | ->]; rewrite ?orb_true_r; reflexivity.
  - unfold FeedbackLoop._has_similar_pattern, FeedbackLoop._analyze_error.
    cbn [ErrorType.error_category].
    cbn in Hcat. destruct Hcat as [<-|[<-|[<-|[<-|[]]]]]; vm_compute; reflexivity.
Qed.

(** * Properties of the reports *)

(** X16. The recommendations of a report are never empty and at most three.
    "Data passed all validations - safe to use" is recommended, alone,
    exactly when the status is not NEEDS_REVIEW, no violation is CRITICAL and
    the confidence label is not Low; HIGH violations or a
    REVIEW_RECOMMENDED status do not prevent it. *)
Theorem safe_to_use_recommendation (report : ValidationReport.t) :
  let recommendations := ReportGenerator._generate_recommendations report in
  recommendations <> []
  /\ Zlen recommendations <= 3
  /\ (In "Data passed all validations - safe to use"%string recommendations
      <-> recommendations = ["Data passed all validations - safe to use"%string])
  /\ (recommendations = ["Data passed all validations - safe to use"%string]
      <-> ValidationReport.validation_status report <> "NEEDS_REVIEW"%string
          /\ ~ has_severity "CRITICAL" (ValidationReport.rule_violations report)
          /\ ValidationReport.confidence_label report <> "Low"%string).
Proof.
  intro recommendations.
  assert (is_empty (filter (fun v => String.eqb (RuleViolation.severity v) "CRITICAL")
                           (ValidationReport.rule_violations report)) = true
          <-> ~ has_severity "CRITICAL" (ValidationReport.rule_violations report))
    as Hcrit.
  { rewrite <- count_severity_zero. unfold ValidationReport.count_severity.
    destruct (filter _ _) as [|v l]; [split; reflexivity|].
    cbn [is_empty]. rewrite Zlen_cons. pose proof (Zlen_nonneg l) as Hl.
    split; [discriminate|]. intro Hz. apply Z.ltb_ge in Hz. lia. }
  unfold recommendations, ReportGenerator._generate_recommendations.
  cbv zeta.
  set (msg := ("Found " ++ _ ++ " critical rule violations - verify data accuracy")%string).
  assert (msg <> "Data passed all validations - safe to use"%string) as Hmsg
    by (unfold msg; cbn [String.append]; discriminate).
  clearbody msg.
  destruct (String.eqb_spec (ValidationReport.validation_status report)
              "NEEDS_REVIEW") as [Es|Es];
    destruct (is_empty (filter _ (ValidationReport.rule_violations report))) eqn:Ec;
    destruct (String.eqb_spec (ValidationReport.confidence_label report) "Low")
      as [El|El];
    cbn [negb app is_empty];
    (split; [discriminate|]);
    (split; [cbn; lia|]);
    split.
  all: try (split;
            [intro Hin; cbn [In] in Hin;
             repeat match type of Hin with
                    | _ \/ _ => destruct Hin as [Hin|Hin]
                    end;
             first [reflexivity | discriminate Hin
                   | exfalso; exact (Hmsg Hin) | contradiction]
            |intro Heq;
             first [discriminate Heq | left; reflexivity
                   | injection Heq as Heq; exfalso; exact (Hmsg Heq)]]).
  all: try (split;
            [intro Heq;
             first [discriminate Heq
                   | injection Heq as Heq; exfalso; exact (Hmsg Heq)
                   | split; [assumption|split; [apply Hcrit; reflexivity|assumption]]]
            |intros [H1 [H2 H3]];
             first [contradiction
                   | apply Hcrit in H2; discriminate H2
                   | reflexivity]]).
Qed.

(** ** Sorting by a key *)

Section SortFacts.

Context {A : Type}.
Variable key : A -> Z.

Lemma insert_by_perm (x : A) (l : list A) :
  Permutation (x :: l) (insert_by key x l).
Proof.
  induction l as [|y l IH]; cbn [insert_by]; [apply Permutation_refl|].
  destruct (key x <=? key y); [apply Permutation_refl|].
  eapply Permutation_trans; [apply perm_swap|].
  apply perm_skip. exact IH.
Qed.

Lemma sort_by_perm (l : list A) : Permutation l (sort_by key l).
Proof.
  induction l as [|x l IH]; [apply Permutation_refl|].
  unfold sort_by in *. cbn [fold_right].
  eapply Permutation_trans; [|apply insert_by_perm].
  apply perm_skip. exact IH.
Qed.

Lemma insert_by_sorted (x : A) (l : list A) :
  StronglySorted (fun a b => key a <= key b) l ->
  StronglySorted (fun a b => key a <= key b) (insert_by key x l).
Proof.
  induction l as [|y l IH]; intro Hs; cbn [insert_by].
  - constructor; [constructor|constructor].
  - inversion Hs as [|? ? Hs' Hall]; subst.
    destruct (Z.leb_spec (key x) (key y)).
    + constructor; [exact Hs|].
      constructor; [assumption|].
      eapply Forall_impl; [|exact Hall]. cbv beta. intros; lia.
    + constructor; [apply IH; exact Hs'|].
      eapply Permutation_Forall; [apply insert_by_perm|].
      constructor; [lia|exact Hall].
Qed.

Lemma sort_by_sorted (l : list A) :
  StronglySorted (fun a b => key a <= key b) (sort_by key l).
Proof.
  induction l as [|x l IH]; [constructor|].
  unfold sort_by in *. cbn [fold_right]. apply insert_by_sorted. exact IH.
Qed.

(** The sort is stable: elements with the same key keep their order. *)
Lemma insert_by_stable (k : Z) (x : A) (l : list A) :
  filter (fun a => key a =? k) (insert_by key x l)
  = filter (fun a => key a =? k) (x :: l).
Proof.
  induction l as [|y l IH]; cbn [insert_by]; [reflexivity|].
  destruct (Z.leb_spec (key x) (key y)); [reflexivity|].
  cbn [filter] in *. rewrite IH.
  destruct (Z.eqb_spec (key x) k), (Z.eqb_spec (key y) k); try reflexivity. lia.
Qed.

Lemma sort_by_stable (k : Z) (l : list A) :
  filter (fun a => key a =? k) (sort_by key l) = filter (fun a => key a =? k) l.
Proof.
  induction l as [|x l IH]; [reflexivity|].
  unfold sort_by in *. cbn [fold_right]. rewrite insert_by_stable.
  cbn [filter]. rewrite IH. reflexivity.
Qed.

End SortFacts.

(** X17. No review-rows file is written exactly when the report has no
    rule violation and no pattern match.  Otherwise its rows are the review
    items, one per violation and one per pattern match, rearranged by
    severity: CRITICAL first, then HIGH, MEDIUM, LOW and any other, items of
    the same severity keeping their order. *)
Theorem review_rows_sorted_by_severity
    (str_decimal : Decimal -> string) (report : ValidationReport.t) :
  let items := ReportGenerator._collect_review_items str_decimal report in
  let matches :=
    match ValidationReport.pattern_matches report with
    | Some ms => ms
    | None => []
    end in
  Zlen items = Zlen (ValidationReport.rule_violations report) + Zlen matches
  /\ (ReportGenerator.generate_review_rows_csv str_decimal report = None
      <-> ValidationReport.rule_violations report = [] /\ matches = [])
  /\ (forall rows,
        ReportGenerator.generate_review_rows_csv str_decimal report = Some rows ->
        Permutation items rows
        /\ StronglySorted
             (fun a b => ReportGenerator.severity_rank a
                         <= ReportGenerator.severity_rank b) rows
        /\ forall k,
             filter (fun a => ReportGenerator.severity_rank a =? k) rows
             = filter (fun a => ReportGenerator.severity_rank a =? k) items).
Proof.
  intros items matches.
  assert (Zlen items = Zlen (ValidationReport.rule_violations report) + Zlen matches)
    as Hlen.
  { unfold items, matches, ReportGenerator._collect_review_items.
    rewrite Zlen_app. unfold Zlen. rewrite length_map.
    destruct (ValidationReport.pattern_matches report);
      [rewrite length_map|]; reflexivity. }
  split; [exact Hlen|]. split.
  - unfold ReportGenerator.generate_review_rows_csv. fold items.
    pose proof (Zlen_nonneg (ValidationReport.rule_violations report)).
    pose proof (Zlen_nonneg matches).
    destruct items as [|i0 it] eqn:Ei; cbn [is_empty].
    + split; [intros _|reflexivity].
      destruct (ValidationReport.rule_violations report) as [|v vs];
        [|unfold Zlen in *; cbn [List.length] in *; lia].
      destruct matches as [|m ms]; [split; reflexivity|].
      unfold Zlen in *; cbn [List.length] in *; lia.
    + split; [discriminate|]. intros [Hv Hm]. rewrite Hv, Hm in Hlen.
      unfold Zlen in *; cbn [List.length] in *; lia.
  - intros rows Hrows. unfold ReportGenerator.generate_review_rows_csv in Hrows.
    fold items in Hrows. destruct (is_empty items); [discriminate|].
    injection Hrows as <-.
    split; [apply sort_by_perm|]. split; [apply sort_by_sorted|].
    intro k. apply sort_by_stable.
Qed.

Lemma review_rows_witness :
  exists rows,
    ReportGenerator.generate_review_rows_csv (fun _ => EmptyString)
      (ValidationReport.add_violations (ValidationReport.new "d" "APPROVED" None)
         (HardRulesValidator.validate 738002 (deposit_statement (mkDecimal 15003 (-2)))))
    = Some rows
    /\ StronglySorted
         (fun a b => ReportGenerator.severity_rank a
                     <= ReportGenerator.severity_rank b) rows.
Proof.
  eexists. split; [vm_compute; reflexivity|].
  apply (proj2 (proj2 (review_rows_sorted_by_severity (fun _ => EmptyString)
                         (ValidationReport.add_violations
                            (ValidationReport.new "d" "APPROVED" None)
                            (HardRulesValidator.validate 738002
                               (deposit_statement (mkDecimal 15003 (-2)))))))).
  vm_compute. reflexivity.
Defined.

(** The status the pipeline's report ends with, from the violations. *)
Lemma pipeline_status
    (re_search : string -> string -> bool) (str_decimal : Decimal -> string)
    (str_date : date -> string) (config : ValidationConfig.t)
    (patterns : list ErrorPattern.t) (today : date) (result : OCRResult.t) :
  let report :=
    snd (BankStatementPipeline.process re_search str_decimal str_date
           config patterns today result) in
  let violations := HardRulesValidator.validate today result in
  ValidationReport.rule_violations report = violations
  /\ ValidationReport.pattern_matches report
     = Some (ErrorPatternDatabase.match_ re_search str_decimal str_date
               patterns result)
  /\ ValidationReport.warnings report
     = Zlen (ErrorPatternDatabase.match_ re_search str_decimal str_date
               patterns result)
  /\ (has_severity "CRITICAL" violations ->
      ValidationReport.validation_status report = "NEEDS_REVIEW"%string)
  /\ (~ has_severity "CRITICAL" violations ->
      ValidationReport.validation_status report = "REVIEW_RECOMMENDED"%string
      \/ ValidationReport.validation_status report = "APPROVED"%string).
Proof.
  unfold_report. cbn [app].
  split; [reflexivity|]. split; [reflexivity|]. split; [reflexivity|]. split.
  - intro H. apply count_severity_pos in H. rewrite H. reflexivity.
  - intro H. apply count_severity_zero in H. rewrite H.
    match goal with |- context [if ?b then _ else _] => destruct b end; auto.
Qed.

(** X18. In the business summary of a pipeline verdict the number of
    review items is failed_checks + warnings (one item per rule violation
    and per pattern match), the transactions count is the number of rows, at
    most ten items are highlighted, and the status is never the Unknown
    fallback: it is Needs Review / High exactly when the hard rules raised a
    CRITICAL violation.  A second action, pointing to the review-rows file,
    is listed exactly when there is a review item. *)
Theorem business_summary_of_verdict
    (re_search : string -> string -> bool) (str_decimal : Decimal -> string)
    (str_date : date -> string) (config : ValidationConfig.t)
    (patterns : list ErrorPattern.t) (today : date) (result : OCRResult.t) :
  let report :=
    snd (BankStatementPipeline.process re_search str_decimal str_date
           config patterns today result) in
  let summary := ReportGenerator.generate_business_summary str_decimal result report in
  BusinessSummary.review_items summary
  = BusinessSummary.failed_checks summary + BusinessSummary.warnings summary
  /\ BusinessSummary.transactions summary = Zlen (OCRResult.rows result)
  /\ Zlen (BusinessSummary.highlights summary)
     = Z.min 10 (BusinessSummary.review_items summary)
  /\ In (BusinessSummary.status summary)
        [BusinessStatus.mk "Needs Review" "High";
         BusinessStatus.mk "Review Recommended" "Medium";
         BusinessStatus.mk "Approved" "Low"]
  /\ (BusinessSummary.status summary = BusinessStatus.mk "Needs Review" "High"
      <-> has_severity "CRITICAL" (HardRulesValidator.validate today result))
  /\ (Zlen (BusinessSummary.actions summary)
      = if 0 <? BusinessSummary.review_items summary then 2 else 1).
Proof.
  intros report summary.
  destruct (pipeline_status re_search str_decimal str_date config patterns today
              result) as [Hvs [Hpm [Hw [Hcrit Hnocrit]]]].
  fold report in Hvs, Hpm, Hw, Hcrit, Hnocrit.
  destruct (pipeline_check_accounting re_search str_decimal str_date config
              patterns today result) as [_ [_ [Hfailed _]]].
  fold report in Hfailed.
  pose proof (review_rows_sorted_by_severity str_decimal report) as [Hlen _].
  rewrite Hvs, Hpm in Hlen.
  unfold summary, ReportGenerator.generate_business_summary.
  cbn [BusinessSummary.review_items BusinessSummary.failed_checks
       BusinessSummary.warnings BusinessSummary.transactions
       BusinessSummary.highlights BusinessSummary.status BusinessSummary.actions].
  set (items := ReportGenerator._collect_review_items str_decimal report) in *.
  split; [rewrite Hlen, Hfailed, Hw; reflexivity|].
  split; [reflexivity|].
  split.
  { unfold Zlen. rewrite length_firstn. lia. }
  assert (forall P : Prop, (has_severity "CRITICAL"
                              (HardRulesValidator.validate today result) -> P) ->
                           (~ has_severity "CRITICAL"
                                (HardRulesValidator.validate today result) -> P) -> P)
    as Hdec.
  { intros P Hyes Hno.
    destruct (0 <? ValidationReport.count_severity "CRITICAL"
                     (HardRulesValidator.validate today result)) eqn:E.
    - apply Hyes. apply count_severity_pos. exact E.
    - apply Hno. apply count_severity_zero. exact E. }
  split; [|split].
  - apply Hdec; intro H.
    + rewrite (Hcrit H). cbn. auto.
    + destruct (Hnocrit H) as [-> | ->]; cbn; auto.
  - split.
    + intro Hs. apply Hdec; [auto|]. intro H.
      destruct (Hnocrit H) as [E|E]; rewrite E in Hs; discriminate Hs.
    + intro H. rewrite (Hcrit H). reflexivity.
  - unfold ReportGenerator._business_actions.
    assert (negb (is_empty items) = (0 <? Zlen items)) as ->.
    { destruct items; [reflexivity|]. cbn [is_empty negb].
      symmetry. apply Z.ltb_lt. rewrite Zlen_cons.
      pose proof (Zlen_nonneg items). lia. }
    destruct (0 <? Zlen items);
      repeat match goal with
             | |- context [String.eqb ?a ?b] => destruct (String.eqb a b)
             end; reflexivity.
Qed.

(** * Reading amounts from text *)

Section ParsingFacts.

Lemma char_in_remove_char (c : ascii) (s : string) :
  char_in c (remove_char c s) = false.
Proof.
  induction s as [|c' s IH]; [reflexivity|].
  cbn [remove_char]. destruct (Ascii.eqb c' c) eqn:E; [exact IH|].
  cbn [char_in]. rewrite Ascii.eqb_sym, E, IH. reflexivity.
Qed.

Lemma char_in_remove_other (c d : ascii) (s : string) :
  char_in c s = false -> char_in c (remove_char d s) = false.
Proof.
  induction s as [|c' s IH]; [reflexivity|].
  cbn [char_in remove_char]. intro H.
  apply orb_false_iff in H. destruct H as [H1 H2].
  destruct (Ascii.eqb c' d); [exact (IH H2)|].
  cbn [char_in]. rewrite H1, (IH H2). reflexivity.
Qed.

Lemma char_in_replace_char (c new : ascii) (s : string) :
  Ascii.eqb c new = false -> char_in c (replace_char c new s) = false.
Proof.
  intro Hne. unfold replace_char.
  induction s as [|c' s IH]; [reflexivity|].
  cbn [str_map char_in]. rewrite IH.
  destruct (Ascii.eqb c' c) eqn:E.
  - rewrite Hne. reflexivity.
  - rewrite Ascii.eqb_sym, E. reflexivity.
Qed.

Lemma char_in_replace_other (c old new : ascii) (s : string) :
  Ascii.eqb c new = false -> char_in c s = false ->
  char_in c (replace_char old new s) = false.
Proof.
  intros Hne. unfold replace_char.
  induction s as [|c' s IH]; [reflexivity|].
  cbn [str_map char_in]. intro H.
  apply orb_false_iff in H. destruct H as [H1 H2].
  rewrite (IH H2). destruct (Ascii.eqb c' old).
  - rewrite Hne. reflexivity.
  - rewrite H1. reflexivity.
Qed.

Lemma char_in_substring (c : ascii) (s : string) (n m : nat) :
  char_in c s = false -> char_in c (String.substring n m s) = false.
Proof.
  revert n m. induction s as [|c' s IH]; intros n m H.
  - destruct n, m; reflexivity.
  - cbn [char_in] in H. apply orb_false_iff in H. destruct H as [H1 H2].
    destruct n as [|n]; cbn [String.substring].
    + destruct m as [|m]; [reflexivity|].
      cbn [char_in]. rewrite H1, (IH 0%nat m H2). reflexivity.
    + apply IH. exact H2.
Qed.

Lemma char_in_drop_last (c : ascii) (n : nat) (s : string) :
  char_in c s = false -> char_in c (drop_last n s) = false.
Proof. apply char_in_substring. Qed.

Lemma char_in_drop_first (c : ascii) (s : string) :
  char_in c s = false -> char_in c (drop_first s) = false.
Proof.
  destruct s as [|c' s]; [auto|].
  cbn [char_in drop_first]. intro H.
  apply orb_false_iff in H. apply H.
Qed.



Variable Decimal_of_string : string -> option Decimal.

(** What [normalise_amount] hands to [Decimal] holds no comma, no dollar
    sign and no space. *)
Lemma normalise_amount_clean (value : string) (neg : bool) (text : string) :
  Parsing.normalise_amount value = Some (neg, text) ->
  char_in "," text = false /\ char_in "$" text = false /\ char_in " " text = false.
Proof.
  unfold Parsing.normalise_amount.
  destruct (negb (str_nonempty value)); [discriminate|].
  destruct (negb (str_nonempty (strip value))); [discriminate|].
  set (suffix := if endswith (upper (strip value)) "CR" then _ else _).
  destruct suffix as [suffix_sign c1]. 
  set (c2 := remove_char " " (remove_char "$" c1)).
  assert (char_in "$" c2 = false /\ char_in " " c2 = false) as Hc2.
  { split.
    - apply char_in_remove_other, char_in_remove_char.
    - apply char_in_remove_char. }
  clearbody c2. destruct Hc2 as [Hd Hs].
  set (bracket := if String.prefix "(" c2 && endswith c2 ")" then _ else _).
  assert (char_in "$" (snd bracket) = false /\ char_in " " (snd bracket) = false)
    as Hc3.
  { subst bracket.
    destruct (String.prefix "(" c2 && endswith c2 ")");
      [|destruct (String.prefix "-" c2); [|destruct (String.prefix "+" c2)]];
      cbn [snd]; split;
      auto using char_in_drop_last, char_in_drop_first. }
  destruct bracket as [is_negative c3]. cbn [snd] in Hc3. destruct Hc3 as [Hd3 Hs3].
  intro H. injection H as _ Htext. subst text.
  destruct (char_in "," c3 && char_in "." c3 && (rfind "." c3 <? rfind "," c3));
    [|destruct (char_in "," c3 && negb (char_in "." c3));
      [destruct (comma_two_digits_at_end c3)|]].
  - repeat split.
    + apply char_in_replace_char. reflexivity.
    + apply char_in_replace_other; [reflexivity|]. apply char_in_remove_other, Hd3.
    + apply char_in_replace_other; [reflexivity|]. apply char_in_remove_other, Hs3.
  - repeat split.
    + apply char_in_replace_char. reflexivity.
    + apply char_in_replace_other; [reflexivity|exact Hd3].
    + apply char_in_replace_other; [reflexivity|exact Hs3].
  - repeat split.
    + apply char_in_remove_char.
    + apply char_in_remove_other, Hd3.
    + apply char_in_remove_other, Hs3.
  - repeat split.
    + apply char_in_remove_char.
    + apply char_in_remove_other, Hd3.
    + apply char_in_remove_other, Hs3.
Qed.


End ParsingFacts.

Section ParseAmount.

Variable Decimal_of_string : string -> option Decimal.

(** X19. [parse_amount] returns nothing for a missing, empty or blank text
    and otherwise only what [Decimal] makes of a text that holds no comma,
    no dollar sign and no space, or the negation of that. *)
Theorem parse_amount_reads_clean_text :
  Parsing.parse_amount Decimal_of_string None = None
  /\ (forall value : string,
        strip value = EmptyString ->
        Parsing.parse_amount Decimal_of_string (Some value) = None)
  /\ (forall (value : option string) (amount : Decimal),
        Parsing.parse_amount Decimal_of_string value = Some amount ->
        exists (text : string) (d : Decimal),
          Decimal_of_string text = Some d
          /\ (amount = d \/ amount = dec_neg d)
          /\ char_in "," text = false
          /\ char_in "$" text = false
          /\ char_in " " text = false).
Proof.
  split; [reflexivity|]. split.
  - intros value Hblank. unfold Parsing.parse_amount, Parsing.normalise_amount.
    rewrite Hblank. destruct (negb (str_nonempty value)); reflexivity.
  - intros [value|] amount; [|discriminate].
    unfold Parsing.parse_amount.
    destruct (Parsing.normalise_amount value) as [[neg text]|] eqn:E; [|discriminate].
    destruct (Decimal_of_string text) as [d|] eqn:Ed; [|discriminate].
    intro H. injection H as H. exists text, d.
    split; [exact Ed|]. split.
    + destruct neg; [right|left]; symmetry; exact H.
    + exact (normalise_amount_clean value neg text E).
Qed.


End ParseAmount.

(** A reading of digit strings, enough to run [parse_amount]. *)
Lemma parse_amount_witness :
  let D := fun s : string =>
             if String.eqb s "1234.56" then Some (mkDecimal 123456 (-2)) else None in
  exists (text : string) (d : Decimal),
    D text = Some d
    /\ (mkDecimal 123456 (-2) = d \/ mkDecimal 123456 (-2) = dec_neg d)
    /\ char_in "," text = false
    /\ char_in "$" text = false
    /\ char_in " " text = false.
Proof.
  intro D.
  apply (proj2 (proj2 (parse_amount_reads_clean_text D)) (Some " $1,234.56 "%string)).
  reflexivity.
Defined.


(** * From table cells to rows *)

Section CellFacts.

Variable strptime : string -> string -> option date.
Variable Decimal_of_string : string -> option Decimal.

Local Notation "'cells_to_transaction'" :=
  (DocumentAIClient._cells_to_transaction strptime Decimal_of_string).
Local Notation "'parse_table'" :=
  (DocumentAIClient._parse_table strptime Decimal_of_string).
Local Notation "'extract_rows'" :=
  (DocumentAIClient._extract_rows strptime Decimal_of_string).

Lemma cells_to_transaction_none (cells : list Cell.t) (page_num row_idx : Z) :
  cells_to_transaction cells page_num row_idx = None
  <-> (List.length cells < 3)%nat.
Proof.
  unfold DocumentAIClient._cells_to_transaction.
  destruct cells as [|c0 [|c1 [|c2 more]]]; cbn [List.length];
    try (split; [intros _; lia | reflexivity]).
  split; [|lia].
  destruct more as [|c3 [|c4 [|c5 more]]]; discriminate.
Qed.

Lemma cells_to_transaction_index (cells : list Cell.t) (page_num row_idx : Z)
    (row : TransactionRow.t) :
  cells_to_transaction cells page_num row_idx = Some row ->
  TransactionRow.page_number row = page_num
  /\ TransactionRow.row_index row = row_idx.
Proof.
  unfold DocumentAIClient._cells_to_transaction.
  destruct cells as [|c0 [|c1 [|c2 more]]]; try discriminate.
  destruct more as [|c3 [|c4 [|c5 more]]]; cbv zeta;
    try (destruct (DocumentAIClient.parse_amount Decimal_of_string
                     (Some (Cell.text c2))) as [a|];
         [destruct (dec_ltb a (dec_of_Z 0))|]);
    intro H; injection H as H; subst row; split; reflexivity.
Qed.

Ltac row_fields :=
  unfold DocumentAIClient.set_balance, DocumentAIClient.set_amount_confidence,
    DocumentAIClient.set_withdrawal, DocumentAIClient.set_deposit;
  cbn [TransactionRow.deposit TransactionRow.withdrawal TransactionRow.balance].

(** The three shapes of a row read from four cells. *)
Lemma four_cell_row_cases (cells : list Cell.t) (page_num row_idx : Z)
    (row : TransactionRow.t) :
  List.length cells = 4%nat ->
  cells_to_transaction cells page_num row_idx = Some row ->
  (TransactionRow.deposit row = None /\ TransactionRow.withdrawal row = None)
  \/ (exists a, dec_ltb a (dec_of_Z 0) = true
                /\ TransactionRow.deposit row = None
                /\ TransactionRow.withdrawal row = Some (dec_abs a))
  \/ (exists a, dec_ltb a (dec_of_Z 0) = false
                /\ TransactionRow.deposit row = Some a
                /\ TransactionRow.withdrawal row = None).
Proof.
  intro Hlen.
  destruct cells as [|c0 [|c1 [|c2 [|c3 [|c4 more]]]]]; try discriminate Hlen.
  unfold DocumentAIClient._cells_to_transaction. cbv zeta.
  destruct (DocumentAIClient.parse_amount Decimal_of_string (Some (Cell.text c2)))
    as [a|]; [destruct (dec_ltb a (dec_of_Z 0)) eqn:Elt|];
    intro H; injection H as H; subst row; row_fields.
  - right. left. exists a. repeat split. exact Elt.
  - right. right. exists a. repeat split. exact Elt.
  - left. split; reflexivity.
Qed.

Lemma dec_abs_of_negative (a : Decimal) :
  dec_ltb a (dec_of_Z 0) = true -> (0 < dec_value (dec_abs a))%Q.
Proof.
  intro Elt. apply dec_ltb_value in Elt. rewrite dec_of_Z_value in Elt.
  rewrite dec_abs_value. change (inject_Z 0) with 0%Q in Elt.
  rewrite Qabs_neg by (apply Qlt_le_weak; exact Elt).
  apply (Qopp_lt_compat (dec_value a) 0) in Elt. exact Elt.
Qed.

Lemma four_cell_row_no_negative (cells : list Cell.t) (page_num row_idx : Z)
    (row : TransactionRow.t) (idx : nat) :
  List.length cells = 4%nat ->
  cells_to_transaction cells page_num row_idx = Some row ->
  RiskSignalDetector.negative_amounts_row idx row = [].
Proof.
  intros Hlen Hrow. unfold RiskSignalDetector.negative_amounts_row.
  destruct (four_cell_row_cases cells page_num row_idx row Hlen Hrow)
    as [[-> ->]|[[a [Elt [-> ->]]]|[a [Elt [-> ->]]]]].
  - reflexivity.
  - destruct (dec_ltb (dec_abs a) (dec_of_Z 0)) eqn:E; [|reflexivity].
    apply dec_ltb_value in E. rewrite dec_of_Z_value in E.
    change (inject_Z 0) with 0%Q in E.
    pose proof (dec_abs_of_negative a Elt) as Hpos.
    exfalso. apply (Qlt_irrefl 0). apply (Qlt_trans _ _ _ Hpos E).
  - rewrite Elt. reflexivity.
Qed.

(** X21. A row read from four cells (date, description, amount, balance)
    never has both a deposit and a withdrawal; its deposit, if any, is not
    negative and its withdrawal, if any, is positive, so the quick logic
    check finds no negative amount in it. *)
Theorem four_cell_row_is_one_sided (cells : list Cell.t) (page_num row_idx : Z)
    (row : TransactionRow.t) :
  List.length cells = 4%nat ->
  cells_to_transaction cells page_num row_idx = Some row ->
  (TransactionRow.deposit row = None \/ TransactionRow.withdrawal row = None)
  /\ (forall d, TransactionRow.deposit row = Some d -> (0 <= dec_value d)%Q)
  /\ (forall w, TransactionRow.withdrawal row = Some w -> (0 < dec_value w)%Q)
  /\ (forall idx, RiskSignalDetector.negative_amounts_row idx row = []).
Proof.
  intros Hlen Hrow.
  split; [|split; [|split]].
  - destruct (four_cell_row_cases cells page_num row_idx row Hlen Hrow)
      as [[Hd _]|[[a [_ [Hd _]]]|[a [_ [_ Hw]]]]]; auto.
  - intros d Hd.
    destruct (four_cell_row_cases cells page_num row_idx row Hlen Hrow)
      as [[Hn _]|[[a [_ [Hn _]]]|[a [Elt [Ha _]]]]];
      try (rewrite Hn in Hd; discriminate Hd).
    rewrite Ha in Hd. injection Hd as Hd. subst d.
    apply dec_ltb_false_value in Elt. rewrite dec_of_Z_value in Elt. exact Elt.
  - intros w Hw.
    destruct (four_cell_row_cases cells page_num row_idx row Hlen Hrow)
      as [[_ Hn]|[[a [Elt [_ Ha]]]|[a [_ [_ Hn]]]]];
      try (rewrite Hn in Hw; discriminate Hw).
    rewrite Ha in Hw. injection Hw as Hw. subst w.
    apply dec_abs_of_negative. exact Elt.
  - intro idx. exact (four_cell_row_no_negative cells page_num row_idx row idx
                        Hlen Hrow).
Qed.

(** X22. Cells give a row exactly when there are at least three of them;
    the row carries the page and row number it was given; from three cells
    it has no deposit and no withdrawal, and from more than five cells it
    has no amount at all and no amount or balance confidence, so that the
    amount format check answers it with one HIGH NO_AMOUNT violation. *)
Theorem cells_to_transaction_shape (cells : list Cell.t) (page_num row_idx : Z) :
  (cells_to_transaction cells page_num row_idx = None
   <-> (List.length cells < 3)%nat)
  /\ (forall row,
        cells_to_transaction cells page_num row_idx = Some row ->
        TransactionRow.page_number row = page_num
        /\ TransactionRow.row_index row = row_idx
        /\ (List.length cells = 3%nat ->
            TransactionRow.deposit row = None
            /\ TransactionRow.withdrawal row = None)
        /\ ((5 < List.length cells)%nat ->
            TransactionRow.deposit row = None
            /\ TransactionRow.withdrawal row = None
            /\ TransactionRow.balance row = None
            /\ TransactionRow.amount_confidence row = 0%Q
            /\ TransactionRow.balance_confidence row = 0%Q
            /\ forall idx,
                 HardRulesValidator.amount_format_row idx row
                 = [RuleViolation.mk "NO_AMOUNT" "HIGH" (Some idx)
                      None None None None])).
Proof.
  split; [apply cells_to_transaction_none|].
  intros row Hrow.
  destruct (cells_to_transaction_index cells page_num row_idx row Hrow) as [Hp Hi].
  split; [exact Hp|]. split; [exact Hi|].
  unfold DocumentAIClient._cells_to_transaction in Hrow.
  destruct cells as [|c0 [|c1 [|c2 more]]]; try discriminate Hrow.
  split.
  - intro Hlen. destruct more as [|c3 more]; [|discriminate Hlen].
    injection Hrow as Hrow. subst row. split; reflexivity.
  - intro Hlen.
    destruct more as [|c3 [|c4 [|c5 more]]]; cbn [List.length] in Hlen; try lia.
    injection Hrow as Hrow. subst row.
    repeat (split; [reflexivity|]). intro idx. reflexivity.
Qed.

Lemma parse_table_indexes_from (l : list (list Cell.t)) (page_num start : Z)
    (s : nat) :
  map TransactionRow.row_index
      (flat_map (fun '(row_idx, cells) =>
                   match cells_to_transaction cells page_num
                           (start + Z.of_nat row_idx) with
                   | Some transaction => [transaction]
                   | None => []
                   end)
                (combine (seq s (List.length l)) l))
  = map (fun i => start + Z.of_nat i)
        (map fst (filter (fun ir => (3 <=? List.length (snd ir))%nat)
                         (combine (seq s (List.length l)) l))).
Proof.
  revert s. induction l as [|cells l IH]; intro s; [reflexivity|].
  cbn [List.length seq combine flat_map filter snd].
  rewrite map_app, IH.
  destruct (cells_to_transaction cells page_num (start + Z.of_nat s))
    as [row|] eqn:E.
  - destruct (cells_to_transaction_index _ _ _ _ E) as [_ Hi].
    assert ((3 <=? List.length cells)%nat = true) as ->.
    { apply Nat.leb_le.
      destruct (Nat.lt_ge_cases (List.length cells) 3) as [Hlt|Hge]; [|exact Hge].
      apply (cells_to_transaction_none cells page_num (start + Z.of_nat s)) in Hlt.
      congruence. }
    cbn [map fst app]. rewrite Hi. reflexivity.
  - apply cells_to_transaction_none in E.
    assert ((3 <=? List.length cells)%nat = false) as ->
      by (apply Nat.leb_gt; exact E).
    reflexivity.
Qed.

(** X23. The rows [_parse_table] returns stand for the body rows that have
    at least three cells, in order: their row numbers are the start number
    plus the positions of those body rows, and all carry the page number. *)
Theorem parse_table_row_numbers (body_rows : list (list Cell.t))
    (page_num start_row_idx : Z) :
  map TransactionRow.row_index (parse_table body_rows page_num start_row_idx)
  = map (fun i => start_row_idx + Z.of_nat i) (wide_enough_positions body_rows)
  /\ Forall (fun row => TransactionRow.page_number row = page_num)
            (parse_table body_rows page_num start_row_idx)
  /\ Zlen (parse_table body_rows page_num start_row_idx) <= Zlen body_rows.
Proof.
  split; [apply parse_table_indexes_from|]. split.
  - apply Forall_forall. intros row Hin.
    unfold DocumentAIClient._parse_table in Hin.
    apply in_flat_map in Hin. destruct Hin as [[i cells] [_ Hin]].
    destruct (cells_to_transaction cells page_num (start_row_idx + Z.of_nat i))
      as [r|] eqn:E; [|destruct Hin].
    destruct Hin as [Hin|[]]. subst r.
    apply (cells_to_transaction_index _ _ _ _ E).
  - pose proof (f_equal (@List.length Z)
                  (parse_table_indexes_from body_rows page_num start_row_idx 0))
      as Hlen.
    rewrite !length_map in Hlen.
    unfold DocumentAIClient._parse_table, enumerate, Zlen. rewrite Hlen.
    pose proof (filter_length_le (fun ir : nat * list Cell.t =>
                                    (3 <=? List.length (snd ir))%nat)
                  (combine (seq 0 (List.length body_rows)) body_rows)) as Hle.
    rewrite length_combine, length_seq in Hle. lia.
Qed.

Lemma wide_positions_all (l : list (list Cell.t)) (s : nat) :
  Forall (fun cells => (3 <= List.length cells)%nat) l ->
  map fst (filter (fun ir => (3 <=? List.length (snd ir))%nat)
                  (combine (seq s (List.length l)) l))
  = seq s (List.length l).
Proof.
  revert s. induction l as [|cells l IH]; intros s H; [reflexivity|].
  inversion H as [|? ? Hc Hl]; subst.
  cbn [List.length seq combine filter snd].
  apply Nat.leb_le in Hc. rewrite Hc. cbn [map fst]. rewrite IH by exact Hl.
  reflexivity.
Qed.

Lemma map_shift_seq (n k : nat) :
  map (fun i => Z.of_nat n + Z.of_nat i) (seq 0 k) = map Z.of_nat (seq n k).
Proof.
  replace (seq n k) with (map (fun i => (n + i)%nat) (seq 0 k)).
  - rewrite map_map. apply map_ext. intro i. lia.
  - clear. revert n. induction k as [|k IH]; intro n; [reflexivity|].
    cbn [seq map]. rewrite Nat.add_0_r. f_equal.
    rewrite <- (seq_shift k 0), map_map, <- (IH (S n)).
    apply map_ext. intro i. lia.
Qed.

Lemma numbered_tables (tables : list (list (list Cell.t))) (page_num : Z)
    (state : list TransactionRow.t * Z) (n : nat) :
  Forall (fun cells => (3 <= List.length cells)%nat) (concat tables) ->
  numbered state n ->
  numbered
    (fold_left
       (fun '(all_rows, row_index) table =>
          let table_rows := parse_table table page_num row_index in
          (all_rows ++ table_rows, row_index + Zlen table_rows))
       tables state)
    (n + List.length (concat tables)).
Proof.
  revert state n. induction tables as [|table tables IH]; intros state n Hwide Hst.
  - cbn [concat List.length fold_left]. rewrite Nat.add_0_r. exact Hst.
  - cbn [concat] in Hwide. apply Forall_app in Hwide. destruct Hwide as [Ht Hts].
    cbn [fold_left concat]. rewrite length_app, Nat.add_assoc.
    apply IH; [exact Hts|].
    destruct state as [all_rows row_index]. destruct Hst as [Hidx Hrows].
    cbn [fst snd] in *. subst row_index.
    assert (map TransactionRow.row_index (parse_table table page_num (Z.of_nat n))
            = map Z.of_nat (seq n (List.length table))) as Hmap.
    { unfold DocumentAIClient._parse_table, enumerate.
      rewrite parse_table_indexes_from, wide_positions_all by exact Ht.
      apply map_shift_seq. }
    split; cbn [fst snd].
    + pose proof (f_equal (@List.length Z) Hmap) as Hlen.
      rewrite !length_map, length_seq in Hlen. unfold Zlen. rewrite Hlen. lia.
    + rewrite map_app, Hrows, Hmap, <- map_app.
      rewrite seq_app. reflexivity.
Qed.

Lemma numbered_pages (pages : list (list (list (list Cell.t)))) (s : nat)
    (state : list TransactionRow.t * Z) (n : nat) :
  Forall (fun cells => (3 <= List.length cells)%nat) (all_body_rows pages) ->
  numbered state n ->
  numbered
    (fold_left
       (fun state '(page_idx, tables) =>
          fold_left
            (fun '(all_rows, row_index) table =>
               let table_rows :=
                 parse_table table (Z.of_nat page_idx + 1) row_index in
               (all_rows ++ table_rows, row_index + Zlen table_rows))
            tables state)
       (combine (seq s (List.length pages)) pages) state)
    (n + List.length (all_body_rows pages)).
Proof.
  unfold all_body_rows.
  revert s state n. induction pages as [|tables pages IH]; intros s state n Hwide Hst.
  - cbn [concat List.length seq combine fold_left]. rewrite Nat.add_0_r. exact Hst.
  - cbn [concat] in Hwide. rewrite concat_app in Hwide.
    apply Forall_app in Hwide. destruct Hwide as [Ht Hts].
    cbn [List.length seq combine fold_left concat].
    rewrite concat_app, length_app, Nat.add_assoc.
    apply IH; [exact Hts|].
    apply numbered_tables; assumption.
Qed.

(** X24. When every body row of every table has at least three cells, the
    rows [_extract_data] collects are numbered 0, 1, 2, ... in reading
    order, one for each body row.  Without that the numbers are no key: a
    table that drops a row before keeping one makes the next table reuse a
    number. *)
Theorem extract_rows_numbering :
  (forall pages : list (list (list (list Cell.t))),
     Forall (fun cells => (3 <= List.length cells)%nat) (all_body_rows pages) ->
     map TransactionRow.row_index (extract_rows pages)
     = map Z.of_nat (seq 0 (List.length (all_body_rows pages))))
  /\ map TransactionRow.row_index (extract_rows two_table_page) = [1; 1].
Proof.
  split; [|reflexivity].
  intros pages Hwide. unfold DocumentAIClient._extract_rows, enumerate.
  apply (numbered_pages pages 0 ([], 0) 0 Hwide).
  split; reflexivity.
Qed.

End CellFacts.

Lemma four_cell_row_witness :
  let row :=
    TransactionRow.mk None "PAYMENT" None (Some (mkDecimal 5 0)) None None None
      1%Q 1%Q 1%Q 1%Q None 1 0 "-5" "Jan 2" in
  (TransactionRow.deposit row = None \/ TransactionRow.withdrawal row = None)
  /\ (forall d, TransactionRow.deposit row = Some d -> (0 <= dec_value d)%Q)
  /\ (forall w, TransactionRow.withdrawal row = Some w -> (0 < dec_value w)%Q)
  /\ (forall idx, RiskSignalDetector.negative_amounts_row idx row = []).
Proof.
  intro row.
  apply (four_cell_row_is_one_sided
           (fun _ _ => None)
           (fun s => if String.eqb s "5" then Some (mkDecimal 5 0) else None)
           [Cell.mk "Jan 2" 1%Q 1 1; Cell.mk "PAYMENT" 1%Q 1 1;
            Cell.mk "-5" 1%Q 1 1; Cell.mk "" 1%Q 1 1] 1 0 row); reflexivity.
Defined.

(** * The weighted score as a mean *)

Section WeightedMean.

Local Open Scope Q_scope.

Lemma weighted_sum_between (lo hi : Q) (l : list Component.t) :
  (forall c, In c l ->
     0 < Component.weight c
     /\ exists s, Component.score c = Some s /\ lo <= s <= hi) ->
  lo * fold_right Qplus 0 (map Component.weight l)
  <= fold_right Qplus 0 (map ConfidenceScorer.weighted l)
  <= hi * fold_right Qplus 0 (map Component.weight l).
Proof.
  induction l as [|c l IH]; intro H.
  - cbn [map fold_right]. split; lra.
  - destruct (H c (or_introl eq_refl)) as [Hw [s [Hs [Hlo Hhi]]]].
    destruct IH as [IHlo IHhi]; [intros x Hx; apply H; right; exact Hx|].
    cbn [map fold_right]. unfold ConfidenceScorer.weighted at 1 3. rewrite Hs.
    set (W := fold_right Qplus 0 (map Component.weight l)) in *.
    set (S := fold_right Qplus 0 (map ConfidenceScorer.weighted l)) in *.
    assert (lo * Component.weight c <= s * Component.weight c) as H1.
    { apply Qmult_le_compat_r; [exact Hlo|apply Qlt_le_weak; exact Hw]. }
    assert (s * Component.weight c <= hi * Component.weight c) as H2.
    { apply Qmult_le_compat_r; [exact Hhi|apply Qlt_le_weak; exact Hw]. }
    split; lra.
Qed.

Lemma weight_sum_positive (l : list Component.t) :
  l <> [] ->
  (forall c, In c l -> 0 < Component.weight c) ->
  0 < fold_right Qplus 0 (map Component.weight l).
Proof.
  destruct l as [|c l]; [congruence|]. intros _ H.
  assert (0 <= fold_right Qplus 0 (map Component.weight l)) as Hrest.
  { assert (forall x, In x l -> 0 < Component.weight x) as Hl
      by (intros x Hx; apply H; right; exact Hx).
    clear H. induction l as [|x l IH]; [cbn; lra|].
    cbn [map fold_right].
    pose proof (Hl x (or_introl eq_refl)).
    assert (0 <= fold_right Qplus 0 (map Component.weight l))
      by (apply IH; intros y Hy; apply Hl; right; exact Hy).
    lra. }
  cbn [map fold_right]. pose proof (H c (or_introl eq_refl)). lra.
Qed.

(** X25. The overall score is a weighted mean of the components that are
    available and have a positive weight: when there is such a component
    and all of them score between [lo] and [hi], within the unit interval,
    so does the overall score, whatever the weights are and whether or not
    they add up to one (the arithmetic taken exactly). *)
Theorem weighted_score_is_a_mean (components : list Component.t) (lo hi : Q) :
  0 <= lo -> hi <= 1 ->
  (exists c, In c components
             /\ Component.available c = true /\ 0 < Component.weight c) ->
  (forall c, In c components ->
             Component.available c = true -> 0 < Component.weight c ->
             exists s, Component.score c = Some s /\ lo <= s <= hi) ->
  lo <= ConfidenceScorer._weighted_score components <= hi.
Proof.
  intros Hlo Hhi [c0 [Hin0 [Hav0 Hw0]]] Hscores.
  unfold ConfidenceScorer._weighted_score.
  set (usable := filter (fun c => Component.available c
                                  && Qltb 0 (Component.weight c)) components).
  assert (forall c, In c usable ->
            0 < Component.weight c
            /\ exists s, Component.score c = Some s /\ lo <= s <= hi) as Husable.
  { intros c Hc. apply filter_In in Hc. destruct Hc as [Hc Hp].
    apply andb_true_iff in Hp. destruct Hp as [Hav Hw].
    apply Qltb_lt in Hw. split; [exact Hw|]. apply Hscores; assumption. }
  assert (usable <> []) as Hne.
  { intro E. assert (In c0 usable) as Hc0.
    { apply filter_In. split; [exact Hin0|].
      rewrite Hav0. apply Qltb_lt in Hw0. rewrite Hw0. reflexivity. }
    rewrite E in Hc0. destruct Hc0. }
  pose proof (weight_sum_positive usable Hne (fun c Hc => proj1 (Husable c Hc)))
    as Hpos.
  pose proof (weighted_sum_between lo hi usable Husable) as [Hsl Hsh].
  rewrite <- (Qsum_fold_right (map Component.weight usable)) in Hpos, Hsl, Hsh.
  rewrite <- (Qsum_fold_right (map ConfidenceScorer.weighted usable)) in Hsl, Hsh.
  set (W := Qsum (map Component.weight usable)) in *.
  set (S := Qsum (map ConfidenceScorer.weighted usable)) in *.
  destruct (Qle_bool W 0) eqn:E.
  { apply Qle_bool_iff in E. lra. }
  assert (lo <= S / W) as Hmlo by (apply Qle_shift_div_l; assumption).
  assert (S / W <= hi) as Hmhi by (apply Qle_shift_div_r; assumption).
  unfold py_max, py_min.
  destruct (Qltb_cases (S / W) 1) as [[-> H1]|[-> H1]];
    [destruct (Qltb_cases 0 (S / W)) as [[-> H0]|[-> H0]]
    |destruct (Qltb_cases 0 1) as [[-> H0]|[-> H0]]];
    split; lra.
Qed.

End WeightedMean.

Lemma weighted_score_witness :
  (1 # 2 <= ConfidenceScorer._weighted_score
              [ConfidenceScorer._component "engine_quality" "Primary engine quality"
                 (Some (1 # 2)) (3 # 1) (SourceNote "x");
               ConfidenceScorer._component "risk_signals" "Risk signal penalty"
                 (Some (3 # 4)) (5 # 1) (SourceNote "x");
               ConfidenceScorer._component "rule_consistency" "Hard-rule consistency"
                 None (2 # 1) (SourceNote "x")]
   <= 3 # 4)%Q.
Proof.
  apply weighted_score_is_a_mean.
  - discriminate.
  - discriminate.
  - eexists. split; [left; reflexivity|]. split; reflexivity.
  - intros c [<-|[<-|[<-|[]]]] Hav Hw.
    + eexists. split; [reflexivity|]. split; discriminate.
    + eexists. split; [reflexivity|]. split; discriminate.
    + discriminate Hav.
Defined.

(** * Four-column statements, from cells to checks *)

Section FourColumns.

Variable strptime : string -> string -> option date.
Variable Decimal_of_string : string -> option Decimal.

Local Notation "'cells_to_transaction'" :=
  (DocumentAIClient._cells_to_transaction strptime Decimal_of_string).
Local Notation "'parse_table'" :=
  (DocumentAIClient._parse_table strptime Decimal_of_string).
Local Notation "'extract_rows'" :=
  (DocumentAIClient._extract_rows strptime Decimal_of_string).

Local Notation "'read_from'" := (read_from_cells strptime Decimal_of_string).

Lemma parse_table_origin (table : list (list Cell.t)) (page_num start : Z)
    (row : TransactionRow.t) :
  In row (parse_table table page_num start) -> read_from table row.
Proof.
  unfold DocumentAIClient._parse_table. intro Hin.
  apply in_flat_map in Hin. destruct Hin as [[i cells] [Hic Hin]].
  destruct (cells_to_transaction cells page_num (start + Z.of_nat i))
    as [r|] eqn:E; [|destruct Hin].
  destruct Hin as [Hin|[]]. subst r.
  exists cells, page_num, (start + Z.of_nat i). split; [|exact E].
  unfold enumerate in Hic. apply in_combine_r in Hic. exact Hic.
Qed.

Lemma read_from_incl (some all : list (list Cell.t)) (row : TransactionRow.t) :
  incl some all -> read_from some row -> read_from all row.
Proof.
  intros Hincl [cells [p [i [Hin H]]]]. exists cells, p, i.
  split; [apply Hincl; exact Hin|exact H].
Qed.

Lemma origin_tables (all : list (list Cell.t)) (tables : list (list (list Cell.t)))
    (page_num : Z) (state : list TransactionRow.t * Z) :
  incl (concat tables) all ->
  (forall row, In row (fst state) -> read_from all row) ->
  forall row,
    In row (fst (fold_left
                   (fun '(all_rows, row_index) table =>
                      let table_rows := parse_table table page_num row_index in
                      (all_rows ++ table_rows, row_index + Zlen table_rows))
                   tables state)) ->
    read_from all row.
Proof.
  revert state. induction tables as [|table tables IH]; intros state Hincl Hst.
  - exact Hst.
  - cbn [concat] in Hincl. cbn [fold_left]. apply IH.
    + intros x Hx. apply Hincl. apply in_or_app. right. exact Hx.
    + destruct state as [all_rows row_index]. cbn [fst]. intros row Hrow.
      apply in_app_or in Hrow. destruct Hrow as [Hrow|Hrow].
      * apply Hst. exact Hrow.
      * apply (read_from_incl table); [|exact (parse_table_origin _ _ _ _ Hrow)].
        intros x Hx. apply Hincl. apply in_or_app. left. exact Hx.
Qed.

Lemma origin_pages (all : list (list Cell.t))
    (pages : list (list (list (list Cell.t)))) (s : nat)
    (state : list TransactionRow.t * Z) :
  incl (all_body_rows pages) all ->
  (forall row, In row (fst state) -> read_from all row) ->
  forall row,
    In row (fst (fold_left
                   (fun state '(page_idx, tables) =>
                      fold_left
                        (fun '(all_rows, row_index) table =>
                           let table_rows :=
                             parse_table table (Z.of_nat page_idx + 1) row_index in
                           (all_rows ++ table_rows, row_index + Zlen table_rows))
                        tables state)
                   (combine (seq s (List.length pages)) pages) state)) ->
    read_from all row.
Proof.
  unfold all_body_rows.
  revert s state. induction pages as [|tables pages IH]; intros s state Hincl Hst.
  - exact Hst.
  - cbn [concat] in Hincl. rewrite concat_app in Hincl.
    cbn [List.length seq combine fold_left]. apply IH.
    + intros x Hx. apply Hincl. apply in_or_app. right. exact Hx.
    + apply origin_tables; [|exact Hst].
      intros x Hx. apply Hincl. apply in_or_app. left. exact Hx.
Qed.

Lemma extract_rows_origin (pages : list (list (list (list Cell.t))))
    (row : TransactionRow.t) :
  In row (extract_rows pages) -> read_from (all_body_rows pages) row.
Proof.
  unfold DocumentAIClient._extract_rows, enumerate.
  apply origin_pages; [apply incl_refl|intros r []].
Qed.

(** X26. On a statement whose tables all have four columns (date,
    description, amount, balance), the rows [_extract_data] collects never
    draw a BOTH_DEPOSIT_WITHDRAWAL violation from the hard rules, and the
    quick logic check reports no negative deposit or withdrawal. *)
Theorem four_column_statement_is_one_sided
    (pages : list (list (list (list Cell.t)))) (today : date)
    (result : OCRResult.t) :
  Forall (fun cells => List.length cells = 4%nat) (all_body_rows pages) ->
  OCRResult.rows result = extract_rows pages ->
  by_rule "BOTH_DEPOSIT_WITHDRAWAL" (HardRulesValidator.validate today result) = []
  /\ filter is_negative_amount_error (RiskSignalDetector.quick_logic_check result)
     = [].
Proof.
  intros Hfour Hrows.
  assert (forall row, In row (OCRResult.rows result) ->
            (TransactionRow.deposit row = None \/ TransactionRow.withdrawal row = None)
            /\ forall idx, RiskSignalDetector.negative_amounts_row idx row = [])
    as Hside.
  { intros row Hin. rewrite Hrows in Hin.
    apply extract_rows_origin in Hin. destruct Hin as [cells [p [i [Hin Hc]]]].
    rewrite Forall_forall in Hfour.
    split.
    - destruct (four_cell_row_cases strptime Decimal_of_string cells p i row
                  (Hfour cells Hin) Hc)
        as [[Hd _]|[[a [_ [Hd _]]]|[a [_ [_ Hw]]]]]; auto.
    - intro idx.
      exact (four_cell_row_no_negative strptime Decimal_of_string cells p i row idx
               (Hfour cells Hin) Hc). }
  split.
  - unfold HardRulesValidator.validate, by_rule.
    destruct (is_empty (OCRResult.rows result)); [reflexivity|].
    rewrite !filter_app.
    rewrite (filter_none _ (HardRulesValidator.validate_date_range today result)).
    2:{ intros v Hv. apply HardRulesFacts.date_range_rules in Hv. cbn in Hv.
        destruct Hv as [<-|[<-|[<-|[]]]]; reflexivity. }
    rewrite (filter_none _ (HardRulesValidator.validate_running_balance result)).
    2:{ intros v Hv. unfold HardRulesValidator.validate_running_balance in Hv.
        apply in_flat_map in Hv. destruct Hv as [i [_ Hv]].
        apply HardRulesFacts.running_balance_at_rules in Hv.
        destruct Hv as [-> _]. reflexivity. }
    rewrite (filter_none _ (HardRulesValidator.validate_overall_balance result)).
    2:{ intros v Hv. apply HardRulesFacts.overall_balance_rules in Hv.
        destruct Hv as [-> _]. reflexivity. }
    rewrite !app_nil_r. cbn [app].
    apply filter_none. intros v Hv.
    unfold HardRulesValidator.validate_amount_format in Hv.
    apply in_flat_map in Hv. destruct Hv as [[idx row] [Hir Hv]].
    cbn [fst snd] in Hv. unfold enumerate in Hir. apply in_combine_r in Hir.
    destruct (Hside row Hir) as [Hone _].
    unfold HardRulesValidator.amount_format_row in Hv.
    repeat (apply in_app_or in Hv; destruct Hv as [Hv|Hv]);
      try (apply HardRulesFacts.amount_format_field_rules in Hv; subst v;
           reflexivity).
    destruct Hone as [Hone|Hone]; rewrite Hone in Hv;
      destruct (TransactionRow.deposit row), (TransactionRow.withdrawal row);
      try discriminate Hone; try destruct Hv as [<-|[]]; try destruct Hv;
      reflexivity.
  - unfold RiskSignalDetector.quick_logic_check.
    rewrite !filter_app.
    rewrite (flat_map_nil
               (fun ir => RiskSignalDetector.negative_amounts_row (fst ir) (snd ir))).
    2:{ intros [idx row] Hir. unfold enumerate in Hir. apply in_combine_r in Hir.
        apply (Hside row Hir). }
    cbn [filter]. rewrite !app_nil_r.
    assert (forall A B : list LogicError,
              filter is_negative_amount_error A = [] ->
              filter is_negative_amount_error B = [] ->
              filter is_negative_amount_error A ++ filter is_negative_amount_error B
              = []) as Happ by (intros A B -> ->; reflexivity).
    apply Happ.
    + destruct (OCRResult.opening_balance result) as [opening|]; [|reflexivity].
      destruct (OCRResult.closing_balance result) as [closing|]; [|reflexivity].
      destruct (is_empty (OCRResult.rows result)); [reflexivity|].
      destruct (negb (dec_eqb closing (dec_of_Z 0))); [|reflexivity].
      match goal with
      | |- context [if ?b then _ else _] => destruct b
      end; reflexivity.
    + destruct (present TransactionRow.transaction_date (OCRResult.rows result))
        as [|d rest]; [reflexivity|].
      match goal with
      | |- context [if ?b then _ else _] => destruct b
      end; reflexivity.
Qed.

End FourColumns.

Lemma four_column_statement_witness :
  let cells :=
    [Cell.mk "Jan 2" 1%Q 1 1; Cell.mk "PAYMENT" 1%Q 1 1;
     Cell.mk "-5" 1%Q 1 1; Cell.mk "95" 1%Q 1 1] in
  let D := fun s : string =>
             if String.eqb s "5" then Some (mkDecimal 5 0)
             else if String.eqb s "95" then Some (mkDecimal 95 0) else None in
  let result :=
    OCRResult.mk "docai" "document_ai" "now"
      (DocumentAIClient._extract_rows (fun _ _ => None) D [[[cells; cells]]])
      [] false 0%Q None None 1 2 0%Q in
  by_rule "BOTH_DEPOSIT_WITHDRAWAL" (HardRulesValidator.validate 0 result) = []
  /\ filter is_negative_amount_error (RiskSignalDetector.quick_logic_check result)
     = [].
Proof.
  intros cells D result.
  apply (four_column_statement_is_one_sided (fun _ _ => None) D [[[cells; cells]]]).
  - repeat constructor.
  - reflexivity.
Defined.
